(** * cosmos-api-watch: the endpoint health-check engine

    A shallow embedding of [worker/checker.py] (timestamp parsing, block
    delay, the RPC and API probes, error classification) and of
    [worker/runner.py] (the batch runner and one turn of the scheduler
    loop), and of the read-only routes of [api/routes.py], followed by the
    properties proved about them.

    Conventions.
    - A Python [str] is a [string]; one [ascii] stands for one character.
    - A Python computation that may raise is a [pyresult]: [Return v] or
      [Raise msg], where [msg] is [str(e)] of the exception; every handler
      of the sources is [except Exception] and only ever reads [str(e)].
    - Values decoded from JSON are [pyval]s.
    - The outside world (HTTP, the clock, the database session) is passed
      in explicitly. *)

From Stdlib Require Import ZArith List Bool Lia.
From Stdlib Require Import Sorting.Permutation.
From Stdlib Require Import Strings.String Strings.Ascii.
From Stdlib Require Import Numbers.DecimalString.
From Stdlib Require Import Floats.SpecFloat.
Import ListNotations.

Local Open Scope string_scope.
Local Open Scope Z_scope.

(* ------------------------------------------------------------------ *)
(** ** Computations that may raise *)

Inductive pyresult (A : Type) : Type :=
| Return (a : A)
| Raise (msg : string).

Arguments Return {A} a.
Arguments Raise {A} msg.

Definition bind {A B : Type} (c : pyresult A) (k : A -> pyresult B) : pyresult B :=
  match c with
  | Return a => k a
  | Raise msg => Raise msg
  end.

Notation "x <- c ;; k" := (bind c (fun x => k))
  (at level 61, c at next level, right associativity).

(** [try: c  except Exception as e: h (str e)] *)
Definition try_except {A : Type} (c : pyresult A) (h : string -> A) : A :=
  match c with
  | Return a => a
  | Raise msg => h msg
  end.

(* ------------------------------------------------------------------ *)
(** ** Python string operations used by the sources *)

Module PyStr.

(** [s.startswith(p)] *)
Definition startswith (p s : string) : bool := prefix p s.

(** [p in s] *)
Fixpoint contains (p s : string) : bool :=
  prefix p s ||
  match s with
  | EmptyString => false
  | String _ s' => contains p s'
  end.

(** [s.endswith(p)] *)
Fixpoint endswith (p s : string) : bool :=
  (s =? p)%string ||
  match s with
  | EmptyString => false
  | String _ s' => endswith p s'
  end.

(** [s[:n]] for [n >= 0] *)
Fixpoint take (n : nat) (s : string) : string :=
  match n, s with
  | O, _ => EmptyString
  | _, EmptyString => EmptyString
  | S n', String c s' => String c (take n' s')
  end.

(** [s[:-1]] *)
Fixpoint drop_last (s : string) : string :=
  match s with
  | EmptyString => EmptyString
  | String c EmptyString => EmptyString
  | String c s' => String c (drop_last s')
  end.

(** [s.split(c, 1)] when [c in s]: the text before and after the first [c];
    [None] when [c] does not occur. *)
Fixpoint split_once (c : ascii) (s : string) : option (string * string) :=
  match s with
  | EmptyString => None
  | String a s' =>
      if Ascii.eqb a c then Some (EmptyString, s')
      else match split_once c s' with
           | Some (l, r) => Some (String a l, r)
           | None => None
           end
  end.

(** [s.rstrip(c)] for a single character [c] *)
Fixpoint rstrip (c : ascii) (s : string) : string :=
  match s with
  | EmptyString => EmptyString
  | String a s' =>
      match rstrip c s' with
      | EmptyString => if Ascii.eqb a c then EmptyString else String a EmptyString
      | r => String a r
      end
  end.

Definition lower_ascii (a : ascii) : ascii :=
  let n := nat_of_ascii a in
  if (65 <=? n)%nat && (n <=? 90)%nat then ascii_of_nat (n + 32) else a.

(** [s.lower()]; only the letters [A]..[Z] change among the characters
    modelled here. *)
Fixpoint lower (s : string) : string :=
  match s with
  | EmptyString => EmptyString
  | String a s' => String (lower_ascii a) (lower s')
  end.

(** [str(n)] for an [int] *)
Definition str_of_int (n : Z) : string := NilZero.string_of_int (Z.to_int n).

(** The characters [0]..[9]. *)
Definition is_digit (a : ascii) : bool :=
  let n := nat_of_ascii a in (48 <=? n)%nat && (n <=? 57)%nat.

Fixpoint all_chars (p : ascii -> bool) (s : string) : bool :=
  match s with
  | EmptyString => true
  | String a s' => p a && all_chars p s'
  end.

Definition has_char (c : ascii) (s : string) : bool :=
  contains (String c EmptyString) s.

End PyStr.

Import PyStr.

(* ------------------------------------------------------------------ *)
(** ** Values decoded from JSON *)

Local Set Warnings "-register-all".

Inductive pyval : Type :=
| PNone
| PBool (b : bool)
| PInt (n : Z)
| PFloat (f : spec_float)
| PStr (s : string)
| PList (l : list pyval)
| PDict (items : list (string * pyval)).

(** [bool(v)] *)
Definition truthy (v : pyval) : bool :=
  match v with
  | PNone => false
  | PBool b => b
  | PInt n => negb (n =? 0)
  | PFloat (S754_zero _) => false
  | PFloat _ => true
  | PStr s => negb (s =? "")%string
  | PList l => match l with [] => false | _ => true end
  | PDict d => match d with [] => false | _ => true end
  end.

(** [type(v).__name__] *)
Definition type_name (v : pyval) : string :=
  match v with
  | PNone => "NoneType"
  | PBool _ => "bool"
  | PInt _ => "int"
  | PFloat _ => "float"
  | PStr _ => "str"
  | PList _ => "list"
  | PDict _ => "dict"
  end.

(** [str(e)] of the [AttributeError] raised by [v.attr] *)
Definition no_attribute (v : pyval) (attr : string) : string :=
  "'" ++ type_name v ++ "' object has no attribute '" ++ attr ++ "'".

Fixpoint lookup (k : string) (items : list (string * pyval)) : pyval :=
  match items with
  | [] => PNone
  | (k', v) :: rest => if (k' =? k)%string then v else lookup k rest
  end.

(** [v.get(k)]: only a [dict] has a [get]. *)
Definition py_get (v : pyval) (k : string) : pyresult pyval :=
  match v with
  | PDict items => Return (lookup k items)
  | _ => Raise (no_attribute v "get")
  end.

(** [v or {}] *)
Definition or_empty (v : pyval) : pyval :=
  if truthy v then v else PDict [].

(** [v != s] for a [str] [s] *)
Definition differs (v : pyval) (s : string) : bool :=
  match v with
  | PStr s' => negb (s' =? s)%string
  | _ => true
  end.

(** Truth value of an [Optional[str]]. *)
Definition truthy_opt (o : option string) : bool :=
  match o with
  | Some s => negb (s =? "")%string
  | None => false
  end.

(* ------------------------------------------------------------------ *)
(** ** Dates, times and floats *)

(** A [datetime]: [wall] is the wall-clock reading in microseconds since
    0001-01-01T00:00:00, [tzinfo] the UTC offset in microseconds, [None]
    for a naive value. *)
Record datetime : Type := mk_datetime { wall : Z; tzinfo : option Z }.

(** [datetime.max], as microseconds since [datetime.min]. *)
Definition MAX_WALL : Z := 3652059 * 86400000000 - 1.

(** [dt.replace(tzinfo=timezone.utc)] *)
Definition replace_utc (dt : datetime) : datetime :=
  mk_datetime (wall dt) (Some 0).

(** [dt.astimezone(timezone.utc)] for an aware [dt]: a value already in
    UTC is returned as it is; otherwise the offset is subtracted, which
    raises [OverflowError] outside [datetime.min .. datetime.max].  The
    source makes every value aware before this call; the first branch
    stands for the naive case, which it never reaches. *)
Definition astimezone_utc (dt : datetime) : pyresult datetime :=
  match tzinfo dt with
  | None => Raise "naive datetime"
  | Some off =>
      if off =? 0 then Return dt
      else
        let u := wall dt - off in
        if (0 <=? u) && (u <=? MAX_WALL) then Return (mk_datetime u (Some 0))
        else Raise "date value out of range"
  end.

(** The instant a datetime denotes, in microseconds, a naive one being
    read as UTC. *)
Definition instant (dt : datetime) : Z :=
  wall dt - match tzinfo dt with Some off => off | None => 0 end.

(** [a - b] for two aware datetimes: a [timedelta], in microseconds. *)
Definition dt_sub (a b : datetime) : Z := instant a - instant b.

(** An [int] as the exact operand of a float operation. *)
Definition SFofZ (z : Z) : spec_float :=
  match z with
  | Z0 => S754_zero false
  | Zpos p => S754_finite false p 0
  | Zneg p => S754_finite true p 0
  end.

(** [td.total_seconds()]: the microseconds divided by [10**6], correctly
    rounded to binary64. *)
Definition total_seconds (td : Z) : spec_float :=
  SFdiv 53 1024 (SFofZ td) (SFofZ 1000000).

(** [x * 1000] on a float [x] *)
Definition times_1000 (x : spec_float) : spec_float :=
  SFmul 53 1024 x (SFofZ 1000).

(** [int(x)]: truncation toward zero; raises on an infinity or a NaN. *)
Definition py_int (x : spec_float) : pyresult Z :=
  match x with
  | S754_zero _ => Return 0
  | S754_finite s m e =>
      let a := match e with
               | Zneg p => Z.shiftr (Zpos m) (Zpos p)
               | _ => Z.shiftl (Zpos m) e
               end in
      Return (if s then - a else a)
  | S754_infinity _ => Raise "cannot convert float infinity to integer"
  | S754_nan => Raise "cannot convert float NaN to integer"
  end.

(* ------------------------------------------------------------------ *)
(** ** The outside world of one probe *)

(** What [httpx.get(url, timeout=...)] does: it raises (the timeout is part
    of the world: a request that exceeds it raises), or it yields a
    response with a status code and a body, [resp.json()] being either the
    decoded value or the decoding error. *)
Inductive http_outcome : Type :=
| HttpRaise (msg : string)
| HttpResponse (status_code : Z) (json : pyresult pyval).

(** [httpx_get w url] is the outcome of the request to [url];
    [utc_now w url] is what [datetime.now(timezone.utc)] reads, in
    microseconds since 0001-01-01T00:00:00 UTC, while the response from
    [url] is being evaluated. *)
Record world : Type := mk_world {
  httpx_get : string -> http_outcome;
  utc_now : string -> Z
}.

(** The uniform result of a probe:
    [(is_available, http_status_code, block_delay_ms, latest_block_height,
      error_message)]. *)
Definition probe_result : Type :=
  (bool * option Z * option Z * pyval * option string)%type.

(* ------------------------------------------------------------------ *)
(** ** worker/checker.py *)

Module Checker.

Section WithRuntime.

(** [datetime.fromisoformat], of the Python standard library: the parsed
    value, or [Raise] for the [ValueError] of a text it rejects. *)
Variable fromisoformat : string -> pyresult datetime.

(** The text an f-string puts for a value that is not a [str]. *)
Variable render : pyval -> string.

Definition py_str (v : pyval) : string :=
  match v with
  | PStr s => s
  | _ => render v
  end.

(** Lines 19-36 of [_parse_block_time]: the text handed to
    [datetime.fromisoformat]. *)
Definition normalize_ts (ts : string) : string :=
  let ts := if endswith "Z" ts then drop_last ts ++ "+00:00" else ts in
  if contains "." ts then
    match split_once "." ts with
    | Some (before, after) =>
        if contains "+" after then
          match split_once "+" after with
          | Some (frac, tz) => before ++ "." ++ take 6 frac ++ "+" ++ tz
          | None => ts
          end
        else if contains "-" after then
          match split_once "-" after with
          | Some (frac, tz) => before ++ "." ++ take 6 frac ++ "-" ++ tz
          | None => ts
          end
        else before ++ "." ++ take 6 after
    | None => ts
    end
  else ts.

(** Lines 38-44: the [try] block; any exception gives [None]. *)
Definition parse_normalized (ts : string) : option datetime :=
  try_except
    (dt <- fromisoformat ts ;;
     let dt := match tzinfo dt with None => replace_utc dt | Some _ => dt end in
     r <- astimezone_utc dt ;;
     Return (Some r))
    (fun _ => None).

Definition _parse_block_time (ts : pyval) : pyresult (option datetime) :=
  if negb (truthy ts) then Return None
  else
    match ts with
    | PStr s => Return (parse_normalized (normalize_ts s))
    | _ => Raise (no_attribute ts "endswith")
    end.

(** [now_utc] is the reading of [datetime.now(timezone.utc)], which the
    source takes after a successful parse. *)
Definition _calc_block_delay_ms (now_utc : Z) (block_time_str : pyval)
  : pyresult (option Z) :=
  if negb (truthy block_time_str) then Return None
  else
    dt <- _parse_block_time block_time_str ;;
    match dt with
    | None => Return None
    | Some dt =>
        let now := mk_datetime now_utc (Some 0) in
        diff_ms <- py_int (times_1000 (total_seconds (dt_sub now dt))) ;;
        let diff_ms := if diff_ms <? 0 then 0 else diff_ms in
        Return (Some diff_ms)
    end.

(** The classification of [str(e)], written twice in the source: in the
    handler of [check_rpc_endpoint] and as [_normalize_error]. *)
Definition rpc_classify (msg : string) : string :=
  if contains "handshake operation timed out" msg then "TLS_HANDSHAKE_TIMEOUT"
  else if contains "Name or service not known" msg
          || contains "Temporary failure in name resolution" msg
       then "DNS_RESOLUTION_FAILED"
  else if contains "Connection refused" msg then "CONNECTION_REFUSED"
  else if contains "timed out" (lower msg) then "REQUEST_TIMEOUT"
  else "EXCEPTION: " ++ take 400 msg.

Definition _normalize_error (msg : string) : string :=
  if contains "handshake operation timed out" msg then "TLS_HANDSHAKE_TIMEOUT"
  else if contains "Name or service not known" msg
          || contains "Temporary failure in name resolution" msg
       then "DNS_RESOLUTION_FAILED"
  else if contains "Connection refused" msg then "CONNECTION_REFUSED"
  else if contains "timed out" (lower msg) then "REQUEST_TIMEOUT"
  else "EXCEPTION: " ++ take 400 msg.

(** [httpx.get(url)] followed by [resp.status_code]. *)
Definition get_response (w : world) (url : string)
  : pyresult (Z * pyresult pyval) :=
  match httpx_get w url with
  | HttpRaise msg => Raise msg
  | HttpResponse status json => Return (status, json)
  end.

Definition non_2xx (http_status : Z) : bool :=
  (http_status <? 200) || (http_status >=? 300).

(** [network != expected_chain_id] *)
Definition differs_opt (v : pyval) (expected : option string) : bool :=
  match expected with
  | Some s => differs v s
  | None => match v with PNone => false | _ => true end
  end.

(** [f"{expected_chain_id}"] *)
Definition str_opt (expected : option string) : string :=
  match expected with
  | Some s => s
  | None => "None"
  end.

(** [expected_chain_id and chain_id and chain_id != expected_chain_id] *)
Definition chain_id_mismatch (expected_chain_id : option string) (chain_id : pyval)
  : bool :=
  truthy_opt expected_chain_id && truthy chain_id
  && differs_opt chain_id expected_chain_id.

(** What both probes do once the chain id, the height and the block time
    have been read from the response (lines 100-111 and 162-171). *)
Definition judge (now_utc : Z) (http_status : Z) (expected_chain_id : option string)
  (chain_id height time_str : pyval) : pyresult probe_result :=
  if chain_id_mismatch expected_chain_id chain_id then
    let err := "CHAIN_ID_MISMATCH: expected=" ++ str_opt expected_chain_id
               ++ ", got=" ++ py_str chain_id in
    delay_ms <- _calc_block_delay_ms now_utc time_str ;;
    Return (false, Some http_status, delay_ms, height, Some err)
  else
    delay_ms <- _calc_block_delay_ms now_utc time_str ;;
    match delay_ms with
    | None => Return (false, Some http_status, None, height,
                      Some "INVALID_BLOCK_TIME")
    | Some d => Return (true, Some http_status, Some d, height, None)
    end.

(** Lines 92-98: what the RPC probe reads from the decoded body,
    [(network, latest_block_height, latest_block_time_str)]. *)
Definition rpc_fields (data : pyval) : pyresult (pyval * pyval * pyval) :=
  result <- py_get data "result" ;;
  let result := or_empty result in
  node_info <- py_get result "node_info" ;;
  let node_info := or_empty node_info in
  sync_info <- py_get result "sync_info" ;;
  let sync_info := or_empty sync_info in
  network <- py_get node_info "network" ;;
  latest_block_height <- py_get sync_info "latest_block_height" ;;
  latest_block_time_str <- py_get sync_info "latest_block_time" ;;
  Return (network, latest_block_height, latest_block_time_str).

(** The body of the [try] of [check_rpc_endpoint]. *)
Definition rpc_try (w : world) (url : string) (expected_chain_id : option string)
  : pyresult probe_result :=
  resp <- get_response w url ;;
  let '(http_status, json) := resp in
  if non_2xx http_status then
    Return (false, Some http_status, None, PNone,
            Some ("HTTP_STATUS_" ++ str_of_int http_status))
  else
    match json with
    | Raise e => Return (false, Some http_status, None, PNone,
                         Some ("INVALID_JSON: " ++ e))
    | Return data =>
        fields <- rpc_fields data ;;
        let '(network, latest_block_height, latest_block_time_str) := fields in
        judge (utc_now w url) http_status expected_chain_id
              network latest_block_height latest_block_time_str
    end.

Definition check_rpc_endpoint (w : world) (base_url : string)
  (expected_chain_id : option string) : probe_result :=
  let url := rstrip "/" base_url ++ "/status" in
  try_except (rpc_try w url expected_chain_id)
    (fun msg => (false, None, None, PNone, Some (rpc_classify msg))).

(** Lines 155-160: what the REST probe reads from the decoded body,
    [(chain_id, height, time_str)]. *)
Definition rest_fields (data : pyval) : pyresult (pyval * pyval * pyval) :=
  block <- py_get data "block" ;;
  let block := or_empty block in
  header <- py_get block "header" ;;
  let header := or_empty header in
  chain_id <- py_get header "chain_id" ;;
  height <- py_get header "height" ;;
  time_str <- py_get header "time" ;;
  Return (chain_id, height, time_str).

Definition _check_rest_block_latest (w : world) (base_url path : string)
  (expected_chain_id : option string) : pyresult probe_result :=
  let url := rstrip "/" base_url ++ path in
  resp <- get_response w url ;;
  let '(http_status, json) := resp in
  if non_2xx http_status then
    Return (false, Some http_status, None, PNone,
            Some ("HTTP_STATUS_" ++ str_of_int http_status))
  else
    match json with
    | Raise e => Return (false, Some http_status, None, PNone,
                         Some ("INVALID_JSON: " ++ e))
    | Return data =>
        fields <- rest_fields data ;;
        let '(chain_id, height, time_str) := fields in
        judge (utc_now w url) http_status expected_chain_id
              chain_id height time_str
    end.

(** Fallback #3 of [check_api_endpoint]: a bare GET of the base URL. *)
Definition alive_try (w : world) (base_url : string) : pyresult probe_result :=
  let url := rstrip "/" base_url in
  resp <- get_response w url ;;
  let '(http_status, _) := resp in
  if non_2xx http_status then
    Return (false, Some http_status, None, PNone,
            Some ("HTTP_STATUS_" ++ str_of_int http_status))
  else Return (true, Some http_status, None, PNone, None).

(** [for err in errs: if err.startswith(p): return err]; [None] when the
    loop falls through. *)
Fixpoint first_startswith (p : string) (errs : list string) : option string :=
  match errs with
  | [] => None
  | err :: rest => if startswith p err then Some err else first_startswith p rest
  end.

(** [a or b] on strings *)
Definition str_or (a b : string) : string :=
  if negb (a =? "")%string then a else b.

(** Lines 240-253: the most helpful of the three errors. *)
Definition most_helpful (err1 err2 err3 : string) : string :=
  match first_startswith "DNS_" [err1; err2; err3] with
  | Some err => err
  | None =>
  match first_startswith "TLS_" [err1; err2; err3] with
  | Some err => err
  | None =>
  match first_startswith "REQUEST_TIMEOUT" [err1; err2; err3] with
  | Some err => err
  | None => str_or err1 (str_or err2 (str_or err3 "UNKNOWN_ERROR"))
  end end end.

Definition PATH_NEW : string := "/cosmos/base/tendermint/v1beta1/blocks/latest".
Definition PATH_OLD : string := "/blocks/latest".

Definition check_api_endpoint (w : world) (base_url : string)
  (expected_chain_id : option string) : probe_result :=
  match _check_rest_block_latest w base_url PATH_NEW expected_chain_id with
  | Return r => r
  | Raise e =>
  let err1 := _normalize_error e in
  match _check_rest_block_latest w base_url PATH_OLD expected_chain_id with
  | Return r => r
  | Raise e =>
  let err2 := _normalize_error e in
  match alive_try w base_url with
  | Return r => r
  | Raise e =>
  let err3 := _normalize_error e in
  (false, None, None, PNone, Some (most_helpful err1 err2 err3))
  end end end.

End WithRuntime.

End Checker.

(* ------------------------------------------------------------------ *)
(** ** worker/checker.py: the API probe with its requests recorded

    [_check_rest_block_latest] and [check_api_endpoint] once more, each
    giving besides its outcome the URLs it has passed to [httpx.get], in
    the order of the calls.  A request is recorded when it is sent,
    whether it is answered or raises. *)

Module Logged.

(** The URLs requested, and what the computation does. *)
Definition logged (A : Type) : Type := (list string * pyresult A)%type.

Definition lret {A : Type} (a : A) : logged A := ([], Return a).

Definition lbind {A B : Type} (c : logged A) (k : A -> logged B) : logged B :=
  match c with
  | (l, Return a) => let '(l', r) := k a in ((l ++ l')%list, r)
  | (l, Raise msg) => (l, Raise msg)
  end.

(** A computation that sends no request. *)
Definition silent {A : Type} (c : pyresult A) : logged A := ([], c).

Section WithRuntime.

Variable fromisoformat : string -> pyresult datetime.
Variable render : pyval -> string.

(** [httpx.get(url)] followed by [resp.status_code] *)
Definition get_response (w : world) (url : string)
  : logged (Z * pyresult pyval) :=
  ([url], Checker.get_response w url).

Definition _check_rest_block_latest (w : world) (base_url path : string)
  (expected_chain_id : option string) : logged probe_result :=
  let url := rstrip "/" base_url ++ path in
  lbind (get_response w url) (fun resp =>
  let '(http_status, json) := resp in
  if Checker.non_2xx http_status then
    lret (false, Some http_status, None, PNone,
          Some ("HTTP_STATUS_" ++ str_of_int http_status))
  else
    match json with
    | Raise e => lret (false, Some http_status, None, PNone,
                       Some ("INVALID_JSON: " ++ e))
    | Return data =>
        silent (fields <- Checker.rest_fields data ;;
                let '(chain_id, height, time_str) := fields in
                Checker.judge fromisoformat render (utc_now w url) http_status
                  expected_chain_id chain_id height time_str)
    end).

(** Fallback #3 of [check_api_endpoint]: a bare GET of the base URL. *)
Definition alive_try (w : world) (base_url : string) : logged probe_result :=
  let url := rstrip "/" base_url in
  lbind (get_response w url) (fun resp =>
  let '(http_status, _) := resp in
  if Checker.non_2xx http_status then
    lret (false, Some http_status, None, PNone,
          Some ("HTTP_STATUS_" ++ str_of_int http_status))
  else lret (true, Some http_status, None, PNone, None)).

Definition check_api_endpoint (w : world) (base_url : string)
  (expected_chain_id : option string) : list string * probe_result :=
  match _check_rest_block_latest w base_url Checker.PATH_NEW expected_chain_id with
  | (l1, Return r) => (l1, r)
  | (l1, Raise e) =>
  let err1 := Checker._normalize_error e in
  match _check_rest_block_latest w base_url Checker.PATH_OLD expected_chain_id with
  | (l2, Return r) => ((l1 ++ l2)%list, r)
  | (l2, Raise e) =>
  let err2 := Checker._normalize_error e in
  match alive_try w base_url with
  | (l3, Return r) => ((l1 ++ l2 ++ l3)%list, r)
  | (l3, Raise e) =>
  let err3 := Checker._normalize_error e in
  ((l1 ++ l2 ++ l3)%list,
   (false, None, None, PNone, Some (Checker.most_helpful err1 err2 err3)))
  end end end.

End WithRuntime.

End Logged.

(* ------------------------------------------------------------------ *)
(** ** worker/runner.py *)

Module Runner.

(** The columns of [models/endpoint.py] and [models/network.py] that the
    runner reads. *)
Record Endpoint : Type := mk_Endpoint {
  ep_id : Z;
  ep_network_id : Z;
  ep_name : string;
  ep_type : string;
  ep_url : string;
  ep_enabled : bool
}.

Record Network : Type := mk_Network {
  net_id : Z;
  net_chain_id : string
}.

(** [models/check.py], without the key the database assigns. *)
Record Check : Type := mk_Check {
  endpoint_id : Z;
  is_available : bool;
  status_code : option Z;
  block_delay_ms : option Z;
  last_block_height : pyval;
  error_message : option string;
  checked_at : datetime
}.

(** Modelled from the spec: [models/endpoint_status.py] is not among the
    sources; "exactly one row per endpoint, same field shape as Check",
    with the fields [process_batch] assigns. *)
Record EndpointStatus : Type := mk_EndpointStatus {
  st_endpoint_id : Z;
  st_is_available : bool;
  st_status_code : option Z;
  st_block_delay_ms : option Z;
  st_last_block_height : pyval;
  st_error_message : option string;
  st_checked_at : datetime
}.

(** The four tables, each in insertion order. *)
Record database : Type := mk_database {
  endpoints : list Endpoint;
  networks : list Network;
  checks : list Check;
  statuses : list EndpointStatus
}.

(** Modelled from the spec: [db/session.py] ([SessionLocal]) is not among
    the sources; "a relational store accessed through straightforward
    create/read/update/delete operations".  A session works on [pending],
    which [commit] makes durable and [rollback] discards; what a session
    added is visible to its later queries. *)
Record session : Type := mk_session {
  committed : database;
  pending : database
}.

Definition SessionLocal (store : database) : session := mk_session store store.
Definition commit (s : session) : session := mk_session (pending s) (pending s).
Definition rollback (s : session) : session := mk_session (committed s) (committed s).

(** What surrounds one batch: the network as seen while endpoint [id] is
    probed, the reading of the clock taken for endpoint [id], and the
    exception, if any, that the session raises while the rows of endpoint
    [id] are handled. *)
Record batch_env : Type := mk_batch_env {
  probe_world : Z -> world;
  now_for : Z -> Z;
  db_error : Z -> option string
}.

(** [db.add(check)] *)
Definition add_check (db : database) (c : Check) : database :=
  mk_database (endpoints db) (networks db) (checks db ++ [c]) (statuses db).

(** [db.add(status)] *)
Definition add_status (db : database) (s : EndpointStatus) : database :=
  mk_database (endpoints db) (networks db) (checks db) (statuses db ++ [s]).

(** [db.query(EndpointStatus).filter(EndpointStatus.endpoint_id == id).first()] *)
Definition first_status (env : batch_env) (db : database) (id : Z)
  : pyresult (option EndpointStatus) :=
  match db_error env id with
  | Some msg => Raise msg
  | None => Return (find (fun s => st_endpoint_id s =? id) (statuses db))
  end.

(** Assigning the six fields to the row that [first] returned. *)
Fixpoint assign_first (id : Z) (new : EndpointStatus) (l : list EndpointStatus)
  : list EndpointStatus :=
  match l with
  | [] => []
  | s :: rest =>
      if st_endpoint_id s =? id then
        mk_EndpointStatus (st_endpoint_id s) (st_is_available new)
          (st_status_code new) (st_block_delay_ms new)
          (st_last_block_height new) (st_error_message new)
          (st_checked_at new) :: rest
      else s :: assign_first id new rest
  end.

Definition update_status (db : database) (id : Z) (new : EndpointStatus) : database :=
  mk_database (endpoints db) (networks db) (checks db)
              (assign_first id new (statuses db)).

(** The query of lines 27-33: enabled endpoints joined with their network,
    at most [BATCH_LIMIT] of them. *)
Definition select_rows (BATCH_LIMIT : nat) (db : database)
  : list (Endpoint * Network) :=
  firstn BATCH_LIMIT
    (flat_map
       (fun ep => map (fun net => (ep, net))
                      (filter (fun net => ep_network_id ep =? net_id net) (networks db)))
       (filter ep_enabled (endpoints db))).

Section WithRuntime.

Variable fromisoformat : string -> pyresult datetime.
Variable render : pyval -> string.

(** Lines 45-63: the probe for one row. *)
Definition probe (env : batch_env) (ep : Endpoint) (expected_chain_id : option string)
  : probe_result :=
  let w := probe_world env (ep_id ep) in
  if (ep_type ep =? "rpc")%string then
    Checker.check_rpc_endpoint fromisoformat render w (ep_url ep) expected_chain_id
  else if (ep_type ep =? "api")%string then
    Checker.check_api_endpoint fromisoformat render w (ep_url ep) expected_chain_id
  else
    Checker.check_api_endpoint fromisoformat render w (ep_url ep) None.

(** [net.chain_id or None] *)
Definition or_none (s : string) : option string :=
  if negb (s =? "")%string then Some s else None.

(** The body of the [for] loop, lines 42-99. *)
Definition process_row (env : batch_env) (db : database) (row : Endpoint * Network)
  : pyresult database :=
  let '(ep, net) := row in
  let expected_chain_id := or_none (net_chain_id net) in
  let now_utc := mk_datetime (now_for env (ep_id ep)) (Some 0) in
  let '(is_ok, http_status, block_delay_ms, block_height, error_msg) :=
    probe env ep expected_chain_id in
  let check := mk_Check (ep_id ep) is_ok http_status block_delay_ms
                        block_height error_msg now_utc in
  let db := add_check db check in
  status <- first_status env db (ep_id ep) ;;
  let new := mk_EndpointStatus (ep_id ep) is_ok http_status block_delay_ms
                               block_height error_msg now_utc in
  match status with
  | None => Return (add_status db new)
  | Some _ => Return (update_status db (ep_id ep) new)
  end.

(** The check row that the loop body builds for a row of the query. *)
Definition row_check (env : batch_env) (row : Endpoint * Network) : Check :=
  let '(ep, net) := row in
  let '(is_ok, http_status, delay, height, err) :=
    probe env ep (or_none (net_chain_id net)) in
  mk_Check (ep_id ep) is_ok http_status delay height err
           (mk_datetime (now_for env (ep_id ep)) (Some 0)).

Fixpoint for_rows (env : batch_env) (rows : list (Endpoint * Network)) (db : database)
  : pyresult database :=
  match rows with
  | [] => Return db
  | row :: rest => db' <- process_row env db row ;; for_rows env rest db'
  end.

Definition process_batch (env : batch_env) (BATCH_LIMIT : nat) (db : session)
  : pyresult session :=
  let rows := select_rows BATCH_LIMIT (pending db) in
  match rows with
  | [] => Return db
  | _ =>
      p <- for_rows env rows (pending db) ;;
      Return (commit (mk_session (committed db) p))
  end.

(** One turn of the [while True] of [main_loop]: what the store holds
    after [db.close()]. *)
Definition main_loop_iteration (env : batch_env) (BATCH_LIMIT : nat) (store : database)
  : database :=
  let db := SessionLocal store in
  committed (try_except (process_batch env BATCH_LIMIT db)
                        (fun _ => rollback db)).

(** As many turns as there are environments. *)
Fixpoint main_loop (envs : list batch_env) (BATCH_LIMIT : nat) (store : database)
  : database :=
  match envs with
  | [] => store
  | env :: rest => main_loop rest BATCH_LIMIT (main_loop_iteration env BATCH_LIMIT store)
  end.

End WithRuntime.

End Runner.

(* ------------------------------------------------------------------ *)
(** ** A concrete runtime for examples

    [Sample.fromisoformat] reads the texts of the shape
    [YYYY-MM-DDTHH:MM:SS[.fff[fff]][(+|-)HH:MM]], which every CPython
    since 3.7 accepts with the value computed here, and rejects all others
    (later versions accept more).  [Sample.render] renders the scalars.
    They instantiate the runtime parameters wherever a closed example is
    evaluated; no general statement depends on them. *)

Module Sample.

Fixpoint number (s : string) (acc : Z) : option Z :=
  match s with
  | EmptyString => Some acc
  | String a s' =>
      if is_digit a
      then number s' (10 * acc + (Z.of_nat (nat_of_ascii a) - 48))
      else None
  end.

(** The value of a field of exactly [n] digits. *)
Definition field (n : nat) (s : string) : option Z :=
  if (String.length s =? n)%nat then number s 0 else None.

Definition is_leap (y : Z) : bool :=
  (y mod 4 =? 0) && (negb (y mod 100 =? 0) || (y mod 400 =? 0)).

Definition days_in_month (y m : Z) : Z :=
  if m =? 2 then (if is_leap y then 29 else 28)
  else if (m =? 4) || (m =? 6) || (m =? 9) || (m =? 11) then 30
  else 31.

Definition days_before_month (y m : Z) : Z :=
  nth (Z.to_nat (m - 1)) [0; 31; 59; 90; 120; 151; 181; 212; 243; 273; 304; 334] 0
  + (if (2 <? m) && is_leap y then 1 else 0).

Definition days_before_year (y : Z) : Z :=
  let p := y - 1 in p * 365 + p / 4 - p / 100 + p / 400.

Definition in_range (lo hi v : Z) : bool := (lo <=? v) && (v <=? hi).

Definition is_char (c : ascii) (o : option ascii) : bool :=
  match o with
  | Some a => Ascii.eqb a c
  | None => false
  end.

(** [(microseconds, rest)] of the text after the seconds. *)
Definition fraction (rest : string) : option (Z * string) :=
  match rest with
  | String "." r =>
      match field 6 (substring 0 6 r) with
      | Some us => Some (us, substring 6 (String.length r - 6) r)
      | None =>
          match field 3 (substring 0 3 r) with
          | Some ms => Some (ms * 1000, substring 3 (String.length r - 3) r)
          | None => None
          end
      end
  | _ => Some (0, rest)
  end.

(** The UTC offset in microseconds; [Some None] for no offset. *)
Definition offset (tz : string) : option (option Z) :=
  match tz with
  | EmptyString => Some None
  | String sign t =>
      if (Ascii.eqb sign "+" || Ascii.eqb sign "-") && is_char ":" (get 2 t) then
        match field 2 (substring 0 2 t), field 2 (substring 3 (String.length t - 3) t) with
        | Some hh, Some mm =>
            if in_range 0 23 hh && in_range 0 59 mm then
              let off := (hh * 3600 + mm * 60) * 1000000 in
              Some (Some (if Ascii.eqb sign "-" then - off else off))
            else None
        | _, _ => None
        end
      else None
  end.

Definition parse (s : string) : option datetime :=
  match field 4 (substring 0 4 s), field 2 (substring 5 2 s), field 2 (substring 8 2 s),
        field 2 (substring 11 2 s), field 2 (substring 14 2 s), field 2 (substring 17 2 s),
        fraction (substring 19 (String.length s - 19) s) with
  | Some y, Some m, Some d, Some hh, Some mi, Some ss, Some (us, tz) =>
      if is_char "-" (get 4 s) && is_char "-" (get 7 s) && is_char "T" (get 10 s)
         && is_char ":" (get 13 s) && is_char ":" (get 16 s)
         && in_range 1 9999 y && in_range 1 12 m && in_range 1 (days_in_month y m) d
         && in_range 0 23 hh && in_range 0 59 mi && in_range 0 59 ss
      then
        match offset tz with
        | Some off =>
            let days := days_before_year y + days_before_month y m + d - 1 in
            Some (mk_datetime
                    ((((days * 24 + hh) * 60 + mi) * 60 + ss) * 1000000 + us)
                    off)
        | None => None
        end
      else None
  | _, _, _, _, _, _, _ => None
  end.

Definition fromisoformat (s : string) : pyresult datetime :=
  match parse s with
  | Some dt => Return dt
  | None => Raise ("Invalid isoformat string: '" ++ s ++ "'")
  end.

Definition render (v : pyval) : string :=
  match v with
  | PNone => "None"
  | PBool true => "True"
  | PBool false => "False"
  | PInt n => str_of_int n
  | PStr s => s
  | _ => "..."
  end.

End Sample.

(* ------------------------------------------------------------------ *)
(** ** Vocabulary of the statements *)


(** No character of [s] is [c]. *)
Definition no_char (c : ascii) (s : string) : bool :=
  all_chars (fun x => negb (Ascii.eqb x c)) s.

(** The replacement of a final [Z], line 20-21. *)
Definition z_to_utc (s : string) : string :=
  if endswith "Z" s then drop_last s ++ "+00:00" else s.

(** What may follow the digits of a fraction: nothing, or an offset that
    starts with its sign. *)
Definition offset_like (s : string) : bool :=
  match s with
  | EmptyString => true
  | String c t => Ascii.eqb c "+" || (Ascii.eqb c "-" && negb (contains "+" t))
  end.

(** The error message of a probe result is a chain id mismatch. *)
Definition mismatch_error (r : probe_result) : bool :=
  match r with
  | (_, _, _, _, Some err) => startswith "CHAIN_ID_MISMATCH" err
  | _ => false
  end.

(** The five shapes of a classified error. *)
Inductive classified (msg : string) : string -> Prop :=
| is_tls : classified msg "TLS_HANDSHAKE_TIMEOUT"
| is_dns : classified msg "DNS_RESOLUTION_FAILED"
| is_refused : classified msg "CONNECTION_REFUSED"
| is_timeout : classified msg "REQUEST_TIMEOUT"
| is_other : classified msg ("EXCEPTION: " ++ take 400 msg).

Import Runner.

(** The status rows and the check rows of one endpoint. *)
Definition rows_for (id : Z) (l : list EndpointStatus) : list EndpointStatus :=
  filter (fun s => st_endpoint_id s =? id) l.

Definition checks_for (id : Z) (l : list Check) : list Check :=
  filter (fun c => endpoint_id c =? id) l.

(** The check appended last for an endpoint. *)
Definition last_check (id : Z) (l : list Check) : option Check :=
  hd_error (rev (checks_for id l)).

Definition one_status_per_endpoint (l : list EndpointStatus) : Prop :=
  forall id, (List.length (rows_for id l) <= 1)%nat.

(** The status row with the fields of a check row. *)
Definition status_of_check (c : Check) : EndpointStatus :=
  mk_EndpointStatus (endpoint_id c) (is_available c) (status_code c)
    (block_delay_ms c) (last_block_height c) (error_message c) (checked_at c).

(** What [db.query(...).first()] followed by the insert or the
    assignments of lines 82-99 makes of the status table. *)
Definition upsert (new : EndpointStatus) (l : list EndpointStatus)
  : list EndpointStatus :=
  match find (fun s => st_endpoint_id s =? st_endpoint_id new) l with
  | None => (l ++ [new])%list
  | Some _ => assign_first (st_endpoint_id new) new l
  end.

(** What holds of the endpoints in [done] once their rows are written:
    one status row each, with the fields of the endpoint's last check,
    which is one of the checks in [added]. *)
Definition settled (added : list Check) (done : list Z) (db : database) : Prop :=
  forall id, In id done ->
    exists c, In c added /\ last_check id (checks db) = Some c /\
              rows_for id (statuses db) = [status_of_check c].

(* ------------------------------------------------------------------ *)
(** ** Data for the worked examples *)

Module Examples.

Local Open Scope string_scope.

(** A node that answers 404 on both REST paths and 200 on its base URL. *)
Definition w_404 : world :=
  mk_world
    (fun url => if (url =? "http://node")%string
                then HttpResponse 200 (Raise "Expecting value: line 1 column 1 (char 0)")
                else HttpResponse 404 (Raise "Expecting value: line 1 column 1 (char 0)"))
    (fun _ => 0).

(** A node whose REST requests raise and whose base URL answers 200. *)
Definition w_alive : world :=
  mk_world
    (fun url => if (url =? "http://node")%string
                then HttpResponse 200 (Raise "Expecting value: line 1 column 1 (char 0)")
                else HttpRaise "Server disconnected without sending a response.")
    (fun _ => 0).

(** As [w_404], but the base URL cannot be reached. *)
Definition w_404_dead : world :=
  mk_world
    (fun url => if (url =? "http://node")%string
                then HttpRaise "[Errno 111] Connection refused"
                else HttpResponse 404 (Raise "Expecting value: line 1 column 1 (char 0)"))
    (fun _ => 0).

(** Three failing requests: DNS, then TLS, then something else. *)
Definition w_down : world :=
  mk_world
    (fun url =>
       if (url =? "http://node/cosmos/base/tendermint/v1beta1/blocks/latest")%string
       then HttpRaise "[Errno -2] Name or service not known"
       else if (url =? "http://node/blocks/latest")%string
       then HttpRaise "_ssl.c:980: The handshake operation timed out"
       else HttpRaise "All connection attempts failed")
    (fun _ => 0).

(** The same three failures met in the opposite order. *)
Definition w_down_rev : world :=
  mk_world
    (fun url =>
       if (url =? "http://node/cosmos/base/tendermint/v1beta1/blocks/latest")%string
       then HttpRaise "All connection attempts failed"
       else if (url =? "http://node/blocks/latest")%string
       then HttpRaise "_ssl.c:980: The handshake operation timed out"
       else HttpRaise "[Errno -2] Name or service not known")
    (fun _ => 0).

(** 2024-01-02T03:04:05 UTC, in microseconds since 0001-01-01. *)
Definition T0 : Z := 63839761445000000.

Definition status_body (network : pyval) : pyval :=
  PDict [("result",
          PDict [("node_info", PDict [("moniker", PStr "n1"); ("network", network)]);
                 ("sync_info",
                  PDict [("latest_block_height", PStr "100");
                         ("latest_block_time", PStr "2024-01-02T03:04:05.123456789Z")])])].

(** An RPC node of chain [network], asked 5 s after its latest block. *)
Definition w_rpc (network : pyval) : world :=
  mk_world (fun _ => HttpResponse 200 (Return (status_body network)))
           (fun _ => T0 + 5123456).



Definition ep1 : Runner.Endpoint := Runner.mk_Endpoint 1 1 "a" "rpc" "http://a/" true.
Definition ep2 : Runner.Endpoint := Runner.mk_Endpoint 2 1 "b" "api" "http://b" true.
Definition ep3 : Runner.Endpoint := Runner.mk_Endpoint 3 1 "c" "api" "http://c" false.
Definition net1 : Runner.Network := Runner.mk_Network 1 "cosmoshub-4".

Definition old_status : Runner.EndpointStatus :=
  Runner.mk_EndpointStatus 1 false None None PNone (Some "REQUEST_TIMEOUT")
    (mk_datetime (T0 - 30000000) (Some 0)).

Definition store0 : Runner.database :=
  Runner.mk_database [ep1; ep2; ep3] [net1] [] [old_status].

(** A batch in which every probe finds its node on another chain. *)
Definition env_ok : Runner.batch_env :=
  Runner.mk_batch_env (fun _ => w_rpc (PStr "osmosis-1")) (fun _ => T0 + 6000000)
                      (fun _ => None).

(** The same batch, the session raising on the rows of endpoint 2. *)
Definition env_fault : Runner.batch_env :=
  Runner.mk_batch_env (fun _ => w_rpc (PStr "osmosis-1")) (fun _ => T0 + 6000000)
    (fun id => if (id =? 2)%Z then Some "value too long for type character varying(64)"
               else None).





End Examples.

Import Examples.


(* ------------------------------------------------------------------ *)
(** ** Vocabulary of the further properties *)

(** The five components of a probe result. *)
Definition r_available (r : probe_result) : bool :=
  let '(a, _, _, _, _) := r in a.
Definition r_status (r : probe_result) : option Z :=
  let '(_, s, _, _, _) := r in s.
Definition r_delay (r : probe_result) : option Z :=
  let '(_, _, d, _, _) := r in d.
Definition r_height (r : probe_result) : pyval :=
  let '(_, _, _, h, _) := r in h.
Definition r_error (r : probe_result) : option string :=
  let '(_, _, _, _, e) := r in e.

(** The forms an error message of a probe can take. *)
Inductive error_form : string -> Prop :=
| ef_http_status (st : Z) :
    Checker.non_2xx st = true -> error_form ("HTTP_STATUS_" ++ str_of_int st)
| ef_invalid_json (detail : string) : error_form ("INVALID_JSON: " ++ detail)
| ef_chain_id_mismatch (x y : string) :
    x <> "" ->
    error_form ("CHAIN_ID_MISMATCH: expected=" ++ x ++ ", got=" ++ y)
| ef_invalid_block_time : error_form "INVALID_BLOCK_TIME"
| ef_classified (msg : string) : error_form (Checker._normalize_error msg).

(** The three ways in which [judge] returns. *)
Inductive judged (expected : option string) (st : Z) (height : pyval)
  : probe_result -> Prop :=
| judged_mismatch (x y : string) (d : option Z) :
    expected = Some x -> x <> "" -> (forall v, d = Some v -> 0 <= v) ->
    judged expected st height
      (false, Some st, d, height,
       Some ("CHAIN_ID_MISMATCH: expected=" ++ x ++ ", got=" ++ y))
| judged_no_time :
    judged expected st height (false, Some st, None, height, Some "INVALID_BLOCK_TIME")
| judged_ok (d : Z) :
    0 <= d -> judged expected st height (true, Some st, Some d, height, None).

(** The ways in which a request followed by the parsing of its answer
    returns a result. *)
Inductive answered (expected : option string) : probe_result -> Prop :=
| answered_non_2xx (st : Z) :
    Checker.non_2xx st = true ->
    answered expected (false, Some st, None, PNone, Some ("HTTP_STATUS_" ++ str_of_int st))
| answered_invalid_json (st : Z) (detail : string) :
    Checker.non_2xx st = false ->
    answered expected (false, Some st, None, PNone, Some ("INVALID_JSON: " ++ detail))
| answered_judged (st : Z) (height : pyval) (r : probe_result) :
    Checker.non_2xx st = false -> judged expected st height r -> answered expected r.

(** The ways in which a probe ends: with an answer that was read, with
    the answer to the bare request of the base URL, or with the classified
    message of an exception. *)
Inductive probed (expected : option string) : probe_result -> Prop :=
| probed_answered (r : probe_result) : answered expected r -> probed expected r
| probed_alive (st : Z) :
    Checker.non_2xx st = false -> probed expected (true, Some st, None, PNone, None)
| probed_raised (msg : string) :
    probed expected (false, None, None, PNone, Some (Checker._normalize_error msg)).

(** What every probe result satisfies: it is available exactly when it
    carries no error message; a delay is never negative; an available
    result has a 2xx status; a result without a status is unavailable and
    has neither delay nor height. *)
Definition coherent (r : probe_result) : Prop :=
  (r_available r = true <-> r_error r = None) /\
  (forall d, r_delay r = Some d -> 0 <= d) /\
  (r_available r = true -> exists st, r_status r = Some st /\ 200 <= st < 300) /\
  (r_status r = None ->
   r_available r = false /\ r_delay r = None /\ r_height r = PNone /\
   exists msg, r_error r = Some (Checker._normalize_error msg)).

(** The world [w] with the outcome of the request to [url] replaced. *)
Definition with_outcome (w : world) (url : string) (o : http_outcome) : world :=
  mk_world (fun u => if (u =? url)%string then o else httpx_get w u) (utc_now w).

Definition is_str (v : pyval) : bool :=
  match v with PStr _ => true | _ => false end.

Definition is_dict (v : pyval) : bool :=
  match v with PDict _ => true | _ => false end.



(** The status table is the view of the latest checks: an endpoint with
    checks has one status row, with the fields of its last check, and an
    endpoint without checks has none. *)
Definition status_view (db : database) : Prop :=
  forall id,
    rows_for id (statuses db)
    = match last_check id (checks db) with
      | Some c => [status_of_check c]
      | None => []
      end.


(* ------------------------------------------------------------------ *)
(** ** api/routes.py *)

Module Api.


(** [models/project.py] and the columns of [models/network.py] that the
    routes read. *)
Record Project : Type := mk_Project {
  p_id : Z;
  p_slug : string;
  p_name : string
}.

Record Network : Type := mk_Network {
  n_id : Z;
  n_project_id : Z;
  n_chain_id : string;
  n_network_type : string
}.

(** The tables that the routes query; endpoints and status rows are those
    of the runner. *)
Record tables : Type := mk_tables {
  projects : list Project;
  networks : list Network;
  endpoints : list Runner.Endpoint;
  statuses : list Runner.EndpointStatus
}.

(** [raise HTTPException(status_code=..., detail=...)] or a returned value. *)
Inductive response (A : Type) : Type :=
| Ok (a : A)
| HTTPException (status_code : Z) (detail : string).

Arguments Ok {A} a.
Arguments HTTPException {A} status_code detail.

Definition _format_delay (ms : option Z) : string :=
  match ms with
  | None => ""
  | Some ms =>
      if ms <? 1000 then str_of_int ms ++ " ms"
      else
        let seconds := ms / 1000 in
        if seconds <? 60 then str_of_int seconds ++ " s"
        else
          let minutes := seconds / 60 in
          let seconds := seconds mod 60 in
          if minutes <? 60 then
            str_of_int minutes ++ "m " ++ str_of_int seconds ++ "s"
          else
            let hours := minutes / 60 in
            let minutes := minutes mod 60 in
            str_of_int hours ++ "h " ++ str_of_int minutes ++ "m"
  end.

(** One element of the answer of [list_endpoints]. *)
Record endpoint_item : Type := mk_endpoint_item {
  i_name : string;
  i_type : string;
  i_url : string;
  i_enabled : bool;
  i_network_type : string
}.

(** One element of ["endpoints"] in the answer of [network_summary]. *)
Record endpoint_out : Type := mk_endpoint_out {
  o_name : string;
  o_type : string;
  o_url : string;
  o_enabled : bool;
  o_is_available : option bool;
  o_status_code : option Z;
  o_block_delay_ms : option Z;
  o_last_block_height : pyval;
  o_error_message : option string;
  o_checked_at : option string
}.

Record network_out : Type := mk_network_out {
  no_chain_id : string;
  no_network_type : string;
  no_endpoints : list endpoint_out
}.

Record summary : Type := mk_summary {
  s_project : string;
  s_network_type : string;
  s_networks : list network_out
}.

(** [dt.replace(microsecond=0)] *)
Definition replace_microsecond_0 (dt : datetime) : datetime :=
  mk_datetime (wall dt - wall dt mod 1000000) (tzinfo dt).

(** One row of the table of [html_index]. *)
Record row : Type := mk_row {
  row_project_slug : string;
  row_network_type : string;
  row_chain_id : string;
  row_endpoint_type : string;
  row_endpoint_name : string;
  row_url : string;
  row_enabled : bool;
  row_is_available : option bool;
  row_status_code : option Z;
  row_block_height : pyval;
  row_block_delay_ms : option Z;
  row_block_delay_human : string;
  row_error_message : string;
  row_last_checked_iso : string
}.

Section WithDatabase.

(** [datetime.isoformat], and the orderings that the database applies,
    whose collation is the database's: [order_by(Project.slug)],
    [order_by(Network.chain_id)],
    [order_by(Network.network_type, Network.chain_id)] and
    [order_by(Endpoint.type, Endpoint.name)]. *)
Variable isoformat : datetime -> string.
Variable by_slug : list Project -> list Project.
Variable by_chain_id : list Network -> list Network.
Variable by_type_chain_id : list Network -> list Network.
Variable by_type_name : list Runner.Endpoint -> list Runner.Endpoint.

(** [db.query(Project).filter(Project.slug == project_slug).first()] *)
Definition project_by_slug (db : tables) (project_slug : string) : option Project :=
  find (fun p => (p_slug p =? project_slug)%string) (projects db).

(** The query of lines 161-169. *)
Definition networks_of_type (db : tables) (project : Project) (network_type : string)
  : list Network :=
  by_chain_id
    (filter (fun n => (n_project_id n =? p_id project)
                      && (n_network_type n =? network_type)%string)
            (networks db)).

(** Lines 127-136: the entry of one endpoint in [list_endpoints]. *)
Definition endpoint_item_of (network_type : string) (e : Runner.Endpoint)
  : endpoint_item :=
  mk_endpoint_item (Runner.ep_name e) (Runner.ep_type e) (Runner.ep_url e)
                   (Runner.ep_enabled e) network_type.

Definition list_endpoints (db : tables) (project_slug network_type : string)
  (only_enabled : bool) : response (list endpoint_item) :=
  match project_by_slug db project_slug with
  | None => HTTPException 404 "Project not found"
  | Some project =>
      match filter (fun n => (n_project_id n =? p_id project)
                             && (n_network_type n =? network_type)%string)
                   (networks db) with
      | [] => HTTPException 404 "No networks with this type"
      | networks =>
          let network_ids := map n_id networks in
          let q := filter (fun e => existsb (Z.eqb (Runner.ep_network_id e)) network_ids)
                          (endpoints db) in
          let q := if only_enabled then filter Runner.ep_enabled q else q in
          Ok (map (endpoint_item_of network_type) (by_type_name q))
      end
  end.

(** The query of lines 176-181. *)
Definition endpoints_of (db : tables) (n : Network) : list Runner.Endpoint :=
  by_type_name (filter (fun e => Runner.ep_network_id e =? n_id n) (endpoints db)).

(** Lines 185-217: the entry of one endpoint. *)
Definition endpoint_entry (db : tables) (e : Runner.Endpoint) : endpoint_out :=
  match find (fun s => Runner.st_endpoint_id s =? Runner.ep_id e) (statuses db) with
  | Some status =>
      mk_endpoint_out (Runner.ep_name e) (Runner.ep_type e) (Runner.ep_url e)
        (Runner.ep_enabled e)
        (Some (Runner.st_is_available status)) (Runner.st_status_code status)
        (Runner.st_block_delay_ms status) (Runner.st_last_block_height status)
        (Runner.st_error_message status)
        (Some (isoformat (Runner.st_checked_at status)))
  | None =>
      mk_endpoint_out (Runner.ep_name e) (Runner.ep_type e) (Runner.ep_url e)
        (Runner.ep_enabled e) None None None PNone None None
  end.

(** Lines 220-225: the filter on [max_delay]. *)
Definition within (max_delay : option Z) (eps_out : list endpoint_out)
  : list endpoint_out :=
  match max_delay with
  | None => eps_out
  | Some max_delay =>
      filter (fun ep => match o_block_delay_ms ep with
                        | None => true
                        | Some d => d <=? max_delay
                        end)
             eps_out
  end.

(** The body of [network_summary].  The framework answers a negative
    [max_delay] itself ([Query(None, ge=0)]) and does not call the body
    then. *)
Definition network_summary (db : tables) (project_slug network_type : string)
  (max_delay : option Z) : response summary :=
  match project_by_slug db project_slug with
  | None => HTTPException 404 "Project not found"
  | Some project =>
      match networks_of_type db project network_type with
      | [] => HTTPException 404 "No networks with this type"
      | networks =>
          Ok (mk_summary (p_slug project) network_type
                (map (fun n =>
                        mk_network_out (n_chain_id n) (n_network_type n)
                          (within max_delay
                             (map (endpoint_entry db) (endpoints_of db n))))
                     networks))
      end
  end.

Definition _format_checked_at (dt : option datetime) : string :=
  match dt with
  | None => ""
  | Some dt => isoformat (replace_microsecond_0 dt)
  end.

(** Lines 295-310: the row of a network without endpoints. *)
Definition empty_row (p : Project) (n : Network) : row :=
  mk_row (p_slug p) (n_network_type n) (n_chain_id n) "" "" "" false
         None None PNone None "" "" "".

(** Lines 313-349: the row of one endpoint. *)
Definition endpoint_row (db : tables) (p : Project) (n : Network)
  (e : Runner.Endpoint) : row :=
  match find (fun s => Runner.st_endpoint_id s =? Runner.ep_id e) (statuses db) with
  | Some status =>
      mk_row (p_slug p) (n_network_type n) (n_chain_id n)
        (Runner.ep_type e) (Runner.ep_name e) (Runner.ep_url e) (Runner.ep_enabled e)
        (Some (Runner.st_is_available status)) (Runner.st_status_code status)
        (Runner.st_last_block_height status) (Runner.st_block_delay_ms status)
        (_format_delay (Runner.st_block_delay_ms status))
        (match Runner.st_error_message status with Some m => m | None => "" end)
        (_format_checked_at (Some (Runner.st_checked_at status)))
  | None =>
      mk_row (p_slug p) (n_network_type n) (n_chain_id n)
        (Runner.ep_type e) (Runner.ep_name e) (Runner.ep_url e) (Runner.ep_enabled e)
        None None PNone None (_format_delay None) "" ""
  end.

(** The rows that [html_index] hands to the template. *)
Definition html_index_rows (db : tables) : list row :=
  flat_map
    (fun p =>
       flat_map
         (fun n =>
            match endpoints_of db n with
            | [] => [empty_row p n]
            | endpoints => map (endpoint_row db p n) endpoints
            end)
         (by_type_chain_id
            (filter (fun n => n_project_id n =? p_id p) (networks db))))
    (by_slug (projects db)).

End WithDatabase.

End Api.

(** The networks of a project that have a given type. *)
Definition matching (db : Api.tables) (p : Api.Project) (network_type : string)
  (n : Api.Network) : Prop :=
  In n (Api.networks db) /\ Api.n_project_id n = Api.p_id p
  /\ Api.n_network_type n = network_type.


(** ** Data for the examples of the routes

    [ApiSample.isoformat] renders a datetime that is naive or whose offset
    is a whole number of minutes, as CPython's [datetime.isoformat] does:
    [YYYY-MM-DDTHH:MM:SS], then [.ffffff] when the microseconds are not 0,
    then [+HH:MM] or [-HH:MM] for an aware value.  It instantiates the
    parameter of the routes wherever a closed example is evaluated. *)

Module ApiSample.

Fixpoint zeros (n : nat) : string :=
  match n with
  | O => ""
  | S n' => String "0" (zeros n')
  end.

(** A number in at least [n] digits, with leading zeros. *)
Definition digits (n : nat) (z : Z) : string :=
  let s := str_of_int z in
  zeros (n - String.length s) ++ s.

(** Year, month and day of the day [n] days after 0001-01-01. *)
Definition ord2ymd (n : Z) : Z * Z * Z :=
  let n400 := n / 146097 in
  let n := n mod 146097 in
  let n100 := n / 36524 in
  let n := n mod 36524 in
  let n4 := n / 1461 in
  let n := n mod 1461 in
  let n1 := n / 365 in
  let n := n mod 365 in
  let year := n400 * 400 + n100 * 100 + n4 * 4 + n1 + 1 in
  if (n1 =? 4) || (n100 =? 4) then (year - 1, 12, 31)
  else
    let month := (n + 50) / 32 in
    let preceding := Sample.days_before_month year month in
    if n <? preceding
    then (year, month - 1, n - Sample.days_before_month year (month - 1) + 1)
    else (year, month, n - preceding + 1).

Definition isoformat (dt : datetime) : string :=
  let us := wall dt mod 1000000 in
  let s := wall dt / 1000000 in
  let '(y, m, d) := ord2ymd (s / 86400) in
  let s := s mod 86400 in
  digits 4 y ++ "-" ++ digits 2 m ++ "-" ++ digits 2 d ++ "T"
  ++ digits 2 (s / 3600) ++ ":" ++ digits 2 (s mod 3600 / 60) ++ ":"
  ++ digits 2 (s mod 60)
  ++ (if us =? 0 then "" else "." ++ digits 6 us)
  ++ match tzinfo dt with
     | None => ""
     | Some off =>
         let a := Z.abs off / 60000000 in
         (if off <? 0 then "-" else "+") ++ digits 2 (a / 60) ++ ":" ++ digits 2 (a mod 60)
     end.

End ApiSample.

(** A project with a mainnet network of three endpoints, the first one
    checked without a delay, the second one 75 s behind, the third one
    never checked, and a testnet network without endpoints. *)
Module ApiExamples.

Definition cosmos : Api.Project := Api.mk_Project 1 "cosmos" "Cosmos Hub".
Definition mainnet : Api.Network := Api.mk_Network 1 1 "cosmoshub-4" "mainnet".
Definition testnet : Api.Network := Api.mk_Network 2 1 "theta-testnet-001" "testnet".

Definition slow_status : Runner.EndpointStatus :=
  Runner.mk_EndpointStatus 2 true (Some 200) (Some 75000) (PStr "100") None
    (mk_datetime (T0 + 123456) (Some 0)).

Definition tables0 : Api.tables :=
  Api.mk_tables [cosmos] [mainnet; testnet] [ep2; ep3; ep1] [old_status; slow_status].

(** The order in which the rows are stored. *)
Definition stored {A : Type} (l : list A) : list A := l.

End ApiExamples.

(* ------------------------------------------------------------------ *)
(** * Facts about strings *)

Section StringFacts.

Lemma append_nil_r (s : string) : s ++ "" = s.
Proof. induction s as [|a s IH]; simpl; [reflexivity | now rewrite IH]. Qed.

Lemma append_assoc (a b c : string) : (a ++ b) ++ c = a ++ (b ++ c).
Proof. induction a as [|x a IH]; simpl; [reflexivity | now rewrite IH]. Qed.

Lemma length_app (a b : string) :
  String.length (a ++ b) = (String.length a + String.length b)%nat.
Proof. induction a as [|x a IH]; simpl; [reflexivity | now rewrite IH]. Qed.





Lemma contains_single (c : ascii) (s : string) :
  contains (String c "") s = negb (no_char c s).
Proof.
  induction s as [|y s IH]; [reflexivity|].
  cbn [contains no_char all_chars]. fold (no_char c s). rewrite IH.
  unfold prefix. destruct (ascii_dec c y) as [->|ne].
  - rewrite Ascii.eqb_refl. now destruct s.
  - assert (E : Ascii.eqb y c = false)
      by (apply Ascii.eqb_neq; intro; now subst).
    rewrite E. reflexivity.
Qed.

Lemma no_char_app (c : ascii) (a b : string) :
  no_char c (a ++ b) = no_char c a && no_char c b.
Proof.
  induction a as [|x a IH]; [reflexivity|].
  cbn [append no_char all_chars]. fold (no_char c (a ++ b)) (no_char c a).
  now rewrite IH, andb_assoc.
Qed.

Lemma split_once_first (c : ascii) (a b : string) :
  no_char c a = true -> split_once c (a ++ String c b) = Some (a, b).
Proof.
  induction a as [|x a IH]; cbn [append split_once no_char all_chars]; intros H.
  - now rewrite Ascii.eqb_refl.
  - fold (no_char c a) in H. apply andb_true_iff in H as [H1 H2].
    apply negb_true_iff in H1. rewrite H1, (IH H2). reflexivity.
Qed.

Lemma all_chars_impl (p q : ascii -> bool) (s : string) :
  (forall a, p a = true -> q a = true) ->
  all_chars p s = true -> all_chars q s = true.
Proof.
  intros Hpq. induction s as [|x s IH]; [reflexivity|].
  cbn [all_chars]. intros H. apply andb_true_iff in H as [H1 H2].
  now rewrite (Hpq _ H1), (IH H2).
Qed.

Lemma digits_no_char (c : ascii) (s : string) :
  is_digit c = false -> all_chars is_digit s = true -> no_char c s = true.
Proof.
  intros Hc. apply all_chars_impl. intros a Ha.
  apply negb_true_iff, Ascii.eqb_neq. intros ->. congruence.
Qed.

Lemma endswith_app (p a s : string) :
  (String.length p <= String.length s)%nat -> s <> "" ->
  endswith p (a ++ s) = endswith p s.
Proof.
  intros Hlen Hs. induction a as [|x a IH]; [reflexivity|].
  cbn [append endswith]. rewrite IH.
  assert (E : (String x (a ++ s) =? p)%string = false).
  { apply String.eqb_neq. intros <-. cbn [String.length] in Hlen.
    rewrite length_app in Hlen. lia. }
  now rewrite E.
Qed.

Lemma endswith_last_char (c : ascii) (s : string) :
  no_char c s = true -> endswith (String c "") s = false.
Proof.
  induction s as [|x s IH]; [reflexivity|].
  cbn [no_char all_chars endswith]. fold (no_char c s). intros H.
  apply andb_true_iff in H as [H1 H2]. rewrite (IH H2), orb_false_r.
  apply String.eqb_neq. intros E. injection E as -> _.
  now rewrite Ascii.eqb_refl in H1.
Qed.

Lemma drop_last_app (a s : string) :
  s <> "" -> drop_last (a ++ s) = a ++ drop_last s.
Proof.
  intros Hs. induction a as [|x a IH]; [reflexivity|].
  cbn [append]. cbn [drop_last]. rewrite IH.
  destruct (a ++ s) eqn:E; [|reflexivity].
  destruct a; [now destruct Hs | discriminate].
Qed.

Lemma take_split (n : nat) (s : string) : exists rest, s = take n s ++ rest.
Proof.
  revert s; induction n as [|n IH]; intros s.
  - now exists s.
  - destruct s as [|x s]; [now exists ""|].
    destruct (IH s) as [r E]. exists r. cbn. now rewrite <- E.
Qed.

Lemma take_length (n : nat) (s : string) :
  String.length (take n s) = Nat.min n (String.length s).
Proof.
  revert s; induction n as [|n IH]; intros s; [reflexivity|].
  destruct s as [|x s]; [reflexivity|]. cbn. now rewrite IH.
Qed.

End StringFacts.

(* ------------------------------------------------------------------ *)
(** * The timestamp parser *)

Section ParserFacts.

Variable fromisoformat : string -> pyresult datetime.

Lemma z_to_utc_app (a s : string) :
  s <> "" -> z_to_utc (a ++ s) = a ++ z_to_utc s.
Proof.
  intros Hs. unfold z_to_utc.
  rewrite endswith_app; [|destruct s; [now destruct Hs | cbn; lia] | exact Hs].
  destruct (endswith "Z" s); [|reflexivity].
  now rewrite drop_last_app, append_assoc.
Qed.

Lemma z_to_utc_digits (before frac : string) :
  all_chars is_digit frac = true ->
  z_to_utc (before ++ "." ++ frac) = before ++ "." ++ frac.
Proof.
  intros Hd. rewrite z_to_utc_app by discriminate.
  unfold z_to_utc. rewrite endswith_last_char; [reflexivity|].
  cbn [append no_char all_chars]. fold (no_char "Z" frac).
  now rewrite (digits_no_char "Z" frac).
Qed.

Lemma normalize_ts_dot (ts before after : string) :
  no_char "." before = true ->
  z_to_utc ts = before ++ "." ++ after ->
  Checker.normalize_ts ts =
    if contains "+" after then
      match split_once "+" after with
      | Some (frac, tz) => before ++ "." ++ take 6 frac ++ "+" ++ tz
      | None => before ++ "." ++ after
      end
    else if contains "-" after then
      match split_once "-" after with
      | Some (frac, tz) => before ++ "." ++ take 6 frac ++ "-" ++ tz
      | None => before ++ "." ++ after
      end
    else before ++ "." ++ take 6 after.
Proof.
  intros Hb Hz. unfold Checker.normalize_ts.
  fold (z_to_utc ts). rewrite Hz.
  assert (Hc : contains "." (before ++ "." ++ after) = true).
  { rewrite contains_single, no_char_app. cbn. now rewrite andb_false_r. }
  rewrite Hc. cbn [append]. rewrite (split_once_first "." before after Hb).
  reflexivity.
Qed.

Lemma z_to_utc_fraction (before frac suffix : string) :
  all_chars is_digit frac = true ->
  z_to_utc (before ++ "." ++ frac ++ suffix)
  = before ++ "." ++ frac ++ z_to_utc suffix.
Proof.
  intros Hd. destruct suffix as [|c t].
  - cbn [z_to_utc endswith String.eqb orb]. rewrite append_nil_r.
    now apply z_to_utc_digits.
  - replace (before ++ "." ++ frac ++ String c t)
      with ((before ++ "." ++ frac) ++ String c t)
      by (now rewrite !append_assoc).
    rewrite z_to_utc_app by discriminate. now rewrite !append_assoc.
Qed.

(** The text handed to [fromisoformat] for a timestamp with a fraction:
    the first six digits of the fraction are kept, the rest are dropped. *)
Lemma normalize_ts_fraction (before frac suffix : string) :
  no_char "." before = true ->
  all_chars is_digit frac = true ->
  offset_like (z_to_utc suffix) = true ->
  Checker.normalize_ts (before ++ "." ++ frac ++ suffix)
  = before ++ "." ++ take 6 frac ++ z_to_utc suffix.
Proof.
  intros Hb Hd Ho.
  assert (Hplus : no_char "+" frac = true) by now apply digits_no_char.
  assert (Hminus : no_char "-" frac = true) by now apply digits_no_char.
  rewrite (normalize_ts_dot _ before (frac ++ z_to_utc suffix) Hb)
    by now apply z_to_utc_fraction.
  destruct (z_to_utc suffix) as [|c t].
  - rewrite !append_nil_r, !contains_single, Hplus, Hminus. reflexivity.
  - cbn [offset_like] in Ho. rewrite !contains_single, !no_char_app, Hplus, Hminus.
    cbn [no_char all_chars andb]. fold (no_char "+" t) (no_char "-" t).
    destruct (Ascii.eqb c "+") eqn:Ep.
    + apply Ascii.eqb_eq in Ep as ->. cbn [negb andb].
      now rewrite (split_once_first "+" frac t Hplus).
    + cbn [orb] in Ho. apply andb_true_iff in Ho as [Em Hc].
      apply Ascii.eqb_eq in Em as ->. cbn [negb andb Ascii.eqb Bool.eqb].
      rewrite contains_single in Hc. rewrite negb_involutive in Hc. rewrite Hc.
      cbn [negb]. now rewrite (split_once_first "-" frac t Hminus).
Qed.

End ParserFacts.

(* ------------------------------------------------------------------ *)
(** * Properties of [worker/checker.py] *)

Section CheckerProperties.

Variable fromisoformat : string -> pyresult datetime.
Variable render : pyval -> string.

Local Abbreviation _parse_block_time := (Checker._parse_block_time fromisoformat).
Local Abbreviation parse_normalized := (Checker.parse_normalized fromisoformat).
Local Abbreviation _calc_block_delay_ms := (Checker._calc_block_delay_ms fromisoformat).


Lemma normalize_ts_z (a b : string) :
  z_to_utc a = z_to_utc b -> Checker.normalize_ts a = Checker.normalize_ts b.
Proof.
  intros H. unfold Checker.normalize_ts.
  fold (z_to_utc a) (z_to_utc b). now rewrite H.
Qed.

Lemma z_to_utc_Z (s : string) : z_to_utc (s ++ "Z") = s ++ "+00:00".
Proof.
  unfold z_to_utc. rewrite endswith_app by (cbn; first [lia | discriminate]).
  change (endswith "Z" "Z") with true. cbv iota.
  rewrite drop_last_app by discriminate. cbn [drop_last].
  now rewrite append_nil_r.
Qed.

Lemma z_to_utc_offset (s : string) : z_to_utc (s ++ "+00:00") = s ++ "+00:00".
Proof.
  unfold z_to_utc. rewrite endswith_app by (cbn; first [lia | discriminate]).
  reflexivity.
Qed.

Lemma parse_text (ts : string) :
  _parse_block_time (PStr ts) =
  Return (if (ts =? "")%string then None
          else parse_normalized (Checker.normalize_ts ts)).
Proof.
  unfold Checker._parse_block_time. cbn [truthy].
  now destruct (ts =? "")%string.
Qed.

Lemma app_nonempty (a b : string) : b <> "" -> ((a ++ b) =? "")%string = false.
Proof.
  intros Hb. apply String.eqb_neq. destruct a; [exact Hb | discriminate].
Qed.

Lemma parse_normalized_some (s : string) (r : datetime) :
  parse_normalized s = Some r ->
  tzinfo r = Some 0 /\
  exists dt, fromisoformat s = Return dt /\ instant r = instant dt.
Proof.
  unfold Checker.parse_normalized, try_except, bind.
  destruct (fromisoformat s) as [dt|e]; [|discriminate].
  unfold astimezone_utc, instant.
  destruct dt as [w [off|]]; cbn [tzinfo wall replace_utc].
  - destruct (off =? 0) eqn:E.
    + apply Z.eqb_eq in E as ->. intros [= <-]. split; [reflexivity|].
      eexists; split; reflexivity.
    + destruct ((0 <=? w - off) && (w - off <=? MAX_WALL)); [|discriminate].
      intros [= <-]. split; [reflexivity|].
      eexists; split; [reflexivity|]. cbn. lia.
  - cbn. intros [= <-]. split; [reflexivity|].
    eexists; split; [reflexivity|]. reflexivity.
Qed.

(** C4.  On every text the timestamp parser returns and never raises; a
    final [Z] is read as the offset [+00:00]; a fraction is cut to its
    first six digits (the digits kept are unchanged, none is rounded)
    before [fromisoformat] sees the text; a value parsed without an offset
    is taken as UTC; a successful result is a UTC datetime denoting the
    instant that was parsed; and a text that [fromisoformat] rejects gives
    [None], which a probe that found no chain id mismatch reports as
    [INVALID_BLOCK_TIME]. *)
Theorem C4_parse_block_time :
  (forall ts, exists r, _parse_block_time (PStr ts) = Return r) /\
  (forall s, _parse_block_time (PStr (s ++ "Z"))
             = _parse_block_time (PStr (s ++ "+00:00"))) /\
  (forall before frac suffix,
      no_char "." before = true ->
      all_chars is_digit frac = true ->
      offset_like (z_to_utc suffix) = true ->
      _parse_block_time (PStr (before ++ "." ++ frac ++ suffix))
      = Return (parse_normalized (before ++ "." ++ take 6 frac ++ z_to_utc suffix))
      /\ (exists dropped, frac = take 6 frac ++ dropped)
      /\ ((6 < String.length frac)%nat -> String.length (take 6 frac) = 6%nat)) /\
  (forall ts dt,
      ts <> "" ->
      fromisoformat (Checker.normalize_ts ts) = Return dt ->
      tzinfo dt = None ->
      _parse_block_time (PStr ts) = Return (Some (mk_datetime (wall dt) (Some 0)))) /\
  (forall ts r,
      _parse_block_time (PStr ts) = Return (Some r) ->
      tzinfo r = Some 0 /\
      exists dt, fromisoformat (Checker.normalize_ts ts) = Return dt
                 /\ instant r = instant dt) /\
  (forall ts e,
      fromisoformat (Checker.normalize_ts ts) = Raise e ->
      _parse_block_time (PStr ts) = Return None) /\
  (forall now st expected chain_id height ts,
      Checker.chain_id_mismatch expected chain_id = false ->
      _parse_block_time (PStr ts) = Return None ->
      Checker.judge fromisoformat render now st expected chain_id height (PStr ts)
      = Return (false, Some st, None, height, Some "INVALID_BLOCK_TIME")).
Proof.
  repeat split.
  - intros ts. rewrite parse_text. eauto.
  - intros s. rewrite !parse_text, !app_nonempty by discriminate.
    f_equal. f_equal. apply normalize_ts_z.
    now rewrite z_to_utc_Z, z_to_utc_offset.
  - rewrite parse_text, app_nonempty by discriminate.
    now rewrite normalize_ts_fraction.
  - apply take_split.
  - intros Hlen. rewrite take_length. lia.
  - intros ts dt Hts Hp Hn. rewrite parse_text.
    apply String.eqb_neq in Hts. rewrite Hts.
    unfold Checker.parse_normalized. rewrite Hp. cbn [bind]. rewrite Hn.
    reflexivity.
  - rewrite parse_text in H. destruct (ts =? "")%string; [discriminate|].
    injection H as H. now apply parse_normalized_some in H.
  - rewrite parse_text in H. destruct (ts =? "")%string; [discriminate|].
    injection H as H. now apply parse_normalized_some in H.
  - intros ts e Hp. rewrite parse_text. destruct (ts =? "")%string; [reflexivity|].
    unfold Checker.parse_normalized. now rewrite Hp.
  - intros now st expected chain_id height ts Hm Hp.
    unfold Checker.judge, Checker._calc_block_delay_ms. rewrite Hm.
    destruct (negb (truthy (PStr ts))); [reflexivity|]. now rewrite Hp.
Qed.

(** What [_calc_block_delay_ms] computes.  An absent (null or empty) block
    time gives [None]; so does a block time that does not parse; for one
    that parses, the delay is [int((now_utc - dt).total_seconds() * 1000)],
    computed in binary64 and replaced by 0 when negative; no delay is ever
    negative. *)
Lemma block_delay_ms_shape (now_utc : Z) :
  _calc_block_delay_ms now_utc PNone = Return None /\
  _calc_block_delay_ms now_utc (PStr "") = Return None /\
  (forall ts, _parse_block_time (PStr ts) = Return None ->
              _calc_block_delay_ms now_utc (PStr ts) = Return None) /\
  (forall ts dt,
      _parse_block_time (PStr ts) = Return (Some dt) ->
      _calc_block_delay_ms now_utc (PStr ts)
      = (d <- py_int (times_1000 (total_seconds (now_utc - instant dt))) ;;
         Return (Some (Z.max 0 d)))) /\
  (forall v d, _calc_block_delay_ms now_utc v = Return (Some d) -> 0 <= d).
Proof.
  repeat split.
  - intros ts H. unfold Checker._calc_block_delay_ms.
    destruct (negb (truthy (PStr ts))); [reflexivity|]. now rewrite H.
  - intros ts dt H. unfold Checker._calc_block_delay_ms.
    destruct (negb (truthy (PStr ts))) eqn:E.
    + unfold Checker._parse_block_time in H. rewrite E in H. discriminate.
    + rewrite H. cbn [bind].
      replace (dt_sub (mk_datetime now_utc (Some 0)) dt) with (now_utc - instant dt)
        by (unfold dt_sub, instant; cbn [wall tzinfo]; lia).
      destruct (py_int _) as [d|e]; [|reflexivity]. cbn [bind].
      do 2 f_equal. destruct (d <? 0) eqn:Hd; [apply Z.ltb_lt in Hd | apply Z.ltb_ge in Hd]; lia.
  - intros v d. unfold Checker._calc_block_delay_ms.
    destruct (negb (truthy v)); [discriminate|].
    destruct (Checker._parse_block_time fromisoformat v) as [[dt|]|e]; cbn [bind];
      try discriminate.
    destruct (py_int _) as [x|e]; cbn [bind]; [|discriminate].
    intros [= <-].
    destruct (x <? 0) eqn:Hd; [|apply Z.ltb_ge in Hd]; lia.
Qed.


Local Abbreviation _check_rest_block_latest :=
  (Checker._check_rest_block_latest fromisoformat render).
Local Abbreviation check_api_endpoint := (Checker.check_api_endpoint fromisoformat render).
Local Abbreviation check_rpc_endpoint := (Checker.check_rpc_endpoint fromisoformat render).
Local Abbreviation judge := (Checker.judge fromisoformat render).

Lemma normalize_error_classified (msg : string) :
  classified msg (Checker._normalize_error msg).
Proof.
  unfold Checker._normalize_error.
  repeat match goal with |- context [if ?c then _ else _] => destruct c end;
    constructor.
Qed.

Lemma first_startswith_code (p code : string) (errs : list string) :
  (forall c, In c errs -> startswith p c = (c =? code)%string) ->
  (In code errs -> Checker.first_startswith p errs = Some code) /\
  (~ In code errs -> Checker.first_startswith p errs = None).
Proof.
  induction errs as [|c errs IH]; intros H; cbn [Checker.first_startswith].
  - split; [intros [] | reflexivity].
  - rewrite (H c (or_introl eq_refl)).
    destruct (IH (fun c' Hc => H c' (or_intror Hc))) as [IH1 IH2].
    destruct (c =? code)%string eqn:E.
    + apply String.eqb_eq in E as ->. split; [reflexivity|].
      intros Hn. destruct Hn. now left.
    + apply String.eqb_neq in E. split.
      * intros [Hc|Hc]; [contradiction | auto].
      * intros Hn. apply IH2. intros Hc. apply Hn. now right.
Qed.

Lemma classified_startswith (msg c : string) :
  classified msg c ->
  startswith "DNS_" c = (c =? "DNS_RESOLUTION_FAILED")%string /\
  startswith "TLS_" c = (c =? "TLS_HANDSHAKE_TIMEOUT")%string /\
  startswith "REQUEST_TIMEOUT" c = (c =? "REQUEST_TIMEOUT")%string /\
  startswith "CHAIN_ID_MISMATCH" c = false /\
  c <> "".
Proof.
  intros []; repeat split; try reflexivity; discriminate.
Qed.

Lemma rest_raises (w : world) (base_url path : string) (expected : option string)
  (e : string) :
  httpx_get w (rstrip "/" base_url ++ path) = HttpRaise e ->
  _check_rest_block_latest w base_url path expected = Raise e.
Proof.
  intros H. unfold Checker._check_rest_block_latest, Checker.get_response.
  now rewrite H.
Qed.

Lemma alive_raises (w : world) (base_url e : string) :
  httpx_get w (rstrip "/" base_url) = HttpRaise e ->
  Checker.alive_try w base_url = Raise e.
Proof.
  intros H. unfold Checker.alive_try, Checker.get_response. now rewrite H.
Qed.

Lemma rest_non_2xx (w : world) (base_url path : string) (expected : option string)
  (st : Z) (body : pyresult pyval) :
  httpx_get w (rstrip "/" base_url ++ path) = HttpResponse st body ->
  Checker.non_2xx st = true ->
  _check_rest_block_latest w base_url path expected
  = Return (false, Some st, None, PNone, Some ("HTTP_STATUS_" ++ str_of_int st)).
Proof.
  intros H Hs. unfold Checker._check_rest_block_latest, Checker.get_response.
  rewrite H. cbn [bind]. now rewrite Hs.
Qed.

Lemma rest_local (w w' : world) (base_url path : string) (expected : option string) :
  httpx_get w' (rstrip "/" base_url ++ path) = httpx_get w (rstrip "/" base_url ++ path) ->
  utc_now w' (rstrip "/" base_url ++ path) = utc_now w (rstrip "/" base_url ++ path) ->
  _check_rest_block_latest w' base_url path expected
  = _check_rest_block_latest w base_url path expected.
Proof.
  intros H1 H2. unfold Checker._check_rest_block_latest, Checker.get_response.
  now rewrite H1, H2.
Qed.

(** C7.  When the three requests of the API probe all raise, the probe is
    unavailable with one error: [DNS_RESOLUTION_FAILED] if any of the
    three classified errors is that, else [TLS_HANDSHAKE_TIMEOUT] if any
    is, else [REQUEST_TIMEOUT] if any is, else the classified error of the
    first attempt, whichever attempt produced which error. *)
Theorem C7_aggregated_error (w : world) (base_url : string)
  (expected_chain_id : option string) (e1 e2 e3 : string) :
  httpx_get w (rstrip "/" base_url ++ Checker.PATH_NEW) = HttpRaise e1 ->
  httpx_get w (rstrip "/" base_url ++ Checker.PATH_OLD) = HttpRaise e2 ->
  httpx_get w (rstrip "/" base_url) = HttpRaise e3 ->
  let errs := map Checker._normalize_error [e1; e2; e3] in
  exists err,
    check_api_endpoint w base_url expected_chain_id
    = (false, None, None, PNone, Some err) /\
    (In "DNS_RESOLUTION_FAILED" errs -> err = "DNS_RESOLUTION_FAILED") /\
    (~ In "DNS_RESOLUTION_FAILED" errs ->
     In "TLS_HANDSHAKE_TIMEOUT" errs -> err = "TLS_HANDSHAKE_TIMEOUT") /\
    (~ In "DNS_RESOLUTION_FAILED" errs ->
     ~ In "TLS_HANDSHAKE_TIMEOUT" errs ->
     In "REQUEST_TIMEOUT" errs -> err = "REQUEST_TIMEOUT") /\
    (~ In "DNS_RESOLUTION_FAILED" errs ->
     ~ In "TLS_HANDSHAKE_TIMEOUT" errs ->
     ~ In "REQUEST_TIMEOUT" errs -> err = Checker._normalize_error e1).
Proof.
  intros H1 H2 H3 errs.
  unfold Checker.check_api_endpoint.
  rewrite (rest_raises _ _ _ _ _ H1), (rest_raises _ _ _ _ _ H2),
    (alive_raises _ _ _ H3).
  eexists; split; [reflexivity|].
  unfold Checker.most_helpful.
  change [Checker._normalize_error e1; Checker._normalize_error e2;
          Checker._normalize_error e3] with errs.
  assert (Hcl : forall c, In c errs -> exists m, classified m c).
  { intros c [<-|[<-|[<-|[]]]]; eexists; apply normalize_error_classified. }
  destruct (first_startswith_code "DNS_" "DNS_RESOLUTION_FAILED" errs) as [D1 D2].
  { intros c Hc. destruct (Hcl c Hc) as [m Hm]. apply (classified_startswith m c Hm). }
  destruct (first_startswith_code "TLS_" "TLS_HANDSHAKE_TIMEOUT" errs) as [T1 T2].
  { intros c Hc. destruct (Hcl c Hc) as [m Hm]. apply (classified_startswith m c Hm). }
  destruct (first_startswith_code "REQUEST_TIMEOUT" "REQUEST_TIMEOUT" errs) as [R1 R2].
  { intros c Hc. destruct (Hcl c Hc) as [m Hm]. apply (classified_startswith m c Hm). }
  repeat split.
  - intros Hd. now rewrite (D1 Hd).
  - intros Hd Ht. now rewrite (D2 Hd), (T1 Ht).
  - intros Hd Ht Hr. now rewrite (D2 Hd), (T2 Ht), (R1 Hr).
  - intros Hd Ht Hr. rewrite (D2 Hd), (T2 Ht), (R2 Hr).
    unfold Checker.str_or.
    destruct (classified_startswith e1 _ (normalize_error_classified e1))
      as (_ & _ & _ & _ & Hne).
    apply String.eqb_neq in Hne. now rewrite Hne.
Qed.

Lemma logged_rest (w : world) (base_url path : string) (expected : option string) :
  Logged._check_rest_block_latest fromisoformat render w base_url path expected
  = ([rstrip "/" base_url ++ path],
     _check_rest_block_latest w base_url path expected).
Proof.
  unfold Logged._check_rest_block_latest, Checker._check_rest_block_latest,
    Logged.get_response, Checker.get_response, Logged.lbind, Logged.lret,
    Logged.silent.
  destruct (httpx_get w _) as [e|st [data|e]]; cbn [bind]; [reflexivity|..];
    destruct (Checker.non_2xx st); reflexivity.
Qed.

Lemma logged_alive (w : world) (base_url : string) :
  Logged.alive_try w base_url = ([rstrip "/" base_url], Checker.alive_try w base_url).
Proof.
  unfold Logged.alive_try, Checker.alive_try, Logged.get_response,
    Checker.get_response, Logged.lbind, Logged.lret.
  destruct (httpx_get w _) as [e|st body]; cbn [bind]; [reflexivity|].
  destruct (Checker.non_2xx st); reflexivity.
Qed.

Lemma logged_api_result (w : world) (base_url : string) (expected : option string) :
  snd (Logged.check_api_endpoint fromisoformat render w base_url expected)
  = check_api_endpoint w base_url expected.
Proof.
  unfold Logged.check_api_endpoint, Checker.check_api_endpoint.
  rewrite !logged_rest, logged_alive.
  destruct (_check_rest_block_latest w base_url Checker.PATH_NEW expected);
    [reflexivity|].
  destruct (_check_rest_block_latest w base_url Checker.PATH_OLD expected);
    [reflexivity|].
  destruct (Checker.alive_try w base_url); reflexivity.
Qed.

Lemma rest_invalid_json (w : world) (base_url path : string)
  (expected : option string) (st : Z) (e : string) :
  httpx_get w (rstrip "/" base_url ++ path) = HttpResponse st (Raise e) ->
  Checker.non_2xx st = false ->
  _check_rest_block_latest w base_url path expected
  = Return (false, Some st, None, PNone, Some ("INVALID_JSON: " ++ e)).
Proof.
  intros H Hs. unfold Checker._check_rest_block_latest, Checker.get_response.
  rewrite H. cbn [bind]. now rewrite Hs.
Qed.

Lemma alive_answers (w : world) (base_url : string) (st : Z) (body : pyresult pyval) :
  httpx_get w (rstrip "/" base_url) = HttpResponse st body ->
  Checker.alive_try w base_url
  = Return (if Checker.non_2xx st
            then (false, Some st, None, PNone, Some ("HTTP_STATUS_" ++ str_of_int st))
            else (true, Some st, None, PNone, None)).
Proof.
  intros H. unfold Checker.alive_try, Checker.get_response. rewrite H. cbn [bind].
  now destruct (Checker.non_2xx st).
Qed.

(** The requests and the result of the API probe, by the outcomes of its
    three strategies. *)
Lemma logged_api_cases (w : world) (base_url : string) (expected : option string) :
  let url1 := rstrip "/" base_url ++ Checker.PATH_NEW in
  let url2 := rstrip "/" base_url ++ Checker.PATH_OLD in
  let url3 := rstrip "/" base_url in
  let try1 := _check_rest_block_latest w base_url Checker.PATH_NEW expected in
  let try2 := _check_rest_block_latest w base_url Checker.PATH_OLD expected in
  let try3 := Checker.alive_try w base_url in
  let probe := Logged.check_api_endpoint fromisoformat render w base_url expected in
  (forall r, try1 = Return r -> probe = ([url1], r)) /\
  (forall e1 r, try1 = Raise e1 -> try2 = Return r -> probe = ([url1; url2], r)) /\
  (forall e1 e2 r, try1 = Raise e1 -> try2 = Raise e2 -> try3 = Return r ->
                   probe = ([url1; url2; url3], r)) /\
  (forall e1 e2 e3, try1 = Raise e1 -> try2 = Raise e2 -> try3 = Raise e3 ->
                    probe = ([url1; url2; url3],
                             (false, None, None, PNone,
                              Some (Checker.most_helpful (Checker._normalize_error e1)
                                      (Checker._normalize_error e2)
                                      (Checker._normalize_error e3))))).
Proof.
  intros url1 url2 url3 try1 try2 try3 probe.
  subst url1 url2 url3 try1 try2 try3 probe.
  unfold Logged.check_api_endpoint. rewrite !logged_rest, logged_alive.
  split; [|split; [|split]].
  - intros r ->. reflexivity.
  - intros e1 r -> ->. reflexivity.
  - intros e1 e2 r -> -> ->. reflexivity.
  - intros e1 e2 e3 -> -> ->. reflexivity.
Qed.

(** C3.  The API probe runs its three strategies in the order new REST
    path, legacy REST path, bare GET of the base URL, each sending one
    request, and returns the result of the first that completes without
    raising, also when that result is unavailable (a non-2xx status, a
    body that is not JSON); the requests of the later strategies are then
    not sent, and what they would have answered has no influence on the
    result. *)
Theorem C3_first_completed_strategy (w : world) (base_url : string)
  (expected_chain_id : option string) :
  let url1 := rstrip "/" base_url ++ Checker.PATH_NEW in
  let url2 := rstrip "/" base_url ++ Checker.PATH_OLD in
  let url3 := rstrip "/" base_url in
  let try1 := _check_rest_block_latest w base_url Checker.PATH_NEW expected_chain_id in
  let try2 := _check_rest_block_latest w base_url Checker.PATH_OLD expected_chain_id in
  let try3 := Checker.alive_try w base_url in
  let probe :=
    Logged.check_api_endpoint fromisoformat render w base_url expected_chain_id in
  (Logged._check_rest_block_latest fromisoformat render w base_url Checker.PATH_NEW
     expected_chain_id = ([url1], try1) /\
   Logged._check_rest_block_latest fromisoformat render w base_url Checker.PATH_OLD
     expected_chain_id = ([url2], try2) /\
   Logged.alive_try w base_url = ([url3], try3) /\
   snd probe = check_api_endpoint w base_url expected_chain_id) /\
  ((forall r, try1 = Return r -> probe = ([url1], r)) /\
   (forall e1 r, try1 = Raise e1 -> try2 = Return r -> probe = ([url1; url2], r)) /\
   (forall e1 e2 r, try1 = Raise e1 -> try2 = Raise e2 -> try3 = Return r ->
                    probe = ([url1; url2; url3], r)) /\
   (forall e1 e2 e3, try1 = Raise e1 -> try2 = Raise e2 -> try3 = Raise e3 ->
                     fst probe = [url1; url2; url3])) /\
  ((forall st body, httpx_get w url1 = HttpResponse st body ->
                    Checker.non_2xx st = true ->
                    probe = ([url1],
                             (false, Some st, None, PNone,
                              Some ("HTTP_STATUS_" ++ str_of_int st)))) /\
   (forall st e, httpx_get w url1 = HttpResponse st (Raise e) ->
                 Checker.non_2xx st = false ->
                 probe = ([url1],
                          (false, Some st, None, PNone, Some ("INVALID_JSON: " ++ e)))) /\
   (forall e1 st body, httpx_get w url1 = HttpRaise e1 ->
                       httpx_get w url2 = HttpResponse st body ->
                       Checker.non_2xx st = true ->
                       probe = ([url1; url2],
                                (false, Some st, None, PNone,
                                 Some ("HTTP_STATUS_" ++ str_of_int st)))) /\
   (forall e1 st e, httpx_get w url1 = HttpRaise e1 ->
                    httpx_get w url2 = HttpResponse st (Raise e) ->
                    Checker.non_2xx st = false ->
                    probe = ([url1; url2],
                             (false, Some st, None, PNone,
                              Some ("INVALID_JSON: " ++ e)))) /\
   (forall e1 e2 st body, try1 = Raise e1 -> try2 = Raise e2 ->
                          httpx_get w url3 = HttpResponse st body ->
                          probe = ([url1; url2; url3],
                                   if Checker.non_2xx st
                                   then (false, Some st, None, PNone,
                                         Some ("HTTP_STATUS_" ++ str_of_int st))
                                   else (true, Some st, None, PNone, None)))) /\
  ((forall e, httpx_get w url1 = HttpRaise e -> try1 = Raise e) /\
   (forall e, httpx_get w url2 = HttpRaise e -> try2 = Raise e) /\
   (forall e, httpx_get w url3 = HttpRaise e -> try3 = Raise e)) /\
  ((forall w' r, try1 = Return r ->
                 httpx_get w' url1 = httpx_get w url1 ->
                 utc_now w' url1 = utc_now w url1 ->
                 Logged.check_api_endpoint fromisoformat render w' base_url
                   expected_chain_id = ([url1], r)) /\
   (forall w' e1 r, try1 = Raise e1 -> try2 = Return r ->
                    httpx_get w' url1 = httpx_get w url1 ->
                    utc_now w' url1 = utc_now w url1 ->
                    httpx_get w' url2 = httpx_get w url2 ->
                    utc_now w' url2 = utc_now w url2 ->
                    Logged.check_api_endpoint fromisoformat render w' base_url
                      expected_chain_id = ([url1; url2], r))).
Proof.
  intros url1 url2 url3 try1 try2 try3 probe.
  destruct (logged_api_cases w base_url expected_chain_id) as (L1 & L2 & L3 & L4).
  fold url1 url2 url3 try1 try2 try3 probe in L1, L2, L3, L4.
  split; [|split; [|split; [|split]]].
  - split; [apply logged_rest|]. split; [apply logged_rest|].
    split; [apply logged_alive | apply logged_api_result].
  - split; [exact L1|]. split; [exact L2|]. split; [exact L3|].
    intros e1 e2 e3 H1 H2 H3. now rewrite (L4 e1 e2 e3 H1 H2 H3).
  - split; [|split; [|split; [|split]]].
    + intros st body H Hs. apply L1. exact (rest_non_2xx _ _ _ _ _ _ H Hs).
    + intros st e H Hs. apply L1. exact (rest_invalid_json _ _ _ _ _ _ H Hs).
    + intros e1 st body H1 H2 Hs. apply (L2 e1).
      * exact (rest_raises _ _ _ _ _ H1).
      * exact (rest_non_2xx _ _ _ _ _ _ H2 Hs).
    + intros e1 st e H1 H2 Hs. apply (L2 e1).
      * exact (rest_raises _ _ _ _ _ H1).
      * exact (rest_invalid_json _ _ _ _ _ _ H2 Hs).
    + intros e1 e2 st body H1 H2 H3. apply (L3 e1 e2 _ H1 H2).
      exact (alive_answers _ _ _ _ H3).
  - split; [|split].
    + intros e H. exact (rest_raises _ _ _ _ _ H).
    + intros e H. exact (rest_raises _ _ _ _ _ H).
    + intros e H. exact (alive_raises _ _ _ H).
  - split.
    + intros w' r H Hg Hn.
      destruct (logged_api_cases w' base_url expected_chain_id) as (L1' & _).
      apply L1'. now rewrite (rest_local w w' _ _ _ Hg Hn).
    + intros w' e1 r H1 H2 Hg1 Hn1 Hg2 Hn2.
      destruct (logged_api_cases w' base_url expected_chain_id) as (_ & L2' & _).
      apply (L2' e1).
      * now rewrite (rest_local w w' _ _ _ Hg1 Hn1).
      * now rewrite (rest_local w w' _ _ _ Hg2 Hn2).
Qed.

(** C1, as the code has it.  A 404 on the first REST path is the result of
    the API probe, unavailable with [HTTP_STATUS_404], and the request to
    that path is the only one the probe sends; so is a 404 on the legacy
    path after the first request raised, after which no third request is
    sent; the bare GET is sent and decides, giving
    [(True, 200, None, None, None)] on a 200, when the requests to both
    REST paths raise. *)
Theorem C1_api_liveness_fallback (w : world) (base_url : string)
  (expected_chain_id : option string) :
  let url1 := rstrip "/" base_url ++ Checker.PATH_NEW in
  let url2 := rstrip "/" base_url ++ Checker.PATH_OLD in
  let url3 := rstrip "/" base_url in
  let probe :=
    Logged.check_api_endpoint fromisoformat render w base_url expected_chain_id in
  (forall body, httpx_get w url1 = HttpResponse 404 body ->
                probe = ([url1], (false, Some 404, None, PNone, Some "HTTP_STATUS_404"))
                /\ check_api_endpoint w base_url expected_chain_id
                   = (false, Some 404, None, PNone, Some "HTTP_STATUS_404")) /\
  (forall e1 body, httpx_get w url1 = HttpRaise e1 ->
                   httpx_get w url2 = HttpResponse 404 body ->
                   probe = ([url1; url2],
                            (false, Some 404, None, PNone, Some "HTTP_STATUS_404"))
                   /\ check_api_endpoint w base_url expected_chain_id
                      = (false, Some 404, None, PNone, Some "HTTP_STATUS_404")) /\
  (forall e1 e2 body, httpx_get w url1 = HttpRaise e1 ->
                      httpx_get w url2 = HttpRaise e2 ->
                      httpx_get w url3 = HttpResponse 200 body ->
                      probe = ([url1; url2; url3], (true, Some 200, None, PNone, None))
                      /\ check_api_endpoint w base_url expected_chain_id
                         = (true, Some 200, None, PNone, None)).
Proof.
  intros url1 url2 url3 probe.
  destruct (logged_api_cases w base_url expected_chain_id) as (L1 & L2 & L3 & _).
  fold url1 url2 url3 probe in L1, L2, L3.
  assert (Hres : forall l r, probe = (l, r) ->
                             check_api_endpoint w base_url expected_chain_id = r).
  { intros l r H. rewrite <- logged_api_result. fold probe. now rewrite H. }
  split; [|split].
  - intros body H.
    assert (E : probe = ([url1], (false, Some 404, None, PNone, Some "HTTP_STATUS_404")))
      by (apply L1; exact (rest_non_2xx _ _ _ _ _ _ H eq_refl)).
    split; [exact E | exact (Hres _ _ E)].
  - intros e1 body H1 H2.
    assert (E : probe = ([url1; url2],
                         (false, Some 404, None, PNone, Some "HTTP_STATUS_404"))).
    { apply (L2 e1); [exact (rest_raises _ _ _ _ _ H1)|].
      exact (rest_non_2xx _ _ _ _ _ _ H2 eq_refl). }
    split; [exact E | exact (Hres _ _ E)].
  - intros e1 e2 body H1 H2 H3.
    assert (E : probe = ([url1; url2; url3], (true, Some 200, None, PNone, None))).
    { apply (L3 e1 e2); [exact (rest_raises _ _ _ _ _ H1) |
                         exact (rest_raises _ _ _ _ _ H2) |].
      exact (alive_answers _ _ _ _ H3). }
    split; [exact E | exact (Hres _ _ E)].
Qed.


Lemma mismatch_inv (expected : option string) (chain_id : pyval) :
  Checker.chain_id_mismatch expected chain_id = true ->
  exists x, expected = Some x /\ x <> "" /\
            truthy chain_id = true /\ differs chain_id x = true.
Proof.
  unfold Checker.chain_id_mismatch. destruct expected as [x|]; [|discriminate].
  cbn [truthy_opt Checker.differs_opt]. intros H.
  apply andb_true_iff in H as [H Hd]. apply andb_true_iff in H as [Hx Ht].
  exists x. repeat split; auto.
  apply negb_true_iff in Hx. now apply String.eqb_neq.
Qed.

Lemma first_startswith_in (p e : string) (errs : list string) :
  Checker.first_startswith p errs = Some e -> In e errs.
Proof.
  induction errs as [|c errs IH]; [discriminate|]. cbn [Checker.first_startswith].
  destruct (startswith p c); [intros [= <-]; now left | right; auto].
Qed.

Lemma most_helpful_in (c1 c2 c3 : string) :
  c1 <> "" -> In (Checker.most_helpful c1 c2 c3) [c1; c2; c3].
Proof.
  intros Hne. unfold Checker.most_helpful.
  destruct (Checker.first_startswith "DNS_" _) eqn:D;
    [now apply first_startswith_in in D|].
  destruct (Checker.first_startswith "TLS_" _) eqn:T;
    [now apply first_startswith_in in T|].
  destruct (Checker.first_startswith "REQUEST_TIMEOUT" _) eqn:R;
    [now apply first_startswith_in in R|].
  unfold Checker.str_or. apply String.eqb_neq in Hne. rewrite Hne. now left.
Qed.

Lemma classified_no_mismatch (msg : string) :
  startswith "CHAIN_ID_MISMATCH" (Checker._normalize_error msg) = false.
Proof.
  apply (classified_startswith msg _ (normalize_error_classified msg)).
Qed.

Lemma judge_mismatch_inv (now st : Z) (expected : option string)
  (chain_id height time_str : pyval) (r : probe_result) :
  judge now st expected chain_id height time_str = Return r ->
  mismatch_error r = true ->
  Checker.chain_id_mismatch expected chain_id = true.
Proof.
  unfold Checker.judge. destruct (Checker.chain_id_mismatch expected chain_id);
    [reflexivity|].
  destruct (_calc_block_delay_ms now time_str) as [[d|]|e]; cbn [bind];
    try discriminate; intros [= <-]; discriminate.
Qed.

Lemma judge_no_mismatch (now st : Z) (expected : option string)
  (chain_id height time_str : pyval) :
  Checker.chain_id_mismatch expected chain_id = false ->
  judge now st expected chain_id height time_str
  = (delay_ms <- _calc_block_delay_ms now time_str ;;
     match delay_ms with
     | None => Return (false, Some st, None, height, Some "INVALID_BLOCK_TIME")
     | Some d => Return (true, Some st, Some d, height, None)
     end).
Proof. intros H. unfold Checker.judge. now rewrite H. Qed.

Lemma falsy_no_mismatch (expected : option string) (chain_id : pyval) :
  truthy chain_id = false -> Checker.chain_id_mismatch expected chain_id = false.
Proof.
  intros H. unfold Checker.chain_id_mismatch. rewrite H.
  now rewrite andb_false_r.
Qed.

Lemma rest_mismatch_inv (w : world) (base_url path : string)
  (expected : option string) (r : probe_result) :
  _check_rest_block_latest w base_url path expected = Return r ->
  mismatch_error r = true ->
  exists x st data chain_id height time_str,
    expected = Some x /\ x <> "" /\
    httpx_get w (rstrip "/" base_url ++ path) = HttpResponse st (Return data) /\
    Checker.rest_fields data = Return (chain_id, height, time_str) /\
    truthy chain_id = true /\ differs chain_id x = true.
Proof.
  unfold Checker._check_rest_block_latest, Checker.get_response.
  destruct (httpx_get w _) as [e|st [data|e]]; cbn [bind]; [discriminate|..];
    destruct (Checker.non_2xx st); try (intros [= <-]; cbn; discriminate).
  destruct (Checker.rest_fields data) as [[[c h] t]|e] eqn:Hf; cbn [bind];
    [|discriminate].
  intros Hj Hm. apply (judge_mismatch_inv _ _ _ _ _ _ _ Hj) in Hm.
  destruct (mismatch_inv _ _ Hm) as (x & -> & Hx & Ht & Hd).
  exists x, st, data, c, h, t. repeat split; auto.
Qed.

Lemma rpc_mismatch_inv (w : world) (base_url : string) (expected : option string) :
  mismatch_error (check_rpc_endpoint w base_url expected) = true ->
  exists x st data network height time_str,
    expected = Some x /\ x <> "" /\
    httpx_get w (rstrip "/" base_url ++ "/status") = HttpResponse st (Return data) /\
    Checker.rpc_fields data = Return (network, height, time_str) /\
    truthy network = true /\ differs network x = true.
Proof.
  assert (Hcl : forall e,
             mismatch_error (false, None, None, PNone, Some (Checker.rpc_classify e))
             = false).
  { intros e. unfold mismatch_error.
    change (Checker.rpc_classify e) with (Checker._normalize_error e).
    apply classified_no_mismatch. }
  unfold Checker.check_rpc_endpoint, Checker.rpc_try, Checker.get_response.
  destruct (httpx_get w _) as [e|st [data|e]]; cbn [bind try_except].
  - rewrite Hcl. discriminate.
  - destruct (Checker.non_2xx st); cbn [try_except]; [discriminate|].
    destruct (Checker.rpc_fields data) as [[[c h] t]|e] eqn:Hf; cbn [bind].
    + destruct (judge _ _ _ _ _ _) as [r|e] eqn:Hj; cbn [try_except].
      * intros Hm. apply (judge_mismatch_inv _ _ _ _ _ _ _ Hj) in Hm.
        destruct (mismatch_inv _ _ Hm) as (x & -> & Hx & Ht & Hd).
        exists x, st, data, c, h, t. repeat split; auto.
      * rewrite Hcl. discriminate.
    + cbn [try_except]. rewrite Hcl. discriminate.
  - destruct (Checker.non_2xx st); cbn [try_except]; discriminate.
Qed.

Lemma alive_no_mismatch (w : world) (base_url : string) (r : probe_result) :
  Checker.alive_try w base_url = Return r -> mismatch_error r = false.
Proof.
  unfold Checker.alive_try, Checker.get_response.
  destruct (httpx_get w _) as [e|st body]; cbn [bind]; [discriminate|].
  destruct (Checker.non_2xx st); intros [= <-]; reflexivity.
Qed.

Lemma api_mismatch_inv (w : world) (base_url : string) (expected : option string) :
  mismatch_error (check_api_endpoint w base_url expected) = true ->
  exists x path st data chain_id height time_str,
    expected = Some x /\ x <> "" /\
    (path = Checker.PATH_NEW \/ path = Checker.PATH_OLD) /\
    httpx_get w (rstrip "/" base_url ++ path) = HttpResponse st (Return data) /\
    Checker.rest_fields data = Return (chain_id, height, time_str) /\
    truthy chain_id = true /\ differs chain_id x = true.
Proof.
  unfold Checker.check_api_endpoint.
  destruct (_check_rest_block_latest w base_url Checker.PATH_NEW expected)
    as [r|e1] eqn:H1.
  { intros Hm. destruct (rest_mismatch_inv _ _ _ _ _ H1 Hm)
      as (x & st & data & c & h & t & ? & ? & ? & ? & ? & ?).
    exists x, Checker.PATH_NEW, st, data, c, h, t. repeat split; auto. }
  destruct (_check_rest_block_latest w base_url Checker.PATH_OLD expected)
    as [r|e2] eqn:H2.
  { intros Hm. destruct (rest_mismatch_inv _ _ _ _ _ H2 Hm)
      as (x & st & data & c & h & t & ? & ? & ? & ? & ? & ?).
    exists x, Checker.PATH_OLD, st, data, c, h, t. repeat split; auto. }
  destruct (Checker.alive_try w base_url) as [r|e3] eqn:H3.
  { intros Hm. now rewrite (alive_no_mismatch _ _ _ H3) in Hm. }
  unfold mismatch_error. intros Hm. exfalso.
  pose proof (most_helpful_in (Checker._normalize_error e1)
                (Checker._normalize_error e2) (Checker._normalize_error e3)) as Hin.
  destruct Hin as [E|[E|[E|[]]]].
  - apply (classified_startswith e1 _ (normalize_error_classified e1)).
  - rewrite <- E, classified_no_mismatch in Hm. discriminate.
  - rewrite <- E, classified_no_mismatch in Hm. discriminate.
  - rewrite <- E, classified_no_mismatch in Hm. discriminate.
Qed.

End CheckerProperties.

(* ------------------------------------------------------------------ *)
(** * Properties of [worker/runner.py] *)

Local Open Scope list_scope.

Section RunnerProperties.

Variable fromisoformat : string -> pyresult datetime.
Variable render : pyval -> string.

Local Abbreviation probe := (Runner.probe fromisoformat render).
Local Abbreviation row_check := (Runner.row_check fromisoformat render).
Local Abbreviation process_row := (Runner.process_row fromisoformat render).
Local Abbreviation for_rows := (Runner.for_rows fromisoformat render).
Local Abbreviation process_batch := (Runner.process_batch fromisoformat render).
Local Abbreviation main_loop_iteration := (Runner.main_loop_iteration fromisoformat render).
Local Abbreviation main_loop := (Runner.main_loop fromisoformat render).

Lemma row_check_id (env : batch_env) (ep : Endpoint) (net : Network) :
  endpoint_id (row_check env (ep, net)) = ep_id ep.
Proof.
  unfold Runner.row_check. now destruct (probe env ep _) as [[[[? ?] ?] ?] ?].
Qed.

Lemma process_row_spec (env : batch_env) (db db' : database)
  (ep : Endpoint) (net : Network) :
  process_row env db (ep, net) = Return db' ->
  db_error env (ep_id ep) = None /\
  db' = mk_database (endpoints db) (networks db)
          (checks db ++ [row_check env (ep, net)])
          (upsert (status_of_check (row_check env (ep, net))) (statuses db)).
Proof.
  unfold Runner.process_row, Runner.row_check, first_status.
  destruct (probe env ep _) as [[[[a s] d] h] e].
  destruct (db_error env (ep_id ep)); [discriminate|]. cbn [bind].
  unfold upsert, status_of_check. cbn.
  destruct (find _ (statuses db)); intros [= <-]; split; reflexivity.
Qed.

Lemma process_row_raises (env : batch_env) (db : database)
  (ep : Endpoint) (net : Network) (msg : string) :
  db_error env (ep_id ep) = Some msg ->
  process_row env db (ep, net) = Raise msg.
Proof.
  intros H. unfold Runner.process_row, first_status.
  destruct (probe env ep _) as [[[[a s] d] h] e]. now rewrite H.
Qed.

Lemma process_row_returns (env : batch_env) (db : database)
  (ep : Endpoint) (net : Network) :
  db_error env (ep_id ep) = None ->
  exists db', process_row env db (ep, net) = Return db'.
Proof.
  intros H. unfold Runner.process_row, first_status.
  destruct (probe env ep _) as [[[[a s] d] h] e]. rewrite H. cbn [bind].
  destruct (find _ _); eauto.
Qed.

Lemma rows_for_app (id : Z) (a b : list EndpointStatus) :
  rows_for id (a ++ b) = rows_for id a ++ rows_for id b.
Proof. apply filter_app. Qed.

Lemma find_none_rows (id : Z) (l : list EndpointStatus) :
  find (fun s => st_endpoint_id s =? id) l = None -> rows_for id l = [].
Proof.
  induction l as [|s l IH]; [reflexivity|]. cbn [find rows_for filter].
  destruct (st_endpoint_id s =? id); [discriminate | exact IH].
Qed.

Lemma assign_first_other (id id' : Z) (new : EndpointStatus) (l : list EndpointStatus) :
  id' <> id -> rows_for id' (assign_first id new l) = rows_for id' l.
Proof.
  intros Hne. induction l as [|s l IH]; [reflexivity|].
  cbn [assign_first]. destruct (st_endpoint_id s =? id) eqn:E.
  - apply Z.eqb_eq in E. cbn [rows_for filter st_endpoint_id].
    assert (E' : (st_endpoint_id s =? id') = false) by (apply Z.eqb_neq; lia).
    now rewrite E'.
  - cbn [rows_for filter]. fold (rows_for id' (assign_first id new l)) (rows_for id' l).
    now rewrite IH.
Qed.

Lemma assign_first_same (new : EndpointStatus) (l : list EndpointStatus) (s : EndpointStatus) :
  find (fun s => st_endpoint_id s =? st_endpoint_id new) l = Some s ->
  exists rest,
    rows_for (st_endpoint_id new) l = s :: rest /\
    rows_for (st_endpoint_id new) (assign_first (st_endpoint_id new) new l) = new :: rest.
Proof.
  induction l as [|x l IH]; [discriminate|].
  cbn [find assign_first rows_for filter].
  destruct (st_endpoint_id x =? st_endpoint_id new) eqn:E.
  - intros [= <-]. exists (rows_for (st_endpoint_id new) l). split; [reflexivity|].
    cbn [rows_for filter st_endpoint_id]. rewrite E.
    apply Z.eqb_eq in E. rewrite E. now destruct new.
  - intros H. destruct (IH H) as (rest & H1 & H2). exists rest.
    cbn [rows_for filter]. rewrite E. auto.
Qed.

Lemma upsert_other (id : Z) (new : EndpointStatus) (l : list EndpointStatus) :
  id <> st_endpoint_id new -> rows_for id (upsert new l) = rows_for id l.
Proof.
  intros Hne. unfold upsert. destruct (find _ l).
  - now apply assign_first_other.
  - rewrite rows_for_app. cbn [rows_for filter].
    assert (E : (st_endpoint_id new =? id) = false) by (apply Z.eqb_neq; lia).
    rewrite E. apply app_nil_r.
Qed.

Lemma upsert_same (new : EndpointStatus) (l : list EndpointStatus) :
  (List.length (rows_for (st_endpoint_id new) l) <= 1)%nat ->
  rows_for (st_endpoint_id new) (upsert new l) = [new].
Proof.
  intros Hlen. unfold upsert.
  destruct (find _ l) as [s|] eqn:E.
  - destruct (assign_first_same new l s E) as (rest & H1 & H2).
    rewrite H1 in Hlen. destruct rest; [exact H2 | cbn in Hlen; lia].
  - rewrite rows_for_app, (find_none_rows _ _ E). cbn [rows_for filter app].
    now rewrite Z.eqb_refl.
Qed.

Lemma upsert_one_status (new : EndpointStatus) (l : list EndpointStatus) :
  one_status_per_endpoint l -> one_status_per_endpoint (upsert new l).
Proof.
  intros H id. destruct (Z.eq_dec id (st_endpoint_id new)) as [->|Hne].
  - rewrite upsert_same by apply H. cbn. lia.
  - rewrite upsert_other by exact Hne. apply H.
Qed.

Lemma last_check_snoc (id : Z) (l : list Check) (c : Check) :
  last_check id (l ++ [c]) =
  if endpoint_id c =? id then Some c else last_check id l.
Proof.
  unfold last_check, checks_for. rewrite filter_app. cbn [filter].
  destruct (endpoint_id c =? id).
  - now rewrite rev_app_distr.
  - now rewrite app_nil_r.
Qed.

Lemma for_rows_spec (env : batch_env) (rows : list (Endpoint * Network)) :
  forall (db db' : database) (added : list Check) (done : list Z),
    for_rows env rows db = Return db' ->
    one_status_per_endpoint (statuses db) ->
    settled added done db ->
    one_status_per_endpoint (statuses db') /\
    checks db' = checks db ++ map (row_check env) rows /\
    endpoints db' = endpoints db /\ networks db' = networks db /\
    settled (added ++ map (row_check env) rows)
            (done ++ map (fun r => ep_id (fst r)) rows) db'.
Proof.
  induction rows as [|[ep net] rows IH]; intros db db' added done Hrun Hone Hset.
  - injection Hrun as <-. cbn [map]. rewrite !app_nil_r. auto.
  - cbn [Runner.for_rows] in Hrun.
    destruct (process_row env db (ep, net)) as [db1|e] eqn:Hrow; [|discriminate].
    cbn [bind] in Hrun.
    destruct (process_row_spec _ _ _ _ _ Hrow) as [_ ->].
    set (c := row_check env (ep, net)) in *.
    assert (Hid : st_endpoint_id (status_of_check c) = ep_id ep)
      by apply row_check_id.
    specialize (IH _ db' (added ++ [c]) (done ++ [ep_id ep]) Hrun).
    cbn [statuses checks endpoints networks] in IH.
    destruct IH as (I1 & I2 & I3 & I4 & I5).
    + now apply upsert_one_status.
    + intros id Hin. apply in_app_or in Hin.
      destruct (Z.eq_dec id (ep_id ep)) as [->|Hne].
      * exists c. split; [apply in_or_app; right; now left|].
        cbn [checks statuses]. rewrite last_check_snoc.
        unfold c at 1. rewrite row_check_id, Z.eqb_refl. split; [reflexivity|].
        rewrite <- Hid. apply upsert_same. rewrite Hid. apply Hone.
      * destruct Hin as [Hin|[Hin|[]]]; [|congruence].
        destruct (Hset id Hin) as (c0 & Hc0 & Hl & Hr). exists c0.
        split; [apply in_or_app; now left|].
        cbn [checks statuses]. rewrite last_check_snoc.
        unfold c at 1. rewrite row_check_id.
        assert (E : (ep_id ep =? id) = false) by (apply Z.eqb_neq; lia).
        rewrite E. split; [exact Hl|].
        rewrite upsert_other by (rewrite Hid; exact Hne). exact Hr.
    + cbn [map fst]. rewrite <- !app_assoc in I5. cbn [app] in I5.
      rewrite I2, <- app_assoc. cbn [app]. auto.
Qed.

Lemma upsert_keeps (id : Z) (new : EndpointStatus) (l : list EndpointStatus) :
  id = st_endpoint_id new \/ rows_for id l <> [] ->
  rows_for id (upsert new l) <> [].
Proof.
  intros H. destruct (Z.eq_dec id (st_endpoint_id new)) as [->|Hne].
  - unfold upsert. destruct (find _ l) as [s|] eqn:E.
    + destruct (assign_first_same new l s E) as (rest & _ & ->). discriminate.
    + rewrite rows_for_app, (find_none_rows _ _ E). cbn [rows_for filter app].
      rewrite Z.eqb_refl. discriminate.
  - rewrite upsert_other by exact Hne. now destruct H.
Qed.

Lemma for_rows_writes (env : batch_env) (rows : list (Endpoint * Network)) :
  forall db db' : database,
    for_rows env rows db = Return db' ->
    checks db' = checks db ++ map (row_check env) rows /\
    forall id, In id (map (fun r => ep_id (fst r)) rows)
               \/ rows_for id (statuses db) <> [] ->
               rows_for id (statuses db') <> [].
Proof.
  induction rows as [|[ep net] rows IH]; intros db db' Hrun.
  - injection Hrun as <-. cbn [map]. rewrite app_nil_r. split; [reflexivity|].
    now intros id [[]|H].
  - cbn [Runner.for_rows] in Hrun.
    destruct (process_row env db (ep, net)) as [db1|e] eqn:Hrow; [|discriminate].
    cbn [bind] in Hrun. destruct (process_row_spec _ _ _ _ _ Hrow) as [_ ->].
    destruct (IH _ _ Hrun) as [I1 I2]. cbn [checks statuses] in I1, I2.
    split; [rewrite I1, <- app_assoc; reflexivity|].
    intros id H. apply I2. cbn [map fst In] in H.
    destruct H as [[H|H]|H]; [right | now left | right].
    + apply upsert_keeps. left. cbn [status_of_check st_endpoint_id].
      now rewrite row_check_id.
    + apply upsert_keeps. now right.
Qed.

Lemma for_rows_raises (env : batch_env) (rows : list (Endpoint * Network))
  (ep : Endpoint) (net : Network) (msg : string) :
  In (ep, net) rows -> db_error env (ep_id ep) = Some msg ->
  forall db, exists e, for_rows env rows db = Raise e.
Proof.
  intros Hin Herr. induction rows as [|[ep' net'] rows IH]; [destruct Hin|].
  intros db. cbn [Runner.for_rows].
  destruct (process_row env db (ep', net')) as [db1|e] eqn:Hrow; cbn [bind];
    [|eauto].
  destruct Hin as [[= -> ->]|Hin]; [|now apply IH].
  rewrite (process_row_raises _ _ _ _ _ Herr) in Hrow. discriminate.
Qed.

Lemma for_rows_returns (env : batch_env) (rows : list (Endpoint * Network)) :
  (forall ep net, In (ep, net) rows -> db_error env (ep_id ep) = None) ->
  forall db, exists db', for_rows env rows db = Return db'.
Proof.
  induction rows as [|[ep net] rows IH]; intros Hok db; cbn [Runner.for_rows];
    [eauto|].
  destruct (process_row_returns env db ep net (Hok ep net (or_introl eq_refl)))
    as [db1 ->].
  cbn [bind]. apply IH. intros ep' net' Hin. apply (Hok ep' net'). now right.
Qed.

Lemma process_batch_spec (env : batch_env) (BATCH_LIMIT : nat) (store : database) :
  process_batch env BATCH_LIMIT (SessionLocal store)
  = (p <- for_rows env (select_rows BATCH_LIMIT store) store ;;
     Return (mk_session p p)).
Proof.
  unfold Runner.process_batch, SessionLocal, commit. cbn [pending committed].
  destruct (select_rows BATCH_LIMIT store) eqn:E; [|reflexivity].
  cbn [Runner.for_rows bind]. reflexivity.
Qed.

(** C2, as the code has it.  When the handling of one endpoint of the
    batch raises, the turn of the loop leaves the store as it was: no
    check row and no status row of the batch is kept, for any of its
    endpoints, and the loop goes on with its next turn.  When none raises,
    the check rows of all the endpoints are appended and each has a status
    row. *)
Theorem C2_failure_aborts_batch (env : batch_env) (BATCH_LIMIT : nat)
  (store : database) :
  let rows := select_rows BATCH_LIMIT store in
  let store' := main_loop_iteration env BATCH_LIMIT store in
  (forall ep net msg,
      In (ep, net) rows -> db_error env (ep_id ep) = Some msg ->
      store' = store /\
      forall later, main_loop (env :: later) BATCH_LIMIT store
                    = main_loop later BATCH_LIMIT store) /\
  ((forall ep net, In (ep, net) rows -> db_error env (ep_id ep) = None) ->
   checks store' = checks store ++ map (row_check env) rows /\
   forall ep net, In (ep, net) rows ->
                  rows_for (ep_id ep) (statuses store') <> []).
Proof.
  intros rows store'. subst rows store'. cbn [Runner.main_loop].
  unfold Runner.main_loop_iteration.
  rewrite process_batch_spec. split.
  - intros ep net msg Hin Herr.
    destruct (for_rows_raises env _ ep net msg Hin Herr store) as [e ->].
    split; reflexivity.
  - intros Hok. destruct (for_rows_returns env _ Hok store) as [db' Hrun].
    rewrite Hrun. cbn [bind try_except committed].
    destruct (for_rows_writes env _ _ _ Hrun) as [H1 H2]. split; [exact H1|].
    intros ep net Hin. apply H2. left.
    change (ep_id ep) with ((fun r : Endpoint * Network => ep_id (fst r)) (ep, net)).
    now apply in_map.
Qed.

Lemma iteration_one_status (env : batch_env) (BATCH_LIMIT : nat) (store : database) :
  one_status_per_endpoint (statuses store) ->
  one_status_per_endpoint (statuses (main_loop_iteration env BATCH_LIMIT store)).
Proof.
  intros Hone. unfold Runner.main_loop_iteration. rewrite process_batch_spec.
  destruct (for_rows env (select_rows BATCH_LIMIT store) store) as [p|e] eqn:Hrun;
    cbn [bind try_except committed rollback SessionLocal]; [|exact Hone].
  apply (for_rows_spec env _ store p [] [] Hrun Hone). intros id [].
Qed.

Lemma main_loop_one_status (envs : list batch_env) (BATCH_LIMIT : nat) :
  forall store,
    one_status_per_endpoint (statuses store) ->
    one_status_per_endpoint (statuses (main_loop envs BATCH_LIMIT store)).
Proof.
  induction envs as [|env envs IH]; intros store Hone; cbn [Runner.main_loop];
    [exact Hone|].
  apply IH. now apply iteration_one_status.
Qed.

(** C9.  A turn of the loop, and so any number of turns, keeps the status
    table at one row per endpoint at most.  When the batch completes, every endpoint it
    processed has exactly one status row, whose fields, [checked_at]
    included, are those of the check row appended for it in this turn,
    which is the endpoint's most recent check; so the status is never
    older than that check. *)
Theorem C9_status_matches_latest_check (env : batch_env) (BATCH_LIMIT : nat)
  (store : database) :
  one_status_per_endpoint (statuses store) ->
  let rows := select_rows BATCH_LIMIT store in
  let added := map (row_check env) rows in
  let store' := main_loop_iteration env BATCH_LIMIT store in
  one_status_per_endpoint (statuses store') /\
  (forall envs,
      one_status_per_endpoint (statuses (main_loop envs BATCH_LIMIT store))) /\
  forall db', process_batch env BATCH_LIMIT (SessionLocal store) = Return db' ->
    store' = committed db' /\
    checks store' = checks store ++ added /\
    forall ep net, In (ep, net) rows ->
      exists c s,
        In c added /\
        last_check (ep_id ep) (checks store') = Some c /\
        rows_for (ep_id ep) (statuses store') = [s] /\
        s = status_of_check c /\
        st_checked_at s = checked_at c /\
        instant (checked_at c) <= instant (st_checked_at s).
Proof.
  intros Hone rows added store'. subst rows added store'.
  split; [now apply iteration_one_status|].
  split; [intros envs; now apply main_loop_one_status|].
  unfold Runner.main_loop_iteration. rewrite process_batch_spec.
  destruct (for_rows env (select_rows BATCH_LIMIT store) store) as [p|e] eqn:Hrun;
    cbn [bind try_except committed rollback SessionLocal].
  - destruct (for_rows_spec env _ store p [] [] Hrun Hone) as (I1 & I2 & _ & _ & I5).
    { intros id []. }
    intros db' [= <-]. cbn [committed].
    split; [reflexivity|]. split; [exact I2|].
    intros ep net Hin. destruct (I5 (ep_id ep)) as (c & Hc & Hl & Hr).
    { cbn [app].
      change (ep_id ep) with ((fun r : Endpoint * Network => ep_id (fst r)) (ep, net)).
      now apply in_map. }
    exists c, (status_of_check c). cbn [app] in Hc.
    repeat split; auto. cbn [status_of_check st_checked_at]. lia.
  - discriminate.
Qed.

(** C10.  A probe reports a chain id mismatch only when an expected chain
    id was supplied and is not empty, the response carries a chain id that
    is present and not empty, and the two differ.  A response with no
    chain id is judged on its block time alone and is available when the
    delay can be computed, whatever chain id was expected.  A network
    whose chain id is the empty string is probed with no expected chain
    id, so that no mismatch can be reported for its endpoints. *)
Theorem C10_mismatch_needs_both_chain_ids :
  (forall w base_url expected,
      mismatch_error (Checker.check_rpc_endpoint fromisoformat render w base_url expected)
      = true ->
      exists x st data network height time_str,
        expected = Some x /\ x <> ""%string /\
        httpx_get w (rstrip "/" base_url ++ "/status")%string
        = HttpResponse st (Return data) /\
        Checker.rpc_fields data = Return (network, height, time_str) /\
        truthy network = true /\ differs network x = true) /\
  (forall w base_url expected,
      mismatch_error (Checker.check_api_endpoint fromisoformat render w base_url expected)
      = true ->
      exists x path st data chain_id height time_str,
        expected = Some x /\ x <> ""%string /\
        (path = Checker.PATH_NEW \/ path = Checker.PATH_OLD) /\
        httpx_get w (rstrip "/" base_url ++ path)%string
        = HttpResponse st (Return data) /\
        Checker.rest_fields data = Return (chain_id, height, time_str) /\
        truthy chain_id = true /\ differs chain_id x = true) /\
  (forall w base_url expected st data network height time_str d,
      let url := (rstrip "/" base_url ++ "/status")%string in
      httpx_get w url = HttpResponse st (Return data) ->
      Checker.non_2xx st = false ->
      Checker.rpc_fields data = Return (network, height, time_str) ->
      truthy network = false ->
      Checker._calc_block_delay_ms fromisoformat (utc_now w url) time_str
      = Return (Some d) ->
      Checker.check_rpc_endpoint fromisoformat render w base_url expected
      = (true, Some st, Some d, height, None)) /\
  (forall w base_url path expected st data chain_id height time_str d,
      let url := (rstrip "/" base_url ++ path)%string in
      httpx_get w url = HttpResponse st (Return data) ->
      Checker.non_2xx st = false ->
      Checker.rest_fields data = Return (chain_id, height, time_str) ->
      truthy chain_id = false ->
      Checker._calc_block_delay_ms fromisoformat (utc_now w url) time_str
      = Return (Some d) ->
      Checker._check_rest_block_latest fromisoformat render w base_url path expected
      = Return (true, Some st, Some d, height, None)) /\
  (forall env ep net,
      net_chain_id net = ""%string ->
      or_none (net_chain_id net) = None /\
      mismatch_error (probe env ep (or_none (net_chain_id net))) = false /\
      forall c, error_message (row_check env (ep, net)) = Some c ->
                startswith "CHAIN_ID_MISMATCH" c = false).
Proof.
  split; [exact (rpc_mismatch_inv fromisoformat render)|].
  split; [exact (api_mismatch_inv fromisoformat render)|].
  split; [|split].
  - intros w base_url expected st data network height time_str d url Hg Hs Hf Ht Hc.
    unfold Checker.check_rpc_endpoint, Checker.rpc_try, Checker.get_response.
    fold url. rewrite Hg. cbn [bind]. rewrite Hs, Hf. cbn [bind].
    rewrite judge_no_mismatch by now apply falsy_no_mismatch.
    rewrite Hc. reflexivity.
  - intros w base_url path expected st data chain_id height time_str d url
      Hg Hs Hf Ht Hc.
    unfold Checker._check_rest_block_latest, Checker.get_response.
    fold url. rewrite Hg. cbn [bind]. rewrite Hs, Hf. cbn [bind].
    rewrite judge_no_mismatch by now apply falsy_no_mismatch.
    rewrite Hc. reflexivity.
  - intros env ep net Hnet. rewrite Hnet.
    assert (Hp : mismatch_error (probe env ep (or_none "")) = false).
    { cbn [or_none String.eqb negb]. unfold Runner.probe.
      destruct (mismatch_error _) eqn:E; [|reflexivity]. exfalso.
      destruct (ep_type ep =? "rpc")%string.
      - destruct (rpc_mismatch_inv _ _ _ _ _ E) as (x & ? & ? & ? & ? & ? & H & _).
        discriminate.
      - destruct (ep_type ep =? "api")%string;
          destruct (api_mismatch_inv _ _ _ _ _ E)
            as (x & ? & ? & ? & ? & ? & ? & H & _); discriminate. }
    split; [reflexivity|]. split; [exact Hp|].
    intros c. unfold Runner.row_check. rewrite Hnet.
    destruct (probe env ep (or_none "")) as [[[[a s] d] h] [err|]];
      cbn [error_message]; [|discriminate].
    intros [= ->]. exact Hp.
Qed.

End RunnerProperties.

(* ------------------------------------------------------------------ *)
(** * Worked examples *)

Local Open Scope string_scope.

(** A node answers 404 on both REST paths and 200 on its base URL: the API
    probe reports the 404 of the first path, not the liveness result. *)
Lemma C1_counterexample :
  httpx_get w_404 ("http://node" ++ Checker.PATH_NEW)
  = HttpResponse 404 (Raise "Expecting value: line 1 column 1 (char 0)") /\
  httpx_get w_404 ("http://node" ++ Checker.PATH_OLD)
  = HttpResponse 404 (Raise "Expecting value: line 1 column 1 (char 0)") /\
  httpx_get w_404 "http://node"
  = HttpResponse 200 (Raise "Expecting value: line 1 column 1 (char 0)") /\
  Checker.check_api_endpoint Sample.fromisoformat Sample.render w_404 "http://node" None
  = (false, Some 404, None, PNone, Some "HTTP_STATUS_404") /\
  Checker.check_api_endpoint Sample.fromisoformat Sample.render w_404 "http://node" None
  <> (true, Some 200, None, PNone, None).
Proof.
  repeat split; try reflexivity. vm_compute. discriminate.
Qed.

(** C1 on two nodes: one that answers 404, to which one request is sent,
    and one whose REST requests raise, to which three are. *)
Lemma C1_witness :
  Logged.check_api_endpoint Sample.fromisoformat Sample.render w_404 "http://node" None
  = (["http://node/cosmos/base/tendermint/v1beta1/blocks/latest"],
     (false, Some 404, None, PNone, Some "HTTP_STATUS_404")) /\
  Checker.check_api_endpoint Sample.fromisoformat Sample.render w_404 "http://node" None
  = (false, Some 404, None, PNone, Some "HTTP_STATUS_404") /\
  Logged.check_api_endpoint Sample.fromisoformat Sample.render w_alive "http://node" None
  = (["http://node/cosmos/base/tendermint/v1beta1/blocks/latest";
      "http://node/blocks/latest"; "http://node"],
     (true, Some 200, None, PNone, None)).
Proof.
  destruct (C1_api_liveness_fallback Sample.fromisoformat Sample.render
              w_404 "http://node" None) as (H & _).
  destruct (H (Raise "Expecting value: line 1 column 1 (char 0)") eq_refl)
    as [H1 H2].
  destruct (C1_api_liveness_fallback Sample.fromisoformat Sample.render
              w_alive "http://node" None) as (_ & _ & H').
  destruct (H' "Server disconnected without sending a response."
               "Server disconnected without sending a response."
               (Raise "Expecting value: line 1 column 1 (char 0)")
               eq_refl eq_refl eq_refl) as [H3 _].
  split; [exact H1|]. split; [exact H2 | exact H3].
Defined.

(** C3 on three nodes: the 404 of the first path is the result, after one
    request, whether the base URL would have answered or not; the bare
    GET is sent and decides once both REST requests have raised. *)
Lemma C3_witness :
  Logged.check_api_endpoint Sample.fromisoformat Sample.render w_404 "http://node/"
    (Some "cosmoshub-4")
  = (["http://node/cosmos/base/tendermint/v1beta1/blocks/latest"],
     (false, Some 404, None, PNone, Some "HTTP_STATUS_404")) /\
  Logged.check_api_endpoint Sample.fromisoformat Sample.render w_404_dead "http://node/"
    (Some "cosmoshub-4")
  = (["http://node/cosmos/base/tendermint/v1beta1/blocks/latest"],
     (false, Some 404, None, PNone, Some "HTTP_STATUS_404")) /\
  Logged.check_api_endpoint Sample.fromisoformat Sample.render w_alive "http://node"
    (Some "cosmoshub-4")
  = (["http://node/cosmos/base/tendermint/v1beta1/blocks/latest";
      "http://node/blocks/latest"; "http://node"],
     (true, Some 200, None, PNone, None)).
Proof.
  destruct (C3_first_completed_strategy Sample.fromisoformat Sample.render
              w_404 "http://node/" (Some "cosmoshub-4"))
    as (_ & (H1 & _) & _ & _ & (H2 & _)).
  destruct (C3_first_completed_strategy Sample.fromisoformat Sample.render
              w_alive "http://node" (Some "cosmoshub-4"))
    as (_ & (_ & _ & H3 & _) & _).
  split; [|split].
  - apply H1. reflexivity.
  - apply H2; reflexivity.
  - apply (H3 "Server disconnected without sending a response."
              "Server disconnected without sending a response."); reflexivity.
Defined.

(** C4 on a nine-digit fraction with [Z], on one with a negative offset
    (cut, not rounded up), on a text without offset and on a text that is
    not a timestamp. *)
Lemma C4_witness :
  Checker._parse_block_time Sample.fromisoformat (PStr "2024-01-02T03:04:05.123456789Z")
  = Return (Some (mk_datetime (T0 + 123456) (Some 0))) /\
  Checker._parse_block_time Sample.fromisoformat (PStr "2024-01-02T03:04:05.999999999-05:00")
  = Return (Some (mk_datetime (T0 + 999999 + 18000000000) (Some 0))) /\
  Checker._parse_block_time Sample.fromisoformat (PStr "2024-01-02T03:04:05")
  = Return (Some (mk_datetime T0 (Some 0))) /\
  Checker._parse_block_time Sample.fromisoformat (PStr "yesterday") = Return None.
Proof.
  destruct (C4_parse_block_time Sample.fromisoformat Sample.render)
    as (_ & _ & Hcut & Hnaive & _ & Hbad & _).
  split; [|split; [|split]].
  - destruct (Hcut "2024-01-02T03:04:05" "123456789" "Z" eq_refl eq_refl eq_refl)
      as (H & _).
    exact H.
  - destruct (Hcut "2024-01-02T03:04:05" "999999999" "-05:00" eq_refl eq_refl eq_refl)
      as (H & _).
    exact H.
  - apply (Hnaive "2024-01-02T03:04:05" (mk_datetime T0 None));
      [discriminate | reflexivity | reflexivity].
  - apply (Hbad "yesterday" "Invalid isoformat string: 'yesterday'"). reflexivity.
Defined.

(** The float arithmetic of [_calc_block_delay_ms] on a difference of
    exactly 1.001 s: [total_seconds] gives the double nearest to 1.001
    ([0x1.004189374bc6ap+0]), whose product by 1000 is the double just
    below 1001 ([0x1.f47ffffffffffp+9]). *)
Example float_1001_ms :
  total_seconds 1001000 = S754_finite false 4508103226997866 (-52) /\
  times_1000 (total_seconds 1001000) = S754_finite false 8804889115230207 (-43) /\
  py_int (times_1000 (total_seconds 1001000)) = Return 1000.
Proof. repeat split. Qed.

(** C5.  The block time [2024-01-02T03:04:05Z] parses; read at
    [2024-01-02T03:04:06.001] UTC, exactly 1001 ms later, its delay comes
    out as 1000 and not as 1001: the delay is not always the whole number
    of milliseconds between the two instants. *)
Theorem C5_delay_loses_a_millisecond :
  Checker._parse_block_time Sample.fromisoformat (PStr "2024-01-02T03:04:05Z")
  = Return (Some (mk_datetime T0 (Some 0))) /\
  (T0 + 1001000) - T0 = 1001 * 1000 /\
  Checker._calc_block_delay_ms Sample.fromisoformat (T0 + 1001000)
    (PStr "2024-01-02T03:04:05Z") = Return (Some 1000) /\
  Checker._calc_block_delay_ms Sample.fromisoformat (T0 + 1001000)
    (PStr "2024-01-02T03:04:05Z") <> Return (Some 1001).
Proof.
  repeat split; try reflexivity. vm_compute. discriminate.
Qed.

(** Delays of 5 s, of a block time in the future, and of a text that is
    not a timestamp. *)
Example block_delay_examples :
  Checker._calc_block_delay_ms Sample.fromisoformat (T0 + 5000000)
    (PStr "2024-01-02T03:04:05Z") = Return (Some 5000) /\
  Checker._calc_block_delay_ms Sample.fromisoformat (T0 - 5000000)
    (PStr "2024-01-02T03:04:05Z") = Return (Some 0) /\
  Checker._calc_block_delay_ms Sample.fromisoformat (T0 + 5000000)
    (PStr "yesterday") = Return None.
Proof.
  split; [|split].
  - destruct (block_delay_ms_shape Sample.fromisoformat (T0 + 5000000))
      as (_ & _ & _ & H & _).
    rewrite (H "2024-01-02T03:04:05Z" (mk_datetime T0 (Some 0)) eq_refl).
    reflexivity.
  - destruct (block_delay_ms_shape Sample.fromisoformat (T0 - 5000000))
      as (_ & _ & _ & H & _).
    rewrite (H "2024-01-02T03:04:05Z" (mk_datetime T0 (Some 0)) eq_refl).
    reflexivity.
  - destruct (block_delay_ms_shape Sample.fromisoformat (T0 + 5000000))
      as (_ & _ & H & _).
    apply H. reflexivity.
Qed.


(** C7: DNS, TLS and another failure give the DNS error in either order
    of the attempts. *)
Lemma C7_witness :
  Checker.check_api_endpoint Sample.fromisoformat Sample.render w_down "http://node" None
  = (false, None, None, PNone, Some "DNS_RESOLUTION_FAILED") /\
  Checker.check_api_endpoint Sample.fromisoformat Sample.render w_down_rev "http://node" None
  = (false, None, None, PNone, Some "DNS_RESOLUTION_FAILED").
Proof.
  split.
  - destruct (C7_aggregated_error Sample.fromisoformat Sample.render w_down "http://node" None
                "[Errno -2] Name or service not known"
                "_ssl.c:980: The handshake operation timed out"
                "All connection attempts failed" eq_refl eq_refl eq_refl)
      as (err & -> & H & _).
    rewrite H; [reflexivity | left; reflexivity].
  - destruct (C7_aggregated_error Sample.fromisoformat Sample.render w_down_rev "http://node" None
                "All connection attempts failed"
                "_ssl.c:980: The handshake operation timed out"
                "[Errno -2] Name or service not known" eq_refl eq_refl eq_refl)
      as (err & -> & H & _).
    rewrite H; [reflexivity | right; right; left; reflexivity].
Defined.

(** Endpoint 1 is handled without an exception, then the session raises
    on endpoint 2: after the turn of the loop the store holds no check of
    endpoint 1, and its status row is the one it had before. *)
Lemma C2_counterexample :
  Runner.select_rows 100 store0 = [(ep1, net1); (ep2, net1)] /\
  (exists db1,
      Runner.process_row Sample.fromisoformat Sample.render env_fault store0 (ep1, net1)
      = Return db1 /\
      checks_for 1 (Runner.checks db1) <> []) /\
  (exists msg, Runner.db_error env_fault 2 = Some msg) /\
  (let store' := Runner.main_loop_iteration Sample.fromisoformat Sample.render
                   env_fault 100 store0 in
   checks_for 1 (Runner.checks store') = [] /\
   rows_for 1 (Runner.statuses store') = [old_status] /\
   ~ exists c, In c (Runner.checks store') /\ Runner.endpoint_id c = 1).
Proof.
  split; [reflexivity|]. split; [|split; [eexists; reflexivity|]].
  - eexists. split; [reflexivity|]. vm_compute. discriminate.
  - split; [reflexivity|]. split; [reflexivity|].
    intros (c & Hin & _). vm_compute in Hin. exact Hin.
Qed.

(** C2 on the same batch, with and without the failure. *)
Lemma C2_witness :
  Runner.main_loop_iteration Sample.fromisoformat Sample.render env_fault 100 store0
  = store0 /\
  List.length (Runner.checks
                 (Runner.main_loop_iteration Sample.fromisoformat Sample.render
                    env_ok 100 store0)) = 2%nat.
Proof.
  split.
  - destruct (C2_failure_aborts_batch Sample.fromisoformat Sample.render
                env_fault 100 store0) as (H & _).
    apply (H ep2 net1 "value too long for type character varying(64)");
      [right; left; reflexivity | reflexivity].
  - destruct (C2_failure_aborts_batch Sample.fromisoformat Sample.render
                env_ok 100 store0) as (_ & H).
    destruct H as (H & _); [reflexivity|].
    rewrite H. reflexivity.
Defined.

Lemma store0_one_status : one_status_per_endpoint (Runner.statuses store0).
Proof.
  intros id. unfold rows_for. cbn [Runner.statuses store0 filter].
  cbn [Runner.st_endpoint_id old_status]. destruct (1 =? id)%Z; cbn [List.length]; lia.
Defined.

(** C9 on a batch of two endpoints, one of which had a status row: after
    the turn each has one status row, stamped as its latest check. *)
Lemma C9_witness :
  let store' := Runner.main_loop_iteration Sample.fromisoformat Sample.render
                  env_ok 100 store0 in
  one_status_per_endpoint (Runner.statuses store') /\
  (exists c s,
      last_check 1 (Runner.checks store') = Some c /\
      rows_for 1 (Runner.statuses store') = [s] /\
      Runner.st_checked_at s = Runner.checked_at c) /\
  rows_for 1 (Runner.statuses store')
  = [Runner.mk_EndpointStatus 1 false (Some 200) (Some 5000) (PStr "100")
       (Some "CHAIN_ID_MISMATCH: expected=cosmoshub-4, got=osmosis-1")
       (mk_datetime (T0 + 6000000) (Some 0))].
Proof.
  destruct (C9_status_matches_latest_check Sample.fromisoformat Sample.render
              env_ok 100 store0 store0_one_status) as (H1 & _ & H3).
  split; [exact H1|]. split; [|reflexivity].
  destruct (H3 _ eq_refl) as (_ & _ & H).
  destruct (H ep1 net1 (or_introl eq_refl)) as (c & s & _ & Hl & Hr & _ & Ht & _).
  exists c, s. auto.
Defined.

(** C10: a node that reports no chain id is available whatever chain id is
    expected; a reported mismatch implies a non-empty expected chain id;
    an empty chain id of the network becomes [None]. *)
Lemma C10_witness :
  Checker.check_rpc_endpoint Sample.fromisoformat Sample.render
    (w_rpc PNone) "http://a/" (Some "cosmoshub-4")
  = (true, Some 200, Some 5000, PStr "100", None) /\
  (exists x, Some "cosmoshub-4" = Some x /\ x <> "") /\
  Runner.or_none "" = None.
Proof.
  destruct (C10_mismatch_needs_both_chain_ids Sample.fromisoformat Sample.render)
    as (H1 & _ & H & _ & Hr).
  split; [|split].
  - apply (H (w_rpc PNone) "http://a/" (Some "cosmoshub-4") 200 (status_body PNone)
             PNone (PStr "100") (PStr "2024-01-02T03:04:05.123456789Z") 5000);
      reflexivity.
  - destruct (H1 (w_rpc (PStr "osmosis-1")) "http://a/" (Some "cosmoshub-4") eq_refl)
      as (x & _ & _ & _ & _ & _ & Hx & Hne & _).
    exists x. split; assumption.
  - apply (Hr env_ok ep1 (Runner.mk_Network 7 "")). reflexivity.
Defined.


(* ------------------------------------------------------------------ *)
(** * Further properties of [worker/checker.py] *)

Section ProbeResults.

Variable fromisoformat : string -> pyresult datetime.
Variable render : pyval -> string.

Local Abbreviation _calc_block_delay_ms := (Checker._calc_block_delay_ms fromisoformat).
Local Abbreviation judge := (Checker.judge fromisoformat render).
Local Abbreviation _check_rest_block_latest :=
  (Checker._check_rest_block_latest fromisoformat render).
Local Abbreviation check_api_endpoint := (Checker.check_api_endpoint fromisoformat render).
Local Abbreviation check_rpc_endpoint := (Checker.check_rpc_endpoint fromisoformat render).

Lemma non_2xx_false (st : Z) : Checker.non_2xx st = false <-> 200 <= st < 300.
Proof.
  unfold Checker.non_2xx. rewrite orb_false_iff, Z.ltb_ge, Z.geb_leb, Z.leb_gt. lia.
Qed.

Lemma delay_nonneg (now : Z) (v : pyval) (d : Z) :
  _calc_block_delay_ms now v = Return (Some d) -> 0 <= d.
Proof. apply (block_delay_ms_shape fromisoformat now). Qed.

Lemma judge_judged (now st : Z) (expected : option string)
  (chain_id height time_str : pyval) (r : probe_result) :
  judge now st expected chain_id height time_str = Return r ->
  judged expected st height r.
Proof.
  unfold Checker.judge.
  destruct (Checker.chain_id_mismatch expected chain_id) eqn:Hm.
  - destruct (mismatch_inv _ _ Hm) as (x & -> & Hx & _).
    destruct (_calc_block_delay_ms now time_str) as [d|e] eqn:Hc; cbn [bind];
      [|discriminate].
    intros [= <-]. cbn [Checker.str_opt]. econstructor; [reflexivity | exact Hx|].
    intros v ->. exact (delay_nonneg _ _ _ Hc).
  - destruct (_calc_block_delay_ms now time_str) as [[d|]|e] eqn:Hc; cbn [bind];
      [| |discriminate]; intros [= <-]; constructor.
    exact (delay_nonneg _ _ _ Hc).
Qed.

Lemma rest_answered (w : world) (base_url path : string)
  (expected : option string) (r : probe_result) :
  _check_rest_block_latest w base_url path expected = Return r -> answered expected r.
Proof.
  unfold Checker._check_rest_block_latest, Checker.get_response.
  destruct (httpx_get w _) as [e|st [data|e]]; cbn [bind]; [discriminate|..];
    destruct (Checker.non_2xx st) eqn:Hs; try (intros [= <-]; now constructor).
  destruct (Checker.rest_fields data) as [[[c h] t]|e]; cbn [bind]; [|discriminate].
  intros Hj. apply (answered_judged expected st h); [exact Hs|].
  exact (judge_judged _ _ _ _ _ _ _ Hj).
Qed.

Lemma rpc_try_answered (w : world) (url : string)
  (expected : option string) (r : probe_result) :
  Checker.rpc_try fromisoformat render w url expected = Return r -> answered expected r.
Proof.
  unfold Checker.rpc_try, Checker.get_response.
  destruct (httpx_get w _) as [e|st [data|e]]; cbn [bind]; [discriminate|..];
    destruct (Checker.non_2xx st) eqn:Hs; try (intros [= <-]; now constructor).
  destruct (Checker.rpc_fields data) as [[[c h] t]|e]; cbn [bind]; [|discriminate].
  intros Hj. apply (answered_judged expected st h); [exact Hs|].
  exact (judge_judged _ _ _ _ _ _ _ Hj).
Qed.

Lemma alive_answered (w : world) (base_url : string) (r : probe_result) :
  Checker.alive_try w base_url = Return r ->
  (forall expected, answered expected r) \/ exists st, Checker.non_2xx st = false
                           /\ r = (true, Some st, None, PNone, None).
Proof.
  unfold Checker.alive_try, Checker.get_response.
  destruct (httpx_get w _) as [e|st body]; cbn [bind]; [discriminate|].
  destruct (Checker.non_2xx st) eqn:Hs; intros [= <-].
  - left. intros expected. now constructor.
  - right. eauto.
Qed.

Lemma rpc_probed (w : world) (base_url : string) (expected : option string) :
  probed expected (check_rpc_endpoint w base_url expected).
Proof.
  unfold Checker.check_rpc_endpoint.
  destruct (Checker.rpc_try fromisoformat render w _ expected) as [r|e] eqn:H;
    cbn [try_except].
  - constructor. exact (rpc_try_answered _ _ _ _ H).
  - apply (probed_raised expected e).
Qed.

Lemma api_probed (w : world) (base_url : string) (expected : option string) :
  probed expected (check_api_endpoint w base_url expected).
Proof.
  unfold Checker.check_api_endpoint.
  destruct (_check_rest_block_latest w base_url Checker.PATH_NEW expected)
    as [r|e1] eqn:H1; [constructor; exact (rest_answered _ _ _ _ _ H1)|].
  destruct (_check_rest_block_latest w base_url Checker.PATH_OLD expected)
    as [r|e2] eqn:H2; [constructor; exact (rest_answered _ _ _ _ _ H2)|].
  destruct (Checker.alive_try w base_url) as [r|e3] eqn:H3.
  - destruct (alive_answered _ _ _ H3) as [H|(st & Hs & ->)];
      [constructor; apply H | now apply probed_alive].
  - pose proof (most_helpful_in (Checker._normalize_error e1)
                  (Checker._normalize_error e2) (Checker._normalize_error e3)) as Hin.
    destruct Hin as [E|[E|[E|[]]]].
    + apply (classified_startswith e1 _ (normalize_error_classified e1)).
    + rewrite <- E. apply probed_raised.
    + rewrite <- E. apply probed_raised.
    + rewrite <- E. apply probed_raised.
Qed.

Lemma normalize_error_nonempty (msg : string) : Checker._normalize_error msg <> "".
Proof. apply (classified_startswith msg _ (normalize_error_classified msg)). Qed.

Lemma coherent_unavailable (st : Z) (d : option Z) (h : pyval) (err : string) :
  (forall v, d = Some v -> 0 <= v) ->
  coherent (false, Some st, d, h, Some err).
Proof.
  intros Hd. unfold coherent. cbn [r_available r_status r_delay r_height r_error].
  split; [split; discriminate|]. split; [exact Hd|]. split; discriminate.
Qed.

Lemma coherent_available (st : Z) (d : option Z) (h : pyval) :
  Checker.non_2xx st = false ->
  (forall v, d = Some v -> 0 <= v) ->
  coherent (true, Some st, d, h, None).
Proof.
  intros Hs Hd. unfold coherent. cbn [r_available r_status r_delay r_height r_error].
  split; [split; reflexivity|]. split; [exact Hd|].
  split; [|discriminate]. intros _. exists st. split; [reflexivity|].
  now apply non_2xx_false.
Qed.

Lemma coherent_raised (msg : string) :
  coherent (false, None, None, PNone, Some (Checker._normalize_error msg)).
Proof.
  unfold coherent. cbn [r_available r_status r_delay r_height r_error].
  split; [split; discriminate|]. split; [discriminate|]. split; [discriminate|].
  intros _. repeat split. now exists msg.
Qed.

Lemma probed_coherent (expected : option string) (r : probe_result) :
  probed expected r -> coherent r.
Proof.
  intros [r' Ha|st Hs|msg].
  - destruct Ha as [st Hs|st detail Hs|st h r'' Hs [x y d Hex Hx Hd| |d Hd]].
    + apply coherent_unavailable. discriminate.
    + apply coherent_unavailable. discriminate.
    + apply coherent_unavailable. exact Hd.
    + apply coherent_unavailable. discriminate.
    + apply coherent_available; [exact Hs|]. now intros v [= <-].
  - apply coherent_available; [exact Hs | discriminate].
  - apply coherent_raised.
Qed.

(** X1: both probes return coherent results: available exactly when there is
    no error message, with a 2xx status when available, never a negative
    delay, and neither delay nor height when there is no status. *)
Theorem probe_results_coherent (w : world) (base_url : string)
  (expected : option string) :
  coherent (check_rpc_endpoint w base_url expected) /\
  coherent (check_api_endpoint w base_url expected) /\
  (r_available (check_rpc_endpoint w base_url expected) = true ->
   exists d, r_delay (check_rpc_endpoint w base_url expected) = Some d).
Proof.
  split; [apply (probed_coherent expected), rpc_probed|].
  split; [apply (probed_coherent expected), api_probed|].
  unfold Checker.check_rpc_endpoint.
  destruct (Checker.rpc_try fromisoformat render w _ expected) as [r|e] eqn:H;
    cbn [try_except]; [|discriminate].
  destruct (rpc_try_answered _ _ _ _ H) as [st Hs|st detail Hs|st h r' Hs [| |d Hd]];
    cbn; try discriminate. eauto.
Qed.

Lemma probed_error_form (expected : option string) (r : probe_result) (err : string) :
  probed expected r -> r_error r = Some err -> error_form err.
Proof.
  intros [r' Ha|st Hs|msg]; cbn [r_error]; try discriminate.
  - destruct Ha as [st Hs|st detail Hs|st h r'' Hs [x y d Hex Hx Hd| |d Hd]];
      cbn [r_error]; try discriminate; intros [= <-]; now constructor.
  - intros [= <-]. constructor.
Qed.

Lemma probed_mismatch (expected : option string) (r : probe_result) (err : string) :
  probed expected r -> r_error r = Some err ->
  startswith "CHAIN_ID_MISMATCH" err = true ->
  exists x y, expected = Some x /\ x <> ""
              /\ err = "CHAIN_ID_MISMATCH: expected=" ++ x ++ ", got=" ++ y.
Proof.
  intros [r' Ha|st Hs|msg]; cbn [r_error]; try discriminate.
  - destruct Ha as [st Hs|st detail Hs|st h r'' Hs [x y d Hex Hx Hd| |d Hd]];
      cbn [r_error]; try discriminate; intros [= <-]; try discriminate.
    intros _. exists x, y. auto.
  - intros [= <-]. now rewrite classified_no_mismatch.
Qed.

Lemma error_form_known (err : string) :
  error_form err -> err <> "UNKNOWN_ERROR" /\ err <> "".
Proof.
  intros [st Hs|detail|x y Hx| |msg]; try (split; discriminate).
  destruct (normalize_error_classified msg); split; discriminate.
Qed.

(** X2: every error message of a probe has one of the forms
    [HTTP_STATUS_<code>] with a non-2xx code, [INVALID_JSON: <detail>],
    [CHAIN_ID_MISMATCH: expected=<x>, got=<y>] with a non-empty [x],
    [INVALID_BLOCK_TIME], or the classification of an exception message. *)
Theorem error_taxonomy (w : world) (base_url : string)
  (expected : option string) (err : string) :
  r_error (check_rpc_endpoint w base_url expected) = Some err
  \/ r_error (check_api_endpoint w base_url expected) = Some err ->
  error_form err.
Proof.
  intros [H|H]; [apply (probed_error_form _ _ _ (rpc_probed w base_url expected) H)
                |apply (probed_error_form _ _ _ (api_probed w base_url expected) H)].
Qed.

(** X3: the last resort [UNKNOWN_ERROR] of the API probe is never reported,
    and no probe reports an empty error message. *)
Theorem unknown_error_never_reported (w : world) (base_url : string)
  (expected : option string) :
  r_error (check_api_endpoint w base_url expected) <> Some "UNKNOWN_ERROR" /\
  r_error (check_api_endpoint w base_url expected) <> Some "" /\
  r_error (check_rpc_endpoint w base_url expected) <> Some "".
Proof.
  repeat split; intros H.
  - destruct (error_form_known _ (probed_error_form _ _ _ (api_probed w base_url expected) H))
      as [Hn _]. now apply Hn.
  - destruct (error_form_known _ (probed_error_form _ _ _ (api_probed w base_url expected) H))
      as [_ Hn]. now apply Hn.
  - destruct (error_form_known _ (probed_error_form _ _ _ (rpc_probed w base_url expected) H))
      as [_ Hn]. now apply Hn.
Qed.

Lemma answered_available_has_delay (expected : option string) (r : probe_result) :
  answered expected r -> r_available r = true -> exists d, r_delay r = Some d.
Proof.
  intros [st Hs|st detail Hs|st height r' Hs Hj]; cbn [r_available]; try discriminate.
  destruct Hj as [x y d Hx Hne Hd| |d Hd]; cbn [r_available r_delay];
    try discriminate.
  intros _. now exists d.
Qed.

(** X4: an API endpoint is reported available without a delay only by the
    bare GET of its base URL, and the probe gets there only when both
    block requests have raised: a block path that answers, with any status
    and any body that is read without an exception, never leads to it. *)
Theorem liveness_only_after_both_paths_raise (w : world) (base_url : string)
  (expected : option string) :
  r_available (check_api_endpoint w base_url expected) = true ->
  r_delay (check_api_endpoint w base_url expected) = None ->
  (exists e1 e2,
      _check_rest_block_latest w base_url Checker.PATH_NEW expected = Raise e1 /\
      _check_rest_block_latest w base_url Checker.PATH_OLD expected = Raise e2) /\
  exists st body,
    httpx_get w (rstrip "/" base_url) = HttpResponse st body /\
    Checker.non_2xx st = false /\
    check_api_endpoint w base_url expected = (true, Some st, None, PNone, None).
Proof.
  unfold Checker.check_api_endpoint.
  destruct (_check_rest_block_latest w base_url Checker.PATH_NEW expected)
    as [r|e1] eqn:H1.
  { intros Ha Hd.
    destruct (answered_available_has_delay _ _ (rest_answered _ _ _ _ _ H1) Ha)
      as (d & E).
    rewrite E in Hd. discriminate. }
  destruct (_check_rest_block_latest w base_url Checker.PATH_OLD expected)
    as [r|e2] eqn:H2.
  { intros Ha Hd.
    destruct (answered_available_has_delay _ _ (rest_answered _ _ _ _ _ H2) Ha)
      as (d & E).
    rewrite E in Hd. discriminate. }
  unfold Checker.alive_try, Checker.get_response.
  destruct (httpx_get w (rstrip "/" base_url)) as [e|st body]; cbn [bind];
    [discriminate|].
  destruct (Checker.non_2xx st) eqn:Hs; [discriminate|].
  intros _ _. split; [now exists e1, e2|]. now exists st, body.
Qed.

End ProbeResults.

Section ProbeEdges.

Variable fromisoformat : string -> pyresult datetime.
Variable render : pyval -> string.

Local Abbreviation _parse_block_time := (Checker._parse_block_time fromisoformat).
Local Abbreviation _calc_block_delay_ms := (Checker._calc_block_delay_ms fromisoformat).
Local Abbreviation judge := (Checker.judge fromisoformat render).
Local Abbreviation _check_rest_block_latest :=
  (Checker._check_rest_block_latest fromisoformat render).
Local Abbreviation check_api_endpoint := (Checker.check_api_endpoint fromisoformat render).
Local Abbreviation check_rpc_endpoint := (Checker.check_rpc_endpoint fromisoformat render).

Lemma normalize_error_length (msg : string) :
  (String.length (Checker._normalize_error msg) <= 411)%nat.
Proof.
  destruct (normalize_error_classified msg); cbn [String.length]; try lia.
  change ("EXCEPTION: " ++ take 400 msg)
    with ("EXCEPTION: " ++ (take 400 msg)).
  rewrite length_app, take_length. cbn [String.length]. lia.
Qed.

(** X5: a result without a status code carries the classification of an
    exception message, which is at most 411 characters long and so fits
    the 500 characters of the [error_message] column. *)
Theorem raised_error_fits_column (w : world) (base_url : string)
  (expected : option string) (r : probe_result) :
  r = check_rpc_endpoint w base_url expected
  \/ r = check_api_endpoint w base_url expected ->
  r_status r = None ->
  exists err, r_error r = Some err /\ (String.length err <= 411)%nat.
Proof.
  intros Hr Hs.
  assert (Hc : coherent r).
  { destruct Hr as [-> | ->]; apply (probed_coherent expected);
      [apply rpc_probed | apply api_probed]. }
  destruct Hc as (_ & _ & _ & H). destruct (H Hs) as (_ & _ & _ & msg & He).
  exists (Checker._normalize_error msg). split; [exact He|].
  apply normalize_error_length.
Qed.

Lemma rstrip_cons (c a : ascii) (s : string) :
  rstrip c (String a s)
  = match rstrip c s with
    | EmptyString => if Ascii.eqb a c then EmptyString else String a EmptyString
    | r => String a r
    end.
Proof. reflexivity. Qed.

Lemma rstrip_app_same (c : ascii) (s : string) :
  rstrip c (s ++ String c "") = rstrip c s.
Proof.
  induction s as [|a s IH]; cbn [append].
  - rewrite rstrip_cons. cbn [rstrip]. now rewrite Ascii.eqb_refl.
  - now rewrite !rstrip_cons, IH.
Qed.

Lemma rstrip_idempotent (c : ascii) (s : string) :
  rstrip c (rstrip c s) = rstrip c s.
Proof.
  induction s as [|a s IH]; [reflexivity|]. rewrite rstrip_cons.
  destruct (rstrip c s) as [|b r] eqn:E.
  - destruct (Ascii.eqb a c) eqn:Ea; [reflexivity|].
    rewrite rstrip_cons. cbn [rstrip]. now rewrite Ea.
  - rewrite rstrip_cons, IH. reflexivity.
Qed.

Lemma endswith_cons (p : string) (a : ascii) (s : string) :
  endswith p (String a s) = ((String a s =? p)%string || endswith p s).
Proof. reflexivity. Qed.

Lemma rstrip_no_trailing (c : ascii) (s : string) :
  endswith (String c "") (rstrip c s) = false.
Proof.
  induction s as [|a s IH]; [reflexivity|]. rewrite rstrip_cons.
  destruct (rstrip c s) as [|b r] eqn:E.
  - destruct (Ascii.eqb a c) eqn:Ea; [reflexivity|].
    rewrite endswith_cons. cbn [String.eqb endswith]. rewrite Ea. reflexivity.
  - rewrite endswith_cons, IH. cbn [String.eqb].
    destruct (Ascii.eqb a c); reflexivity.
Qed.

(** X6: slashes at the end of the base URL make no difference to a probe, and
    the URL it requests never has a slash before the path it appends. *)
Theorem trailing_slash_ignored (w : world) (base_url : string)
  (expected : option string) :
  check_rpc_endpoint w (base_url ++ "/") expected
  = check_rpc_endpoint w base_url expected /\
  check_api_endpoint w (base_url ++ "/") expected
  = check_api_endpoint w base_url expected /\
  check_rpc_endpoint w (rstrip "/" base_url) expected
  = check_rpc_endpoint w base_url expected /\
  check_api_endpoint w (rstrip "/" base_url) expected
  = check_api_endpoint w base_url expected /\
  endswith "/" (rstrip "/" base_url) = false.
Proof.
  unfold Checker.check_rpc_endpoint, Checker.check_api_endpoint,
    Checker._check_rest_block_latest, Checker.alive_try.
  rewrite (rstrip_app_same "/" base_url), rstrip_idempotent.
  repeat split. apply rstrip_no_trailing.
Qed.

Lemma classify_no_get (v : pyval) :
  Checker._normalize_error (no_attribute v "get")
  = "EXCEPTION: " ++ no_attribute v "get".
Proof. destruct v; reflexivity. Qed.

Lemma classify_no_endswith (v : pyval) :
  Checker._normalize_error (no_attribute v "endswith")
  = "EXCEPTION: " ++ no_attribute v "endswith".
Proof. destruct v; reflexivity. Qed.

Lemma fields_of_non_dict (data : pyval) :
  is_dict data = false ->
  Checker.rpc_fields data = Raise (no_attribute data "get") /\
  Checker.rest_fields data = Raise (no_attribute data "get").
Proof. destruct data; try discriminate; intros _; split; reflexivity. Qed.

Lemma append_inv_head (a x y : string) : a ++ x = a ++ y -> x = y.
Proof.
  induction a as [|c a IH]; cbn [append]; [auto|]. intros [= H]. auto.
Qed.

Lemma append_neq_self (a x : string) : x <> "" -> a ++ x <> a.
Proof.
  intros Hx H. apply Hx. apply (append_inv_head a).
  now rewrite append_nil_r.
Qed.

(** X7: a 2xx answer whose JSON body is not an object.  The RPC probe reports
    it as an exception, [EXCEPTION: '<type>' object has no attribute 'get'],
    and drops the status code.  The API probe treats such an answer on its
    first path as if the request had raised with that message: it goes on
    to the legacy path and the bare GET. *)
Theorem non_object_body (w : world) (base_url : string)
  (expected : option string) (st : Z) (data : pyval) :
  Checker.non_2xx st = false ->
  is_dict data = false ->
  (httpx_get w (rstrip "/" base_url ++ "/status") = HttpResponse st (Return data) ->
   check_rpc_endpoint w base_url expected
   = (false, None, None, PNone, Some ("EXCEPTION: " ++ no_attribute data "get"))) /\
  (httpx_get w (rstrip "/" base_url ++ Checker.PATH_NEW)
   = HttpResponse st (Return data) ->
   check_api_endpoint w base_url expected
   = check_api_endpoint
       (with_outcome w (rstrip "/" base_url ++ Checker.PATH_NEW)
          (HttpRaise (no_attribute data "get")))
       base_url expected).
Proof.
  intros Hs Hd. destruct (fields_of_non_dict data Hd) as [Hrpc Hrest]. split.
  - intros Hg.
    unfold Checker.check_rpc_endpoint, Checker.rpc_try, Checker.get_response.
    rewrite Hg. cbn [bind]. rewrite Hs, Hrpc. cbn [bind try_except].
    change (Checker.rpc_classify (no_attribute data "get"))
      with (Checker._normalize_error (no_attribute data "get")).
    now rewrite classify_no_get.
  - intros Hg. set (url1 := rstrip "/" base_url ++ Checker.PATH_NEW) in *.
    set (w' := with_outcome w url1 (HttpRaise (no_attribute data "get"))).
    assert (H1 : _check_rest_block_latest w base_url Checker.PATH_NEW expected
                 = Raise (no_attribute data "get")).
    { unfold Checker._check_rest_block_latest, Checker.get_response.
      fold url1. rewrite Hg. cbn [bind]. now rewrite Hs, Hrest. }
    assert (H1' : _check_rest_block_latest w' base_url Checker.PATH_NEW expected
                  = Raise (no_attribute data "get")).
    { apply rest_raises. fold url1. unfold w', with_outcome. cbn [httpx_get].
      now rewrite String.eqb_refl. }
    assert (Hother : forall u, u <> url1 -> httpx_get w' u = httpx_get w u).
    { intros u Hu. unfold w', with_outcome. cbn [httpx_get].
      apply String.eqb_neq in Hu. now rewrite Hu. }
    assert (H2 : _check_rest_block_latest w' base_url Checker.PATH_OLD expected
                 = _check_rest_block_latest w base_url Checker.PATH_OLD expected).
    { apply rest_local; [|reflexivity]. apply Hother.
      unfold url1. intros E. apply append_inv_head in E. discriminate. }
    assert (H3 : Checker.alive_try w' base_url = Checker.alive_try w base_url).
    { unfold Checker.alive_try, Checker.get_response. rewrite Hother; [reflexivity|].
      unfold url1. intros E. symmetry in E. revert E. apply append_neq_self.
      discriminate. }
    unfold Checker.check_api_endpoint. now rewrite H1, H1', H2, H3.
Qed.

(** X8: a 2xx answer, read without error, whose block time is not a text.  If
    it is a value that counts as true (a non-zero number, [true], a
    non-empty list or object) the RPC probe reports
    [EXCEPTION: '<type>' object has no attribute 'endswith'] without status
    code, whatever the chain ids are.  If it counts as false (null, 0,
    [false], an empty text, list or object) and there is no chain id
    mismatch, the answer is unavailable with [INVALID_BLOCK_TIME]. *)
Theorem non_text_block_time (w : world) (base_url : string)
  (expected : option string) (st : Z) (data network height time_str : pyval) :
  let url := rstrip "/" base_url ++ "/status" in
  httpx_get w url = HttpResponse st (Return data) ->
  Checker.non_2xx st = false ->
  Checker.rpc_fields data = Return (network, height, time_str) ->
  (truthy time_str = true -> is_str time_str = false ->
   check_rpc_endpoint w base_url expected
   = (false, None, None, PNone,
      Some ("EXCEPTION: " ++ no_attribute time_str "endswith"))) /\
  (truthy time_str = false ->
   Checker.chain_id_mismatch expected network = false ->
   check_rpc_endpoint w base_url expected
   = (false, Some st, None, height, Some "INVALID_BLOCK_TIME")).
Proof.
  intros url Hg Hs Hf. split.
  - intros Ht Hn.
    assert (Hc : forall now, _calc_block_delay_ms now time_str
                             = Raise (no_attribute time_str "endswith")).
    { intros now. unfold Checker._calc_block_delay_ms, Checker._parse_block_time.
      rewrite Ht. cbn [negb]. destruct time_str; try discriminate; reflexivity. }
    unfold Checker.check_rpc_endpoint, Checker.rpc_try, Checker.get_response.
    fold url. rewrite Hg. cbn [bind]. rewrite Hs, Hf. cbn [bind].
    unfold Checker.judge. rewrite Hc.
    destruct (Checker.chain_id_mismatch expected network); cbn [bind try_except];
      change (Checker.rpc_classify (no_attribute time_str "endswith"))
        with (Checker._normalize_error (no_attribute time_str "endswith"));
      now rewrite classify_no_endswith.
  - intros Ht Hm.
    unfold Checker.check_rpc_endpoint, Checker.rpc_try, Checker.get_response.
    fold url. rewrite Hg. cbn [bind]. rewrite Hs, Hf. cbn [bind].
    unfold Checker.judge, Checker._calc_block_delay_ms. rewrite Hm, Ht.
    reflexivity.
Qed.

(** X9: digits of the fraction after the sixth are ignored: two timestamps
    that differ only there are parsed alike and give the same delay. *)
Theorem sub_microsecond_digits_ignored (now : Z)
  (before frac1 frac2 suffix : string) :
  no_char "." before = true ->
  all_chars is_digit frac1 = true ->
  all_chars is_digit frac2 = true ->
  offset_like (z_to_utc suffix) = true ->
  take 6 frac1 = take 6 frac2 ->
  _parse_block_time (PStr (before ++ "." ++ frac1 ++ suffix))
  = _parse_block_time (PStr (before ++ "." ++ frac2 ++ suffix)) /\
  _calc_block_delay_ms now (PStr (before ++ "." ++ frac1 ++ suffix))
  = _calc_block_delay_ms now (PStr (before ++ "." ++ frac2 ++ suffix)).
Proof.
  intros Hb H1 H2 Ho Ht.
  assert (Hp : _parse_block_time (PStr (before ++ "." ++ frac1 ++ suffix))
               = _parse_block_time (PStr (before ++ "." ++ frac2 ++ suffix))).
  { rewrite !parse_text, !app_nonempty by discriminate.
    now rewrite !normalize_ts_fraction, Ht by assumption. }
  split; [exact Hp|].
  unfold Checker._calc_block_delay_ms. rewrite Hp. cbn [truthy].
  now rewrite !app_nonempty by discriminate.
Qed.

End ProbeEdges.

(* ------------------------------------------------------------------ *)
(** * The float arithmetic of the delay stays finite *)

Section FloatFacts.

Local Open Scope Z_scope.

Local Abbreviation D := Zdigits2.

Lemma digits_nonneg (m : Z) : 0 <= D m.
Proof. destruct m; cbn; lia. Qed.

Lemma digits_pos_bounds (p : positive) :
  2 ^ (Zpos (digits2_pos p) - 1) <= Zpos p < 2 ^ Zpos (digits2_pos p).
Proof.
  assert (Hstep : forall d x, 0 < d -> 2 ^ (d - 1) <= x < 2 ^ d ->
            forall y, 2 * x <= y <= 2 * x + 1 ->
            2 ^ (Z.succ d - 1) <= y < 2 ^ Z.succ d).
  { intros d x Hd Hx y Hy. rewrite Z.pow_succ_r by lia.
    replace (Z.succ d - 1) with (Z.succ (d - 1)) by lia.
    rewrite Z.pow_succ_r by lia. lia. }
  induction p as [p IH|p IH|]; cbn [digits2_pos].
  - rewrite Pos2Z.inj_succ. apply (Hstep _ (Zpos p)); [lia | exact IH|].
    rewrite Pos2Z.inj_xI. lia.
  - rewrite Pos2Z.inj_succ. apply (Hstep _ (Zpos p)); [lia | exact IH|].
    rewrite Pos2Z.inj_xO. lia.
  - cbn. lia.
Qed.

Lemma digits_upper (m k : Z) : 0 <= m < 2 ^ k -> 0 <= k -> D m <= k.
Proof.
  intros [H0 Hm] Hk. destruct m as [|p|p]; [cbn; lia| |lia].
  cbn [Zdigits2]. destruct (Z_le_gt_dec (Zpos (digits2_pos p)) k) as [|Hgt]; [lia|].
  exfalso. pose proof (digits_pos_bounds p) as [Hlo _].
  assert (2 ^ k <= 2 ^ (Zpos (digits2_pos p) - 1)) by (apply Z.pow_le_mono_r; lia).
  lia.
Qed.

Lemma digits_lt_pow (m : Z) : 0 <= m -> m < 2 ^ D m.
Proof.
  intros H. destruct m as [|p|p]; [cbn; lia | apply digits_pos_bounds | lia].
Qed.

Lemma digits_le (a b : Z) : 0 <= a <= b -> D a <= D b.
Proof.
  intros [Ha Hab]. apply digits_upper; [|apply digits_nonneg].
  pose proof (digits_lt_pow b). lia.
Qed.

Lemma digits_mul (a b : Z) : 0 <= a -> 0 <= b -> D (a * b) <= D a + D b.
Proof.
  intros Ha Hb. pose proof (digits_nonneg a). pose proof (digits_nonneg b).
  apply digits_upper; [|lia]. rewrite Z.pow_add_r by lia.
  pose proof (digits_lt_pow a Ha). pose proof (digits_lt_pow b Hb). nia.
Qed.

Lemma digits_succ (m : Z) : 0 <= m -> D (m + 1) <= D m + 1.
Proof.
  intros Hm. pose proof (digits_nonneg m).
  apply digits_upper; [|lia]. rewrite Z.pow_add_r by lia.
  pose proof (digits_lt_pow m Hm). change (2 ^ 1) with 2. lia.
Qed.

Lemma digits_div2 (m : Z) : 0 <= m -> D (Z.div2 m) = Z.max 0 (D m - 1).
Proof.
  intros Hm. destruct m as [|[p|p|]|p]; try lia.
  - reflexivity.
  - change (Z.div2 (Zpos p~1)) with (Zpos p). cbn [Zdigits2 digits2_pos].
    rewrite Pos2Z.inj_succ. lia.
  - change (Z.div2 (Zpos p~0)) with (Zpos p). cbn [Zdigits2 digits2_pos].
    rewrite Pos2Z.inj_succ. lia.
  - reflexivity.
Qed.

Lemma shr_1_m (mrs : shr_record) :
  0 <= shr_m mrs -> shr_m (shr_1 mrs) = Z.div2 (shr_m mrs).
Proof.
  destruct mrs as [m r s]. cbn [shr_m]. intros Hm.
  destruct m as [|[p|p|]|p]; try reflexivity; lia.
Qed.

Lemma div2_nonneg (m : Z) : 0 <= m -> 0 <= Z.div2 m.
Proof. intros H. now apply Z.div2_nonneg. Qed.

Lemma iter_shr_1 (p : positive) :
  forall mrs, 0 <= shr_m mrs ->
    0 <= shr_m (iter_pos shr_1 p mrs) /\
    D (shr_m (iter_pos shr_1 p mrs)) = Z.max 0 (D (shr_m mrs) - Zpos p).
Proof.
  assert (Hone : forall mrs, 0 <= shr_m mrs ->
             0 <= shr_m (shr_1 mrs) /\
             D (shr_m (shr_1 mrs)) = Z.max 0 (D (shr_m mrs) - 1)).
  { intros mrs H. rewrite shr_1_m by exact H.
    split; [now apply div2_nonneg | now apply digits_div2]. }
  induction p as [p IH|p IH|]; intros mrs H; cbn [iter_pos].
  - destruct (Hone mrs H) as [H1 E1].
    destruct (IH _ H1) as [H2 E2]. destruct (IH _ H2) as [H3 E3].
    split; [exact H3|]. rewrite E3, E2, E1. lia.
  - destruct (IH _ H) as [H2 E2]. destruct (IH _ H2) as [H3 E3].
    split; [exact H3|]. rewrite E3, E2. lia.
  - apply Hone, H.
Qed.

(** One rounding step: the mantissa stays non-negative and the top bit
    moves up by at most the exponent floor. *)
Lemma shr_fexp_bounds (m e : Z) (l : location) :
  0 <= m ->
  let '(mrs, e') := shr_fexp 53 1024 m e l in
  0 <= shr_m mrs /\
  e' = Z.max e (fexp 53 1024 (D m + e)) /\
  D (shr_m mrs) + e' <= Z.max (D m + e) (-1074) /\
  D (shr_m mrs) <= 53.
Proof.
  intros Hm. unfold shr_fexp, shr.
  assert (Hrec : shr_m (shr_record_of_loc m l) = m)
    by (destruct l as [|[]]; reflexivity).
  pose proof (digits_nonneg m) as Hd.
  unfold fexp, emin. 
  destruct (Z.max (D m + e - 53) (3 - 1024 - 53) - e) as [|p|p] eqn:En.
  - rewrite Hrec. repeat split; lia.
  - destruct (iter_shr_1 p (shr_record_of_loc m l)) as [H1 E1];
      [rewrite Hrec; exact Hm|].
    rewrite Hrec in E1. repeat split; try lia.
  - rewrite Hrec. repeat split; lia.
Qed.

Lemma round_nearest_even_bounds (m : Z) (l : location) :
  0 <= m ->
  0 <= round_nearest_even m l /\ D (round_nearest_even m l) <= D m + 1.
Proof.
  intros Hm. pose proof (digits_succ m Hm).
  unfold round_nearest_even.
  destruct l as [|[]]; try (destruct (Z.even m)); split; lia.
Qed.

(** Rounding a non-negative mantissa whose top bit is below [2^1023] gives
    a zero or a finite float of the same sign. *)
Lemma binary_round_aux_finite (s : bool) (m e : Z) (l : location) :
  0 <= m -> e <= 971 -> D m + e <= 1023 ->
  binary_round_aux 53 1024 s m e l = S754_zero s \/
  exists m' e',
    binary_round_aux 53 1024 s m e l = S754_finite s m' e' /\
    e' <= 971 /\ D (Zpos m') + e' <= Z.max (D m + e + 1) (-1073).
Proof.
  intros Hm He Hd. unfold binary_round_aux.
  pose proof (shr_fexp_bounds m e l Hm) as H1.
  destruct (shr_fexp 53 1024 m e l) as [mrs' e'].
  destruct H1 as (H1 & E1 & B1 & P1).
  destruct (round_nearest_even_bounds (shr_m mrs') (loc_of_shr_record mrs') H1)
    as [H2 B2].
  pose proof (shr_fexp_bounds _ e' loc_Exact H2) as H3.
  destruct (shr_fexp 53 1024 _ e' loc_Exact) as [mrs'' e''].
  destruct H3 as (H3 & E3 & B3 & P3).
  unfold fexp, emin in *.
  destruct (shr_m mrs'') as [|m3|m3] eqn:Em; [now left | | lia].
  right. exists m3, e''.
  assert (He'' : e'' <= 971) by lia.
  apply Z.leb_le in He''. change (1024 - 53) with 971. rewrite He''.
  repeat split; lia.
Qed.

Lemma div_core_bounds (m1 m2 : positive) :
  let '(q, e', l) := SFdiv_core_binary 53 1024 (Zpos m1) 0 (Zpos m2) 0 in
  0 <= q /\ e' <= 0 /\ D q + e' <= D (Zpos m1).
Proof.
  unfold SFdiv_core_binary.
  set (e' := Z.min (fexp 53 1024 (D (Zpos m1) + 0 - (D (Zpos m2) + 0))) (0 - 0)).
  assert (He' : e' <= 0) by (unfold e'; lia).
  set (m' := match 0 - 0 - e' with
             | Z0 => Zpos m1
             | Zpos _ => Z.shiftl (Zpos m1) (0 - 0 - e')
             | Zneg _ => 0
             end).
  assert (Hm' : 0 <= m' /\ D m' + e' <= D (Zpos m1)).
  { unfold m'. destruct (0 - 0 - e') as [|p|p] eqn:Es.
    - split; lia.
    - rewrite Z.shiftl_mul_pow2 by lia. split; [lia|].
      assert (D (Zpos m1 * 2 ^ Zpos p) <= D (Zpos m1) + Zpos p); [|lia].
      pose proof (digits_nonneg (Zpos m1)).
      apply digits_upper; [|lia]. rewrite Z.pow_add_r by lia.
      pose proof (digits_lt_pow (Zpos m1)). 
      assert (0 < 2 ^ Zpos p) by (apply Z.pow_pos_nonneg; lia). nia.
    - lia. }
  destruct Hm' as [Hm0 Hmd].
  pose proof (Z_div_mod m' (Zpos m2) eq_refl) as Hdm.
  destruct (Z.div_eucl m' (Zpos m2)) as [q r]. destruct Hdm as [Eq Hr].
  assert (Hq : 0 <= q <= m') by nia.
  pose proof (digits_le q m' Hq). repeat split; lia.
Qed.

Lemma py_int_finite (s : bool) (m : positive) (e : Z) :
  exists a, 0 <= a /\ py_int (S754_finite s m e) = Return (if s then - a else a).
Proof.
  cbn [py_int]. destruct e as [|p|p].
  - exists (Z.shiftl (Zpos m) 0). split; [|reflexivity].
    apply Z.shiftl_nonneg. lia.
  - exists (Z.shiftl (Zpos m) (Zpos p)). split; [|reflexivity].
    apply Z.shiftl_nonneg. lia.
  - exists (Z.shiftr (Zpos m) (Zpos p)). split; [|reflexivity].
    apply Z.shiftr_nonneg. lia.
Qed.

Lemma delay_float_signed (s : bool) (p : positive) :
  Zpos p < 2 ^ 62 ->
  exists a, 0 <= a /\
    py_int (times_1000 (SFdiv 53 1024 (S754_finite s p 0) (SFofZ 1000000)))
    = Return (if s then - a else a).
Proof.
  intros Hp. assert (Hdp : D (Zpos p) <= 62) by (apply digits_upper; lia).
  assert (Hzero : forall b : bool, exists a, 0 <= a /\
             py_int (S754_zero b) = Return (if s then - a else a)).
  { intros b. exists 0. split; [lia|]. now destruct s. }
  unfold times_1000. cbn [SFofZ SFdiv].
  pose proof (div_core_bounds p 1000000) as Hcore.
  destruct (SFdiv_core_binary 53 1024 (Zpos p) 0 (Zpos 1000000) 0) as [[q e'] l].
  destruct Hcore as (Hq & He & Hd).
  rewrite xorb_false_r.
  destruct (binary_round_aux_finite s q e' l Hq) as [Hz|(m' & e2 & Hf & He2 & Hd2)];
    try lia.
  - rewrite Hz. cbn [SFmul]. apply Hzero.
  - rewrite Hf. cbn [SFmul]. rewrite xorb_false_r.
    assert (Hm : D (Zpos (m' * 1000)) <= D (Zpos m') + 10).
    { rewrite Pos2Z.inj_mul. etransitivity; [apply digits_mul; lia|].
      change (D 1000) with 10. lia. }
    destruct (binary_round_aux_finite s (Zpos (m' * 1000)) (e2 + 0) loc_Exact)
      as [Hz|(m'' & e3 & Hf3 & _)]; try lia.
    + rewrite Hz. apply Hzero.
    + rewrite Hf3. apply py_int_finite.
Qed.

(** [int(td.total_seconds() * 1000)] for a timedelta below [2^62]
    microseconds in magnitude: the product is finite and has the sign of
    the timedelta. *)
Lemma delay_float_total (td : Z) :
  - 2 ^ 62 < td < 2 ^ 62 ->
  exists z, py_int (times_1000 (total_seconds td)) = Return z /\
            (0 <= td -> 0 <= z) /\ (td <= 0 -> z <= 0).
Proof.
  intros Htd. unfold total_seconds. destruct td as [|p|p].
  - exists 0. repeat split; lia.
  - destruct (delay_float_signed false p) as (a & Ha & E); [lia|].
    exists a. change (SFofZ (Zpos p)) with (S754_finite false p 0).
    rewrite E. repeat split; lia.
  - destruct (delay_float_signed true p) as (a & Ha & E); [lia|].
    exists (- a). change (SFofZ (Zneg p)) with (S754_finite true p 0).
    rewrite E. repeat split; lia.
Qed.

End FloatFacts.

(* ------------------------------------------------------------------ *)
(** * The delay of a block time that parses *)

Section DelayDefined.

Variable fromisoformat : string -> pyresult datetime.
Variable render : pyval -> string.

Local Abbreviation parse_normalized := (Checker.parse_normalized fromisoformat).
Local Abbreviation _parse_block_time := (Checker._parse_block_time fromisoformat).
Local Abbreviation _calc_block_delay_ms := (Checker._calc_block_delay_ms fromisoformat).
Local Abbreviation judge := (Checker.judge fromisoformat render).
Local Abbreviation check_api_endpoint := (Checker.check_api_endpoint fromisoformat render).
Local Abbreviation check_rpc_endpoint := (Checker.check_rpc_endpoint fromisoformat render).

Lemma max_wall_bound : MAX_WALL < 2 ^ 62.
Proof. reflexivity. Qed.

Lemma parse_text_nonempty (ts : string) (dt : datetime) :
  ts <> "" -> parse_normalized (Checker.normalize_ts ts) = Some dt ->
  _parse_block_time (PStr ts) = Return (Some dt).
Proof.
  intros Hne H. unfold Checker._parse_block_time.
  destruct ts as [|c t]; [now destruct Hne|]. cbn [truthy negb]. now rewrite H.
Qed.

Lemma calc_delay_in_range (now_utc : Z) (ts : string) (dt : datetime) :
  - 2 ^ 62 < now_utc - instant dt < 2 ^ 62 ->
  _parse_block_time (PStr ts) = Return (Some dt) ->
  exists d, _calc_block_delay_ms now_utc (PStr ts) = Return (Some d) /\ 0 <= d /\
            (now_utc <= instant dt -> d = 0).
Proof.
  intros Hr Hp.
  destruct (block_delay_ms_shape fromisoformat now_utc) as (_ & _ & _ & H & _).
  rewrite (H ts dt Hp).
  destruct (delay_float_total (now_utc - instant dt) Hr) as (z & -> & Hpos & Hneg).
  cbn [bind]. exists (Z.max 0 z). split; [reflexivity|]. split; lia.
Qed.

Lemma judge_in_range (now_utc st : Z) (expected : option string)
  (chain_id height : pyval) (ts : string) (dt : datetime) :
  - 2 ^ 62 < now_utc - instant dt < 2 ^ 62 ->
  _parse_block_time (PStr ts) = Return (Some dt) ->
  Checker.chain_id_mismatch expected chain_id = false ->
  exists d, judge now_utc st expected chain_id height (PStr ts)
            = Return (true, Some st, Some d, height, None) /\ 0 <= d.
Proof.
  intros Hr Hp Hm. destruct (calc_delay_in_range now_utc ts dt Hr Hp) as (d & E & Hd & _).
  exists d. split; [|exact Hd]. unfold Checker.judge. now rewrite Hm, E.
Qed.

(** X10: once a block time has parsed, the delay is defined: the conversion of
    the difference to seconds, the multiplication by 1000 and the
    truncation to an integer stay finite for every pair of datetimes
    between [datetime.min] and [datetime.max], so [_calc_block_delay_ms]
    returns an integer and does not raise; the integer is not negative,
    and it is 0 when the block time is not in the past. *)
Theorem delay_defined_for_parsed_time (now_utc : Z) (ts : string) (dt : datetime) :
  0 <= now_utc <= MAX_WALL ->
  0 <= instant dt <= MAX_WALL ->
  _parse_block_time (PStr ts) = Return (Some dt) ->
  exists d, _calc_block_delay_ms now_utc (PStr ts) = Return (Some d) /\ 0 <= d /\
            (now_utc <= instant dt -> d = 0).
Proof.
  intros Hn Hd Hp. pose proof max_wall_bound.
  apply (calc_delay_in_range now_utc ts dt); [lia | exact Hp].
Qed.

(** X12: a node that answers the first request of a probe with a 2xx status and
    a body from which the probe reads a chain id that is no mismatch and
    a block time that parses is reported available, with the status, the
    height as read and a delay that is not negative: no later step of the
    probe raises. *)
Theorem healthy_node_is_available (w : world) (base_url : string)
  (expected : option string) (st : Z) (data chain_id height : pyval)
  (ts : string) (dt : datetime) :
  Checker.non_2xx st = false ->
  Checker.chain_id_mismatch expected chain_id = false ->
  ts <> "" ->
  parse_normalized (Checker.normalize_ts ts) = Some dt ->
  0 <= instant dt <= MAX_WALL ->
  (forall url, 0 <= utc_now w url <= MAX_WALL) ->
  (httpx_get w (rstrip "/" base_url ++ "/status") = HttpResponse st (Return data) ->
   Checker.rpc_fields data = Return (chain_id, height, PStr ts) ->
   exists d, check_rpc_endpoint w base_url expected
             = (true, Some st, Some d, height, None) /\ 0 <= d) /\
  (httpx_get w (rstrip "/" base_url ++ Checker.PATH_NEW)
   = HttpResponse st (Return data) ->
   Checker.rest_fields data = Return (chain_id, height, PStr ts) ->
   exists d, check_api_endpoint w base_url expected
             = (true, Some st, Some d, height, None) /\ 0 <= d).
Proof.
  intros Hst Hm Hne Hp Hdt Hnow. pose proof max_wall_bound as Hmax.
  apply (parse_text_nonempty ts dt Hne) in Hp.
  split; intros Hget Hf.
  - set (url := rstrip "/" base_url ++ "/status") in *.
    destruct (judge_in_range (utc_now w url) st expected chain_id height ts dt)
      as (d & E & Hd); [specialize (Hnow url); lia | exact Hp | exact Hm |].
    exists d. split; [|exact Hd].
    unfold Checker.check_rpc_endpoint, Checker.rpc_try, Checker.get_response.
    fold url. rewrite Hget. cbn [bind]. rewrite Hst, Hf. cbn [bind].
    rewrite E. reflexivity.
  - set (url := rstrip "/" base_url ++ Checker.PATH_NEW) in *.
    destruct (judge_in_range (utc_now w url) st expected chain_id height ts dt)
      as (d & E & Hd); [specialize (Hnow url); lia | exact Hp | exact Hm |].
    exists d. split; [|exact Hd].
    unfold Checker.check_api_endpoint, Checker._check_rest_block_latest, Checker.get_response.
    fold url. rewrite Hget. cbn [bind]. rewrite Hst, Hf. cbn [bind].
    rewrite E. reflexivity.
Qed.

End DelayDefined.

(* ------------------------------------------------------------------ *)
(** * The chain id mismatch *)

Section ChainIdMismatch.

Variable fromisoformat : string -> pyresult datetime.
Variable render : pyval -> string.

Local Abbreviation parse_normalized := (Checker.parse_normalized fromisoformat).
Local Abbreviation _parse_block_time := (Checker._parse_block_time fromisoformat).
Local Abbreviation _calc_block_delay_ms := (Checker._calc_block_delay_ms fromisoformat).
Local Abbreviation judge := (Checker.judge fromisoformat render).
Local Abbreviation _check_rest_block_latest :=
  (Checker._check_rest_block_latest fromisoformat render).
Local Abbreviation check_api_endpoint := (Checker.check_api_endpoint fromisoformat render).
Local Abbreviation check_rpc_endpoint := (Checker.check_rpc_endpoint fromisoformat render).









End ChainIdMismatch.



(* ------------------------------------------------------------------ *)
(** * The float arithmetic of the delay is off by less than a millisecond *)

Section FloatAccuracy.

Local Open Scope Z_scope.

Local Abbreviation D := Zdigits2.

Lemma digits_lower (m k : Z) : 0 <= k -> 2 ^ k <= m -> k + 1 <= D m.
Proof.
  intros Hk Hm. assert (H0 : 0 < 2 ^ k) by (apply Z.pow_pos_nonneg; lia).
  pose proof (digits_lt_pow m ltac:(lia)) as Hlt.
  pose proof (digits_nonneg m) as Hd.
  destruct (Z_lt_le_dec k (D m)) as [|Hle]; [lia|]. exfalso.
  assert (2 ^ D m <= 2 ^ k) by (apply Z.pow_le_mono_r; lia). lia.
Qed.

Lemma digits_ge_pow (m : Z) : 0 < m -> 2 ^ (D m - 1) <= m.
Proof.
  intros Hm. destruct m as [|p|p]; try lia. apply digits_pos_bounds.
Qed.

Lemma digits_exact (m k : Z) : 0 < k -> 2 ^ (k - 1) <= m < 2 ^ k -> D m = k.
Proof.
  intros Hk [Hlo Hhi].
  assert (0 < 2 ^ (k - 1)) by (apply Z.pow_pos_nonneg; lia).
  pose proof (digits_upper m k ltac:(lia) ltac:(lia)).
  pose proof (digits_lower m (k - 1) ltac:(lia) Hlo). lia.
Qed.

Lemma iter_shr_1_value (p : positive) :
  forall mrs, 0 <= shr_m mrs ->
    shr_m (iter_pos shr_1 p mrs) = shr_m mrs / 2 ^ Zpos p.
Proof.
  assert (Hone : forall mrs, 0 <= shr_m mrs ->
             shr_m (shr_1 mrs) = shr_m mrs / 2).
  { intros mrs H. rewrite shr_1_m by exact H. apply Z.div2_div. }
  induction p as [p IH|p IH|]; intros mrs H; cbn [iter_pos].
  - assert (H1 : 0 <= shr_m (shr_1 mrs))
      by (rewrite shr_1_m by exact H; now apply div2_nonneg).
    destruct (iter_shr_1 p _ H1) as [H2 _].
    rewrite (IH _ H2), (IH _ H1), (Hone _ H).
    assert (Hp : 0 < 2 ^ Zpos p) by (apply Z.pow_pos_nonneg; lia).
    rewrite !Z.div_div by lia. f_equal.
    rewrite Pos2Z.inj_xI.
    replace (2 * Zpos p + 1) with (1 + Zpos p + Zpos p) by lia.
    rewrite !Z.pow_add_r by lia. change (2 ^ 1) with 2. lia.
  - destruct (iter_shr_1 p _ H) as [H2 _].
    rewrite (IH _ H2), (IH _ H).
    assert (Hp : 0 < 2 ^ Zpos p) by (apply Z.pow_pos_nonneg; lia).
    rewrite Z.div_div by lia. f_equal.
    replace (Zpos p~0) with (Zpos p + Zpos p) by lia.
    now rewrite Z.pow_add_r by lia.
  - rewrite (Hone _ H). reflexivity.
Qed.

(** What a shift to the exponent floor leaves of the mantissa. *)
Lemma shr_fexp_value (m e : Z) (l : location) :
  0 <= m ->
  let '(mrs, e') := shr_fexp 53 1024 m e l in
  e' = Z.max e (fexp 53 1024 (D m + e)) /\ shr_m mrs = m / 2 ^ (e' - e).
Proof.
  intros Hm. unfold shr_fexp, shr.
  assert (Hrec : shr_m (shr_record_of_loc m l) = m)
    by (destruct l as [|[]]; reflexivity).
  destruct (fexp 53 1024 (D m + e) - e) as [|p|p] eqn:En.
  - rewrite Hrec. split; [lia|]. replace (e - e) with 0 by lia. now rewrite Z.div_1_r.
  - rewrite iter_shr_1_value by (rewrite Hrec; exact Hm). rewrite Hrec.
    split; [lia|]. f_equal. f_equal. lia.
  - rewrite Hrec. split; [lia|]. replace (e - e) with 0 by lia. now rewrite Z.div_1_r.
Qed.

Lemma round_nearest_even_near (m : Z) (l : location) :
  m <= round_nearest_even m l <= m + 1.
Proof.
  unfold round_nearest_even. destruct l as [|[]]; try (destruct (Z.even m)); lia.
Qed.

(** Rounding a mantissa of at least 53 bits in the normal range: the
    result is a normal float one of whose two neighbours in its own
    spacing is the value rounded. *)
Lemma binary_round_aux_normal (s : bool) (m e : Z) (l : location) :
  0 <= m -> 53 <= D m -> -1074 <= D m + e - 53 -> D m + e <= 1022 ->
  exists r E,
    binary_round_aux 53 1024 s m e l = S754_finite s r E /\
    2 ^ 52 <= Zpos r < 2 ^ 53 /\
    D m + e - 53 <= E <= D m + e - 52 /\
    (Zpos r - 1) * 2 ^ (E - e) <= m < (Zpos r + 1) * 2 ^ (E - e).
Proof.
  intros Hm Hd Hlo Hhi. unfold binary_round_aux.
  pose proof (shr_fexp_value m e l Hm) as H1.
  destruct (shr_fexp 53 1024 m e l) as [mrs' e']. destruct H1 as [E1 V1].
  assert (Ee' : e' = D m + e - 53) by (unfold fexp, emin in E1; lia).
  clear E1.
  assert (HK : 0 < 2 ^ (e' - e)) by (apply Z.pow_pos_nonneg; lia).
  assert (Hmpos : 0 < m).
  { destruct (Z.eq_dec m 0) as [->|]; [cbn in Hd; lia | lia]. }
  pose proof (digits_ge_pow m Hmpos) as Hml.
  pose proof (digits_lt_pow m Hm) as Hmu.
  replace (D m - 1) with (52 + (e' - e)) in Hml by lia.
  replace (D m) with (53 + (e' - e)) in Hmu by lia.
  rewrite Z.pow_add_r in Hml, Hmu by lia.
  set (K := 2 ^ (e' - e)) in *.
  set (m' := shr_m mrs') in *.
  assert (Hm'1 : K * m' <= m) by (rewrite V1; apply Z.mul_div_le; lia).
  assert (Hm'2 : m < K * (m' + 1))
    by (rewrite V1; apply (Z.mul_succ_div_gt m K); lia).
  assert (Hm'lo : 2 ^ 52 <= m') by (rewrite V1; apply Z.div_le_lower_bound; lia).
  assert (Hm'hi : m' < 2 ^ 53) by (rewrite V1; apply Z.div_lt_upper_bound; lia).
  pose proof (round_nearest_even_near m' (loc_of_shr_record mrs')) as HM.
  set (M := round_nearest_even m' (loc_of_shr_record mrs')) in *.
  pose proof (shr_fexp_value M e' loc_Exact ltac:(lia)) as H2.
  destruct (shr_fexp 53 1024 M e' loc_Exact) as [mrs'' e'']. destruct H2 as [E2 V2].
  destruct (Z_lt_le_dec M (2 ^ 53)) as [Hlt|Hge].
  - assert (HD : D M = 53) by (apply digits_exact; [lia | split; [lia | exact Hlt]]).
    rewrite HD in E2. unfold fexp, emin in E2.
    assert (Ee'' : e'' = e') by lia.
    clear E2. subst e''. replace (e' - e') with 0 in V2 by lia.
    rewrite Z.div_1_r in V2. rewrite V2.
    destruct M as [|r|r] eqn:EM; try lia.
    exists r, e'. assert (Hle : (e' <=? 1024 - 53) = true) by (apply Z.leb_le; lia).
    rewrite Hle. split; [reflexivity|]. split; [lia|]. split; [lia|].
    fold K. nia.
  - assert (HM53 : M = 2 ^ 53) by lia.
    assert (HD : D M = 54) by (rewrite HM53; reflexivity).
    rewrite HD in E2. unfold fexp, emin in E2.
    assert (Ee'' : e'' = e' + 1) by lia.
    clear E2. subst e''. replace (e' + 1 - e') with 1 in V2 by lia.
    rewrite HM53 in V2. change (2 ^ 53 / 2 ^ 1) with (2 ^ 52) in V2. rewrite V2.
    change (2 ^ 52) with (Zpos (2 ^ 52)).
    exists (2 ^ 52)%positive, (e' + 1).
    assert (Hle : (e' + 1 <=? 1024 - 53) = true) by (apply Z.leb_le; lia).
    rewrite Hle. split; [reflexivity|]. split; [lia|]. split; [lia|].
    replace (e' + 1 - e) with (1 + (e' - e)) by lia.
    rewrite Z.pow_add_r by lia. fold K. change (2 ^ 1) with 2.
    change (Zpos (2 ^ 52)) with (2 ^ 52). nia.
Qed.

(** The quotient that the division by [10**6] rounds. *)
Lemma div_core_value (p : positive) :
  D (Zpos p) <= 72 ->
  let '(q, e', l) := SFdiv_core_binary 53 1024 (Zpos p) 0 (Zpos 1000000) 0 in
  e' = D (Zpos p) - 73 /\
  q * 1000000 <= Zpos p * 2 ^ (73 - D (Zpos p)) < (q + 1) * 1000000.
Proof.
  intros Hd. unfold SFdiv_core_binary.
  change (D (Zpos 1000000)) with 20.
  pose proof (digits_lower (Zpos p) 0 ltac:(lia) ltac:(change (2 ^ 0) with 1; lia)) as Hd1.
  set (e' := Z.min (fexp 53 1024 (D (Zpos p) + 0 - (20 + 0))) (0 - 0)).
  assert (He' : e' = D (Zpos p) - 73) by (unfold e', fexp, emin; lia).
  set (m' := match 0 - 0 - e' with
             | Z0 => Zpos p
             | Zpos _ => Z.shiftl (Zpos p) (0 - 0 - e')
             | Zneg _ => 0
             end).
  assert (Hm' : m' = Zpos p * 2 ^ (73 - D (Zpos p))).
  { unfold m'. destruct (0 - 0 - e') as [|k|k] eqn:Es; try lia.
    rewrite Z.shiftl_mul_pow2 by lia. f_equal. f_equal. lia. }
  pose proof (Z_div_mod m' (Zpos 1000000) eq_refl) as Hdm.
  destruct (Z.div_eucl m' (Zpos 1000000)) as [q r]. destruct Hdm as [Eq Hr].
  split; [exact He'|]. rewrite <- Hm'. lia.
Qed.

(** [int(td.total_seconds() * 1000)] for a positive timedelta below
    [2^48] microseconds: the floor of the milliseconds, or one less. *)
Lemma delay_float_accurate (p : positive) :
  Zpos p < 2 ^ 48 ->
  exists z,
    py_int (times_1000 (total_seconds (Zpos p))) = Return z /\
    Zpos p / 1000 - 1 <= z <= Zpos p / 1000 /\
    (Zpos p mod 1000 <> 0 -> z = Zpos p / 1000).
Proof.
  intros Hp. unfold total_seconds, times_1000. cbn [SFofZ SFdiv].
  set (d := D (Zpos p)).
  assert (Hd1 : 1 <= d)
    by (apply (digits_lower (Zpos p) 0); [lia | change (2 ^ 0) with 1; lia]).
  assert (Hd48 : d <= 48) by (apply digits_upper; lia).
  pose proof (digits_ge_pow (Zpos p) ltac:(lia)) as Hpl.
  pose proof (digits_lt_pow (Zpos p) ltac:(lia)) as Hpu.
  fold d in Hpl, Hpu.
  pose proof (div_core_value p ltac:(fold d; lia)) as Hcore. fold d in Hcore.
  destruct (SFdiv_core_binary 53 1024 (Zpos p) 0 (Zpos 1000000) 0) as [[q e1] l].
  destruct Hcore as (He1 & Hq).
  (* the scaled dividend lies between 2^72 and 2^73 *)
  assert (HS : 0 < 2 ^ (73 - d)) by (apply Z.pow_pos_nonneg; lia).
  assert (HP2 : 2 ^ 72 <= Zpos p * 2 ^ (73 - d) < 2 ^ 73).
  { assert (E72 : 2 ^ 72 = 2 ^ (d - 1) * 2 ^ (73 - d))
      by (rewrite <- Z.pow_add_r by lia; f_equal; lia).
    assert (E73 : 2 ^ 73 = 2 ^ d * 2 ^ (73 - d))
      by (rewrite <- Z.pow_add_r by lia; f_equal; lia).
    rewrite E72, E73. split.
    - apply Z.mul_le_mono_nonneg_r; lia.
    - apply Z.mul_lt_mono_pos_r; lia. }
  assert (Hq52 : 2 ^ 52 <= q < 2 ^ 54) by lia.
  assert (HDq : 53 <= D q <= 54).
  { split; [apply (digits_lower q 52); lia | apply digits_upper; lia]. }
  destruct (binary_round_aux_normal (xorb false false) q e1 l)
    as (r1 & E1 & -> & Hr1 & HE1 & Hf1); try lia.
  cbn [SFmul xorb].
  assert (Hm2 : 2 ^ 61 <= Zpos (r1 * 1000) < 2 ^ 63) by (rewrite Pos2Z.inj_mul; lia).
  assert (HDm2 : 62 <= D (Zpos (r1 * 1000)) <= 63).
  { split; [apply (digits_lower _ 61); lia | apply digits_upper; lia]. }
  destruct (binary_round_aux_normal false (Zpos (r1 * 1000)) (E1 + 0) loc_Exact)
    as (r2 & E2 & -> & Hr2 & HE2 & Hf2); try lia.
  rewrite Pos2Z.inj_mul in Hf2.
  (* the exponents *)
  set (u1 := E1 - e1) in *. set (u2 := E2 - (E1 + 0)) in *.
  assert (Hu1 : 0 <= u1 <= 2) by (unfold u1; lia).
  assert (Hu2 : 9 <= u2 <= 11) by (unfold u2; lia).
  assert (HE2neg : E2 = - (73 - d - u1 - u2)) by (unfold u1, u2; lia).
  set (t := 73 - d - u1 - u2) in *.
  assert (Ht : 12 <= t) by (unfold t; lia).
  set (T := 2 ^ t).
  assert (HT : 2 ^ 12 <= T) by (apply Z.pow_le_mono_r; lia).
  assert (Hz : py_int (S754_finite false r2 E2) = Return (Zpos r2 / T)).
  { rewrite HE2neg. destruct t as [|k|k] eqn:Et; try lia.
    cbn [py_int Z.opp]. rewrite Z.shiftr_div_pow2 by lia. reflexivity. }
  rewrite Hz. exists (Zpos r2 / T). split; [reflexivity|].
  (* the dividend in units of [T] *)
  assert (HST : 2 ^ (73 - d) = 2 ^ u1 * 2 ^ u2 * T).
  { unfold T. rewrite <- !Z.pow_add_r by lia. f_equal. unfold t. lia. }
  rewrite HST in Hq.
  pose proof (Z.div_mod (Zpos p) 1000 ltac:(lia)) as Hdiv.
  pose proof (Z.mod_pos_bound (Zpos p) 1000 ltac:(lia)) as Hmod.
  set (v := Zpos p / 1000) in *. set (rho := Zpos p mod 1000) in *.
  assert (HPT : Zpos p * T = 1000 * (v * T) + rho * T) by (rewrite Hdiv at 1; ring).
  assert (HTpos : 0 < T) by lia.
  assert (HRT : 0 <= rho * T <= 999 * T)
    by (split; [apply Z.mul_nonneg_nonneg; lia | apply Z.mul_le_mono_nonneg_r; lia]).
  assert (HRT1 : rho <> 0 -> T <= rho * T).
  { intros Hne. replace T with (1 * T) at 1 by lia.
    apply Z.mul_le_mono_nonneg_r; lia. }
  assert (Hmain : v * T - T <= Zpos r2 < v * T + T /\
                  (rho <> 0 -> v * T <= Zpos r2)).
  { assert (Hc1 : u1 = 0 \/ u1 = 1 \/ u1 = 2) by lia.
    assert (Hc2 : u2 = 9 \/ u2 = 10 \/ u2 = 11) by lia.
    set (PT := Zpos p * T) in *. set (VT := v * T) in *. set (RT := rho * T) in *.
    assert (Hq' : forall c, 2 ^ u1 * 2 ^ u2 = c ->
                            q * 1000000 <= c * PT < (q + 1) * 1000000).
    { intros c <-. unfold PT.
      replace (2 ^ u1 * 2 ^ u2 * (Zpos p * T)) with (Zpos p * (2 ^ u1 * 2 ^ u2 * T))
        by ring.
      exact Hq. }
    clear Hq HST.
    destruct Hc1 as [E|[E|E]]; rewrite E in Hf1, Hq';
      destruct Hc2 as [E'|[E'|E']]; rewrite E' in Hf2, Hq';
      specialize (Hq' _ eq_refl);
      match type of Hf1 with context [2 ^ ?n] =>
        let c := eval cbv in (2 ^ n) in change (2 ^ n) with c in Hf1 end;
      match type of Hf2 with context [2 ^ ?n] =>
        let c := eval cbv in (2 ^ n) in change (2 ^ n) with c in Hf2 end;
      change (2 ^ 12) with 4096 in HT;
      (split; [lia | intros Hne; specialize (HRT1 Hne); lia]). }
  destruct Hmain as [[Hlo Hhi] Hex].
  assert (Hup : Zpos r2 / T < v + 1).
  { apply Z.div_lt_upper_bound; [exact HTpos|].
    replace (T * (v + 1)) with (v * T + T) by ring. exact Hhi. }
  split; [split|].
  - apply Z.div_le_lower_bound; [exact HTpos|].
    replace (T * (v - 1)) with (v * T - T) by ring. exact Hlo.
  - lia.
  - intros Hne. specialize (Hex Hne).
    assert (v <= Zpos r2 / T); [|lia].
    apply Z.div_le_lower_bound; [exact HTpos|].
    replace (T * v) with (v * T) by ring. exact Hex.
Qed.

End FloatAccuracy.

Section DelayAccuracy.

Variable fromisoformat : string -> pyresult datetime.

Local Abbreviation _parse_block_time := (Checker._parse_block_time fromisoformat).
Local Abbreviation _calc_block_delay_ms := (Checker._calc_block_delay_ms fromisoformat).

(** X11: how far the delay is from the exact one.  For a block time that
    parsed and lies up to [2^48] microseconds (almost nine years) in the
    past, [_calc_block_delay_ms] returns the whole milliseconds of the
    difference, [(now_utc - dt) // 1 ms], or one millisecond less; it can
    return one less only when the difference is a whole number of
    milliseconds. *)
Theorem delay_within_one_millisecond (now_utc : Z) (ts : string) (dt : datetime) :
  _parse_block_time (PStr ts) = Return (Some dt) ->
  0 <= now_utc - instant dt < 2 ^ 48 ->
  exists d,
    _calc_block_delay_ms now_utc (PStr ts) = Return (Some d) /\
    0 <= d /\
    (now_utc - instant dt) / 1000 - 1 <= d <= (now_utc - instant dt) / 1000 /\
    ((now_utc - instant dt) mod 1000 <> 0 -> d = (now_utc - instant dt) / 1000).
Proof.
  intros Hp Htd.
  destruct (block_delay_ms_shape fromisoformat now_utc) as (_ & _ & _ & H & _).
  rewrite (H ts dt Hp). clear H.
  destruct (now_utc - instant dt) as [|p|p] eqn:E; [| |lia].
  - exists 0. split; [reflexivity|]. cbn. repeat split; lia.
  - destruct (delay_float_accurate p (proj2 Htd)) as (z & -> & Hz & Hex).
    cbn [bind].
    pose proof (Z.div_mod (Zpos p) 1000 ltac:(lia)) as Hdiv.
    pose proof (Z.mod_pos_bound (Zpos p) 1000 ltac:(lia)) as Hmod.
    assert (Hv : 0 <= Zpos p / 1000) by (apply Z.div_pos; lia).
    assert (Hz0 : 0 <= z).
    { destruct (Z.eq_dec (Zpos p mod 1000) 0) as [E0|Hne].
      - assert (1 <= Zpos p / 1000) by lia. lia.
      - rewrite (Hex Hne). exact Hv. }
    exists (Z.max 0 z). split; [reflexivity|].
    rewrite Z.max_r by exact Hz0. split; [exact Hz0|]. split; [exact Hz | exact Hex].
Qed.

End DelayAccuracy.

(* ------------------------------------------------------------------ *)
(** * Further properties of [worker/runner.py] *)

Local Open Scope list_scope.

Section RunnerMore.

Variable fromisoformat : string -> pyresult datetime.
Variable render : pyval -> string.

Local Abbreviation probe := (Runner.probe fromisoformat render).
Local Abbreviation row_check := (Runner.row_check fromisoformat render).
Local Abbreviation process_row := (Runner.process_row fromisoformat render).
Local Abbreviation for_rows := (Runner.for_rows fromisoformat render).
Local Abbreviation main_loop_iteration :=
  (Runner.main_loop_iteration fromisoformat render).
Local Abbreviation main_loop := (Runner.main_loop fromisoformat render).

Lemma In_firstn {A : Type} (n : nat) (l : list A) (x : A) :
  In x (firstn n l) -> In x l.
Proof.
  intros H. rewrite <- (firstn_skipn n l). apply in_or_app. now left.
Qed.

Lemma select_rows_sound (BATCH_LIMIT : nat) (db : database)
  (ep : Endpoint) (net : Network) :
  In (ep, net) (select_rows BATCH_LIMIT db) ->
  In ep (endpoints db) /\ ep_enabled ep = true /\
  In net (networks db) /\ ep_network_id ep = net_id net.
Proof.
  unfold select_rows. intros H. apply In_firstn in H.
  apply in_flat_map in H as (ep' & Hep & H).
  apply in_map_iff in H as (net' & [= -> ->] & Hnet).
  apply filter_In in Hep as [Hep He]. apply filter_In in Hnet as [Hnet Hj].
  apply Z.eqb_eq in Hj. auto.
Qed.

Lemma for_rows_tables (env : batch_env) (rows : list (Endpoint * Network)) :
  forall db db' : database,
    for_rows env rows db = Return db' ->
    endpoints db' = endpoints db /\ networks db' = networks db /\
    (forall id, (List.length (rows_for id (statuses db))
                 <= List.length (rows_for id (statuses db')))%nat) /\
    (forall id, ~ In id (map (fun r => ep_id (fst r)) rows) ->
                rows_for id (statuses db') = rows_for id (statuses db)).
Proof.
  induction rows as [|[ep net] rows IH]; intros db db' Hrun.
  - injection Hrun as <-. auto.
  - cbn [Runner.for_rows] in Hrun.
    destruct (process_row env db (ep, net)) as [db1|e] eqn:Hrow; [|discriminate].
    cbn [bind] in Hrun. destruct (process_row_spec _ _ _ _ _ _ _ Hrow) as [_ ->].
    destruct (IH _ _ Hrun) as (I1 & I2 & I3 & I4).
    cbn [endpoints networks statuses] in *.
    set (new := status_of_check (row_check env (ep, net))) in *.
    assert (Hid : st_endpoint_id new = ep_id ep) by apply row_check_id.
    repeat split; auto.
    + intros id. etransitivity; [|apply I3].
      destruct (Z.eq_dec id (st_endpoint_id new)) as [->|Hne].
      * unfold upsert. destruct (find _ (statuses db)) as [s|] eqn:E.
        -- destruct (assign_first_same new _ s E) as (rest & -> & ->). reflexivity.
        -- rewrite rows_for_app, List.length_app. lia.
      * now rewrite upsert_other.
    + intros id Hn. cbn [map fst In] in Hn.
      rewrite I4 by tauto. apply upsert_other. rewrite Hid. intros ->. tauto.
Qed.

(** What one turn of the loop does to the tables, whether the batch was
    committed or rolled back. *)
Lemma iteration_tables (env : batch_env) (BATCH_LIMIT : nat) (store : database) :
  let store' := main_loop_iteration env BATCH_LIMIT store in
  let rows := select_rows BATCH_LIMIT store in
  endpoints store' = endpoints store /\ networks store' = networks store /\
  (checks store' = checks store
   \/ checks store' = checks store ++ map (row_check env) rows) /\
  (forall id, (List.length (rows_for id (statuses store))
               <= List.length (rows_for id (statuses store')))%nat) /\
  (forall id, ~ In id (map (fun r => ep_id (fst r)) rows) ->
              rows_for id (statuses store') = rows_for id (statuses store)).
Proof.
  intros store' rows. subst store' rows. unfold Runner.main_loop_iteration.
  rewrite process_batch_spec.
  destruct (for_rows env (select_rows BATCH_LIMIT store) store) as [p|e] eqn:Hrun;
    cbn [bind try_except committed rollback SessionLocal].
  - destruct (for_rows_tables env _ _ _ Hrun) as (H1 & H2 & H3 & H4).
    destruct (for_rows_writes _ _ env _ _ _ Hrun) as [H5 _]. auto 6.
  - repeat split; auto.
Qed.

(** X13: the check table is a history: whatever the turns of the loop do, the
    checks that were there stay, in place and unchanged, and new ones come
    after them; the endpoint and network tables are never modified, and no
    status row is ever removed. *)
Theorem check_history_append_only (envs : list batch_env) (BATCH_LIMIT : nat)
  (store : database) :
  let store' := main_loop envs BATCH_LIMIT store in
  endpoints store' = endpoints store /\
  networks store' = networks store /\
  (exists added, checks store' = checks store ++ added) /\
  (forall id, (List.length (rows_for id (statuses store))
               <= List.length (rows_for id (statuses store')))%nat).
Proof.
  revert store. induction envs as [|env envs IH]; intros store; cbn [Runner.main_loop].
  - repeat split; auto. exists []. now rewrite app_nil_r.
  - destruct (iteration_tables env BATCH_LIMIT store) as (H1 & H2 & H3 & H4 & _).
    destruct (IH (main_loop_iteration env BATCH_LIMIT store)) as (I1 & I2 & [a I3] & I4).
    split; [congruence|]. split; [congruence|]. split.
    + destruct H3 as [H3|H3]; rewrite I3, H3; [eauto|].
      rewrite <- app_assoc. eauto.
    + intros id. etransitivity; [apply H4 | apply I4].
Qed.

(** X14: one turn of the loop appends at most [BATCH_LIMIT] checks, each for an
    enabled endpoint that has its network in the store; it leaves the
    status rows of all other endpoints as they were. *)
Theorem batch_is_bounded_and_enabled_only (env : batch_env) (BATCH_LIMIT : nat)
  (store : database) :
  let store' := main_loop_iteration env BATCH_LIMIT store in
  exists added,
    checks store' = checks store ++ added /\
    (List.length added <= BATCH_LIMIT)%nat /\
    (forall c, In c added ->
       exists ep net,
         In ep (endpoints store) /\ ep_enabled ep = true /\
         In net (networks store) /\ ep_network_id ep = net_id net /\
         endpoint_id c = ep_id ep) /\
    (forall id, (forall ep, In ep (endpoints store) -> ep_enabled ep = true ->
                            ep_id ep <> id) ->
                rows_for id (statuses store') = rows_for id (statuses store)).
Proof.
  intros store'. subst store'.
  destruct (iteration_tables env BATCH_LIMIT store) as (_ & _ & H3 & _ & H5).
  assert (Hother : forall id,
             (forall ep, In ep (endpoints store) -> ep_enabled ep = true ->
                         ep_id ep <> id) ->
             ~ In id (map (fun r => ep_id (fst r)) (select_rows BATCH_LIMIT store))).
  { intros id Hid Hin. apply in_map_iff in Hin as ([ep net] & <- & Hin).
    destruct (select_rows_sound _ _ _ _ Hin) as (He & Hen & _).
    now apply (Hid ep). }
  destruct H3 as [H3|H3].
  - exists []. rewrite app_nil_r. repeat split; auto; [cbn; lia | intros c []].
  - exists (map (row_check env) (select_rows BATCH_LIMIT store)).
    repeat split; auto.
    + rewrite List.length_map. unfold select_rows. apply firstn_le_length.
    + intros c Hc. apply in_map_iff in Hc as ([ep net] & <- & Hin).
      destruct (select_rows_sound _ _ _ _ Hin) as (He & Hen & Hn & Hj).
      exists ep, net. repeat split; auto. apply row_check_id.
Qed.

Lemma view_one_status (db : database) :
  status_view db -> one_status_per_endpoint (statuses db).
Proof.
  intros H id. rewrite (H id). destruct (last_check id (checks db)); cbn; lia.
Qed.

Lemma process_row_view (env : batch_env) (db db' : database)
  (ep : Endpoint) (net : Network) :
  process_row env db (ep, net) = Return db' -> status_view db -> status_view db'.
Proof.
  intros Hrow Hv. destruct (process_row_spec _ _ _ _ _ _ _ Hrow) as [_ ->].
  set (c := row_check env (ep, net)).
  assert (Hid : endpoint_id c = ep_id ep) by apply row_check_id.
  intros id. cbn [checks statuses]. rewrite last_check_snoc.
  destruct (endpoint_id c =? id)%Z eqn:E.
  - apply Z.eqb_eq in E. subst id.
    change (endpoint_id c) with (st_endpoint_id (status_of_check c)).
    apply upsert_same. apply (view_one_status db Hv).
  - apply Z.eqb_neq in E. rewrite upsert_other; [apply Hv|].
    cbn [status_of_check st_endpoint_id]. congruence.
Qed.

Lemma for_rows_view (env : batch_env) (rows : list (Endpoint * Network)) :
  forall db db' : database,
    for_rows env rows db = Return db' -> status_view db -> status_view db'.
Proof.
  induction rows as [|[ep net] rows IH]; intros db db' Hrun Hv.
  - now injection Hrun as <-.
  - cbn [Runner.for_rows] in Hrun.
    destruct (process_row env db (ep, net)) as [db1|e] eqn:Hrow; [|discriminate].
    apply (IH _ _ Hrun). exact (process_row_view _ _ _ _ _ Hrow Hv).
Qed.

(** X15: the status table stays the view of the latest checks.  If it is that
    view before the loop runs (as it is when both tables are empty), it
    is after any number of turns, failed or not: each endpoint that has
    checks has exactly one status row, equal field by field to its last
    check, and an endpoint without checks has no status row. *)
Theorem status_is_view_of_latest_check (envs : list batch_env) (BATCH_LIMIT : nat)
  (store : database) :
  status_view store ->
  status_view (main_loop envs BATCH_LIMIT store).
Proof.
  revert store. induction envs as [|env envs IH]; intros store Hv;
    cbn [Runner.main_loop]; [exact Hv|].
  apply IH. unfold Runner.main_loop_iteration. rewrite process_batch_spec.
  destruct (for_rows env (select_rows BATCH_LIMIT store) store) as [p|e] eqn:Hrun;
    cbn [bind try_except committed rollback SessionLocal]; [|exact Hv].
  exact (for_rows_view _ _ _ _ Hrun Hv).
Qed.

(** X16: a check records a chain id mismatch only for an endpoint of type [rpc]
    or [api] whose network has a non-empty chain id, and the message names
    that chain id as the expected one. *)
Theorem recorded_mismatch_names_network (env : batch_env)
  (ep : Endpoint) (net : Network) (err : string) :
  error_message (row_check env (ep, net)) = Some err ->
  startswith "CHAIN_ID_MISMATCH" err = true ->
  net_chain_id net <> ""%string /\
  (ep_type ep = "rpc"%string \/ ep_type ep = "api"%string) /\
  exists y, err = ("CHAIN_ID_MISMATCH: expected=" ++ net_chain_id net
                   ++ ", got=" ++ y)%string.
Proof.
  unfold Runner.row_check.
  destruct (probe env ep (or_none (net_chain_id net)))
    as [[[[a s] d] h] e] eqn:Hp. cbn [error_message]. intros -> Hm.
  assert (Hx : exists expected,
             probed expected (a, s, d, h, Some err) /\
             (expected = or_none (net_chain_id net)
              /\ (ep_type ep = "rpc"%string \/ ep_type ep = "api"%string)
              \/ expected = None)).
  { unfold Runner.probe in Hp.
    destruct (ep_type ep =? "rpc")%string eqn:E1.
    - exists (or_none (net_chain_id net)). rewrite <- Hp. split; [apply rpc_probed|].
      left. split; [reflexivity|]. left. now apply String.eqb_eq.
    - destruct (ep_type ep =? "api")%string eqn:E2.
      + exists (or_none (net_chain_id net)). rewrite <- Hp. split; [apply api_probed|].
        left. split; [reflexivity|]. right. now apply String.eqb_eq.
      + exists None. rewrite <- Hp. split; [apply api_probed | now right]. }
  destruct Hx as (expected & Hpr & Hex).
  destruct (probed_mismatch expected _ err Hpr eq_refl Hm) as (x & y & -> & Hne & ->).
  destruct Hex as [[Hex Hty]|Hex]; [|discriminate].
  unfold or_none in Hex. destruct (net_chain_id net =? "")%string eqn:E;
    cbn [negb] in Hex; [discriminate|]. injection Hex as ->.
  split; [exact Hne|]. split; [exact Hty|]. now exists y.
Qed.

End RunnerMore.

(* ------------------------------------------------------------------ *)
(** * Properties of [api/routes.py] *)

Local Open Scope string_scope.

(** X17: the text of a delay never overstates it and understates it by less
    than one of the units it shows: milliseconds below a second (also for
    a negative value), whole seconds below a minute, minutes and seconds
    below an hour, hours and minutes from there on. *)
Theorem format_delay_units (ms : Z) :
  Api._format_delay None = "" /\
  (ms < 1000 -> Api._format_delay (Some ms) = str_of_int ms ++ " ms") /\
  (1000 <= ms < 60000 ->
   exists s, 1 <= s <= 59 /\ s * 1000 <= ms < (s + 1) * 1000 /\
             Api._format_delay (Some ms) = str_of_int s ++ " s") /\
  (60000 <= ms < 3600000 ->
   exists m s, 1 <= m <= 59 /\ 0 <= s <= 59 /\
               (m * 60 + s) * 1000 <= ms < (m * 60 + s + 1) * 1000 /\
               Api._format_delay (Some ms)
               = str_of_int m ++ "m " ++ str_of_int s ++ "s") /\
  (3600000 <= ms ->
   exists h m, 1 <= h /\ 0 <= m <= 59 /\
               (h * 60 + m) * 60000 <= ms < (h * 60 + m + 1) * 60000 /\
               Api._format_delay (Some ms)
               = str_of_int h ++ "h " ++ str_of_int m ++ "m").
Proof.
  split; [reflexivity|]. unfold Api._format_delay.
  pose proof (Z.div_mod ms 1000 ltac:(lia)) as E1.
  pose proof (Z.mod_pos_bound ms 1000 ltac:(lia)) as B1.
  set (sec := ms / 1000) in *.
  pose proof (Z.div_mod sec 60 ltac:(lia)) as E2.
  pose proof (Z.mod_pos_bound sec 60 ltac:(lia)) as B2.
  set (mi := sec / 60) in *.
  pose proof (Z.div_mod mi 60 ltac:(lia)) as E3.
  pose proof (Z.mod_pos_bound mi 60 ltac:(lia)) as B3.
  set (h := mi / 60) in *.
  repeat split.
  - intros H. apply Z.ltb_lt in H. now rewrite H.
  - intros H. assert (H1 : (ms <? 1000)%Z = false) by (apply Z.ltb_ge; lia).
    assert (H2 : (sec <? 60)%Z = true) by (apply Z.ltb_lt; lia).
    rewrite H1, H2. exists sec. repeat split; lia.
  - intros H. assert (H1 : (ms <? 1000)%Z = false) by (apply Z.ltb_ge; lia).
    assert (H2 : (sec <? 60)%Z = false) by (apply Z.ltb_ge; lia).
    assert (H3 : (mi <? 60)%Z = true) by (apply Z.ltb_lt; lia).
    rewrite H1, H2, H3. exists mi, (sec mod 60). repeat split; lia.
  - intros H. assert (H1 : (ms <? 1000)%Z = false) by (apply Z.ltb_ge; lia).
    assert (H2 : (sec <? 60)%Z = false) by (apply Z.ltb_ge; lia).
    assert (H3 : (mi <? 60)%Z = false) by (apply Z.ltb_ge; lia).
    rewrite H1, H2, H3. exists h, (mi mod 60). repeat split; lia.
Qed.

Section RoutesProperties.

Variable isoformat : datetime -> string.
Variable by_slug : list Api.Project -> list Api.Project.
Variable by_chain_id : list Api.Network -> list Api.Network.
Variable by_type_chain_id : list Api.Network -> list Api.Network.
Variable by_type_name : list Endpoint -> list Endpoint.

(** An ordering returns the rows it was given. *)
Hypothesis by_slug_perm : forall l, Permutation l (by_slug l).
Hypothesis by_chain_id_perm : forall l, Permutation l (by_chain_id l).
Hypothesis by_type_chain_id_perm : forall l, Permutation l (by_type_chain_id l).
Hypothesis by_type_name_perm : forall l, Permutation l (by_type_name l).

Local Abbreviation network_summary :=
  (Api.network_summary isoformat by_chain_id by_type_name).
Local Abbreviation endpoint_entry := (Api.endpoint_entry isoformat).
Local Abbreviation html_index_rows :=
  (Api.html_index_rows isoformat by_slug by_type_chain_id by_type_name).

Lemma networks_of_type_In (db : Api.tables) (p : Api.Project)
  (network_type : string) (n : Api.Network) :
  In n (Api.networks_of_type by_chain_id db p network_type)
  <-> matching db p network_type n.
Proof.
  unfold Api.networks_of_type, matching. split.
  - intros H. apply (Permutation_in _ (Permutation_sym (by_chain_id_perm _))) in H.
    apply filter_In in H as [Hin H]. apply andb_true_iff in H as [H1 H2].
    apply Z.eqb_eq in H1. apply String.eqb_eq in H2. auto.
  - intros (Hin & H1 & H2). apply (Permutation_in _ (by_chain_id_perm _)).
    apply filter_In. split; [exact Hin|].
    apply andb_true_iff. split; [now apply Z.eqb_eq | now apply String.eqb_eq].
Qed.

Lemma endpoints_of_In (db : Api.tables) (n : Api.Network) (e : Endpoint) :
  In e (Api.endpoints_of by_type_name db n)
  <-> In e (Api.endpoints db) /\ ep_network_id e = Api.n_id n.
Proof.
  unfold Api.endpoints_of. split.
  - intros H. apply (Permutation_in _ (Permutation_sym (by_type_name_perm _))) in H.
    apply filter_In in H as [Hin H]. apply Z.eqb_eq in H. auto.
  - intros [Hin H]. apply (Permutation_in _ (by_type_name_perm _)).
    apply filter_In. split; [exact Hin | now apply Z.eqb_eq].
Qed.

Lemma project_by_slug_none (db : Api.tables) (slug : string) :
  Api.project_by_slug db slug = None
  <-> forall p, In p (Api.projects db) -> Api.p_slug p <> slug.
Proof.
  unfold Api.project_by_slug. split.
  - intros H p Hin E. apply (find_none _ _ H) in Hin.
    apply String.eqb_neq in Hin. contradiction.
  - intros H. destruct (find _ (Api.projects db)) as [p|] eqn:E; [|reflexivity].
    apply find_some in E as [Hin E]. apply String.eqb_eq in E.
    now destruct (H p Hin).
Qed.

(** X18: [network_summary] answers 404 [Project not found] exactly when no
    project has the slug, 404 [No networks with this type] exactly when
    the project exists and has no network of the type, and otherwise
    returns one entry per network of that type, under the slug asked for. *)
Theorem summary_not_found_conditions (db : Api.tables)
  (project_slug network_type : string) (max_delay : option Z) :
  (network_summary db project_slug network_type max_delay
   = Api.HTTPException 404 "Project not found"
   <-> forall p, In p (Api.projects db) -> Api.p_slug p <> project_slug) /\
  (network_summary db project_slug network_type max_delay
   = Api.HTTPException 404 "No networks with this type"
   <-> exists p, Api.project_by_slug db project_slug = Some p /\
                 forall n, ~ matching db p network_type n) /\
  (forall p n, Api.project_by_slug db project_slug = Some p ->
               matching db p network_type n ->
               exists s,
                 network_summary db project_slug network_type max_delay = Api.Ok s /\
                 Api.s_project s = project_slug /\
                 Api.s_network_type s = network_type /\
                 List.length (Api.s_networks s)
                 = List.length (filter (fun n => (Api.n_project_id n =? Api.p_id p)%Z
                                            && (Api.n_network_type n =? network_type)%string)
                                  (Api.networks db))).
Proof.
  unfold Api.network_summary. split; [|split].
  - rewrite <- project_by_slug_none.
    destruct (Api.project_by_slug db project_slug) as [p|]; [|tauto].
    destruct (Api.networks_of_type by_chain_id db p network_type);
      split; discriminate.
  - destruct (Api.project_by_slug db project_slug) as [p|] eqn:Ep.
    + destruct (Api.networks_of_type by_chain_id db p network_type) as [|n l] eqn:En.
      * split; [|reflexivity]. intros _. exists p. split; [reflexivity|].
        intros n Hn. apply networks_of_type_In in Hn. now rewrite En in Hn.
      * split; [discriminate|]. intros (p' & [= <-] & Hno). exfalso.
        apply (Hno n). apply networks_of_type_In. rewrite En. now left.
    + split; [discriminate|]. now intros (p' & [=] & _).
  - intros p n Ep Hn. rewrite Ep.
    apply networks_of_type_In in Hn.
    destruct (Api.networks_of_type by_chain_id db p network_type) as [|n0 l] eqn:En;
      [destruct Hn|].
    eexists. split; [reflexivity|]. cbn [Api.s_project Api.s_network_type Api.s_networks].
    split; [|split; [reflexivity|]].
    + unfold Api.project_by_slug in Ep. apply find_some in Ep as [_ E].
      now apply String.eqb_eq.
    + rewrite List.length_map, <- En. unfold Api.networks_of_type.
      symmetry. apply Permutation_length, by_chain_id_perm.
Qed.

Lemma network_summary_ok (db : Api.tables) (project_slug network_type : string)
  (max_delay : option Z) (s : Api.summary) :
  network_summary db project_slug network_type max_delay = Api.Ok s ->
  exists p, Api.project_by_slug db project_slug = Some p /\
            s = Api.mk_summary (Api.p_slug p) network_type
                  (map (fun n =>
                          Api.mk_network_out (Api.n_chain_id n) (Api.n_network_type n)
                            (Api.within max_delay
                               (map (endpoint_entry db)
                                    (Api.endpoints_of by_type_name db n))))
                       (Api.networks_of_type by_chain_id db p network_type)).
Proof.
  unfold Api.network_summary.
  destruct (Api.project_by_slug db project_slug) as [p|] eqn:Ep; [|discriminate].
  destruct (Api.networks_of_type by_chain_id db p network_type) as [|n0 l] eqn:En;
    [discriminate|].
  intros [= <-]. exists p. split; [reflexivity|]. now rewrite En.
Qed.

(** X19: the filter on [max_delay] removes only endpoints whose last delay is
    known and greater: an endpoint listed has no delay or one that is at
    most [max_delay], and an endpoint of a network of the summary that has
    no delay, because it was never checked or its last check gave none,
    is listed whatever [max_delay] is. *)
Theorem max_delay_keeps_endpoints_without_delay (db : Api.tables)
  (project_slug network_type : string) (max_delay : option Z) (s : Api.summary) :
  network_summary db project_slug network_type max_delay = Api.Ok s ->
  (forall no ep m d,
      In no (Api.s_networks s) -> In ep (Api.no_endpoints no) ->
      max_delay = Some m -> Api.o_block_delay_ms ep = Some d -> d <= m) /\
  (forall p n e,
      Api.project_by_slug db project_slug = Some p ->
      matching db p network_type n ->
      In e (Api.endpoints db) -> ep_network_id e = Api.n_id n ->
      max_delay = None
      \/ Api.o_block_delay_ms (endpoint_entry db e) = None
      \/ (exists d m, Api.o_block_delay_ms (endpoint_entry db e) = Some d
                      /\ max_delay = Some m /\ d <= m) ->
      exists no, In no (Api.s_networks s) /\
                 Api.no_chain_id no = Api.n_chain_id n /\
                 In (endpoint_entry db e) (Api.no_endpoints no)) /\
  (forall e, find (fun st => st_endpoint_id st =? ep_id e)%Z (Api.statuses db) = None ->
             Api.o_block_delay_ms (endpoint_entry db e) = None).
Proof.
  intros Hs. apply network_summary_ok in Hs as (p & Ep & ->).
  cbn [Api.s_networks]. split; [|split].
  - intros no ep m d Hno Hep -> Hd.
    apply in_map_iff in Hno as (n & <- & _). cbn [Api.no_endpoints Api.within] in Hep.
    apply filter_In in Hep as [_ H]. rewrite Hd in H. now apply Z.leb_le.
  - intros p' n e Ep' Hn He Hj Hkeep. rewrite Ep in Ep'. injection Ep' as <-.
    exists (Api.mk_network_out (Api.n_chain_id n) (Api.n_network_type n)
              (Api.within max_delay
                 (map (endpoint_entry db) (Api.endpoints_of by_type_name db n)))).
    split; [|split; [reflexivity|]].
    + apply in_map_iff. exists n. split; [reflexivity|].
      now apply networks_of_type_In.
    + cbn [Api.no_endpoints].
      assert (Hin : In (endpoint_entry db e)
                       (map (endpoint_entry db) (Api.endpoints_of by_type_name db n))).
      { apply in_map. now apply endpoints_of_In. }
      unfold Api.within. destruct max_delay as [m|]; [|exact Hin].
      apply filter_In. split; [exact Hin|].
      destruct Hkeep as [H|[H|(d & m' & Hd & [= <-] & Hle)]]; [discriminate|..].
      * now rewrite H.
      * rewrite Hd. now apply Z.leb_le.
  - intros e H. unfold Api.endpoint_entry. now rewrite H.
Qed.

(** X21: the table of [html_index] shows every network of every project: a
    network with endpoints has one row per endpoint, a network without
    endpoints has one row with empty endpoint fields. *)
Theorem html_index_shows_every_network (db : Api.tables)
  (p : Api.Project) (n : Api.Network) :
  In p (Api.projects db) -> In n (Api.networks db) ->
  Api.n_project_id n = Api.p_id p ->
  (forall e, In e (Api.endpoints db) -> ep_network_id e = Api.n_id n ->
             In (Api.endpoint_row isoformat db p n e) (html_index_rows db)) /\
  ((forall e, In e (Api.endpoints db) -> ep_network_id e <> Api.n_id n) ->
   In (Api.empty_row p n) (html_index_rows db)) /\
  exists r, In r (html_index_rows db) /\
            Api.row_project_slug r = Api.p_slug p /\
            Api.row_chain_id r = Api.n_chain_id n /\
            Api.row_network_type r = Api.n_network_type n.
Proof.
  intros Hp Hn Hj.
  assert (Hnet : In n (by_type_chain_id
                         (filter (fun n => (Api.n_project_id n =? Api.p_id p)%Z)
                                 (Api.networks db)))).
  { apply (Permutation_in _ (by_type_chain_id_perm _)). apply filter_In.
    split; [exact Hn | now apply Z.eqb_eq]. }
  assert (Hproj : In p (by_slug (Api.projects db)))
    by (apply (Permutation_in _ (by_slug_perm _)); exact Hp).
  assert (Hrows : forall r,
             In r (match Api.endpoints_of by_type_name db n with
                   | [] => [Api.empty_row p n]
                   | endpoints => map (Api.endpoint_row isoformat db p n) endpoints
                   end) ->
             In r (html_index_rows db)).
  { intros r Hr. unfold Api.html_index_rows. apply in_flat_map. exists p.
    split; [exact Hproj|]. apply in_flat_map. exists n. split; [exact Hnet | exact Hr]. }
  split; [|split].
  - intros e He Hen. apply Hrows.
    assert (Hin : In e (Api.endpoints_of by_type_name db n))
      by now apply endpoints_of_In.
    destruct (Api.endpoints_of by_type_name db n) as [|e0 l] eqn:E; [destruct Hin|].
    now apply in_map.
  - intros Hnone. apply Hrows.
    destruct (Api.endpoints_of by_type_name db n) as [|e0 l] eqn:E; [now left|].
    exfalso. assert (Hin : In e0 (Api.endpoints_of by_type_name db n))
      by (rewrite E; now left).
    apply endpoints_of_In in Hin as [Hin He]. exact (Hnone e0 Hin He).
  - destruct (Api.endpoints_of by_type_name db n) as [|e0 l] eqn:E.
    + exists (Api.empty_row p n). split; [apply Hrows; now left|].
      repeat split.
    + exists (Api.endpoint_row isoformat db p n e0).
      split; [apply Hrows; now left|].
      unfold Api.endpoint_row. destruct (find _ (Api.statuses db)); repeat split.
Qed.

Lemma matching_filter (db : Api.tables) (p : Api.Project) (network_type : string)
  (n : Api.Network) :
  In n (filter (fun n => (Api.n_project_id n =? Api.p_id p)%Z
                         && (Api.n_network_type n =? network_type)%string)
               (Api.networks db))
  <-> matching db p network_type n.
Proof.
  unfold matching. rewrite filter_In, andb_true_iff, Z.eqb_eq, String.eqb_eq. tauto.
Qed.

(** X20: [list_endpoints] lists the endpoints of the networks of the project
    that have the type asked for, all of them or, with [only_enabled],
    the enabled ones, each under that type; it lists nothing else. *)
Theorem list_endpoints_of_matching_networks (db : Api.tables)
  (project_slug network_type : string) (only_enabled : bool)
  (items : list Api.endpoint_item) :
  Api.list_endpoints by_type_name db project_slug network_type only_enabled
  = Api.Ok items ->
  exists p,
    Api.project_by_slug db project_slug = Some p /\
    (exists n, matching db p network_type n) /\
    (forall it, In it items ->
       Api.i_network_type it = network_type /\
       (only_enabled = true -> Api.i_enabled it = true) /\
       exists e n, In e (Api.endpoints db) /\ matching db p network_type n /\
                   ep_network_id e = Api.n_id n /\
                   it = Api.endpoint_item_of network_type e) /\
    (forall e n, In e (Api.endpoints db) -> matching db p network_type n ->
                 ep_network_id e = Api.n_id n ->
                 (only_enabled = true -> ep_enabled e = true) ->
                 In (Api.endpoint_item_of network_type e) items).
Proof.
  unfold Api.list_endpoints.
  destruct (Api.project_by_slug db project_slug) as [p|] eqn:Ep; [|discriminate].
  intros H. exists p. split; [reflexivity|]. revert H.
  set (nets := filter _ (Api.networks db)).
  assert (Hnets : forall n, In n nets <-> matching db p network_type n)
    by (intro n; apply matching_filter).
  assert (Hids : forall e,
             existsb (Z.eqb (ep_network_id e)) (map Api.n_id nets) = true
             <-> exists n, matching db p network_type n /\ ep_network_id e = Api.n_id n).
  { intro e. rewrite existsb_exists. split.
    - intros (i & Hi & E). apply in_map_iff in Hi as (n & <- & Hn).
      apply Z.eqb_eq in E. exists n. split; [now apply Hnets | exact E].
    - intros (n & Hn & E). exists (Api.n_id n). split.
      + apply in_map. now apply Hnets.
      + now apply Z.eqb_eq. }
  destruct nets as [|n0 l] eqn:En; [discriminate|]. rewrite <- En in *.
  intros [= <-]. split; [|split].
  - exists n0. apply Hnets. rewrite En. now left.
  - intros it Hit. apply in_map_iff in Hit as (e & <- & He).
    apply (Permutation_in _ (Permutation_sym (by_type_name_perm _))) in He.
    split; [reflexivity|]. cbn [Api.endpoint_item_of Api.i_enabled].
    assert (Hq : In e (filter (fun e => existsb (Z.eqb (ep_network_id e))
                                          (map Api.n_id nets))
                          (Api.endpoints db))
                 /\ (only_enabled = true -> ep_enabled e = true)).
    { destruct only_enabled.
      - apply filter_In in He as [He Hen]. now split.
      - split; [exact He | discriminate]. }
    destruct Hq as [Hq Hen]. split; [exact Hen|].
    apply filter_In in Hq as [Hin Hq]. apply Hids in Hq as (n & Hn & E).
    exists e, n. split; [exact Hin|]. split; [exact Hn|]. split; [exact E | reflexivity].
  - intros e n Hin Hn E Hen. apply in_map.
    apply (Permutation_in _ (by_type_name_perm _)).
    assert (Hq : In e (filter (fun e => existsb (Z.eqb (ep_network_id e))
                                          (map Api.n_id nets))
                          (Api.endpoints db))).
    { apply filter_In. split; [exact Hin|]. apply Hids. now exists n. }
    destruct only_enabled; [|exact Hq].
    apply filter_In. split; [exact Hq | now apply Hen].
Qed.

End RoutesProperties.

(* ------------------------------------------------------------------ *)
(** * Worked examples of the further properties *)

(** X2: the message of a node that answers 404 has one of the known forms. *)
Lemma error_taxonomy_witness : error_form "HTTP_STATUS_404".
Proof.
  apply (error_taxonomy Sample.fromisoformat Sample.render w_404 "http://node" None).
  right. reflexivity.
Defined.

(** X5: the message of a node that cannot be reached fits 411 characters. *)
Lemma raised_error_fits_column_witness :
  exists err,
    r_error (Checker.check_api_endpoint Sample.fromisoformat Sample.render
               w_down "http://node" None) = Some err
    /\ (String.length err <= 411)%nat.
Proof.
  apply (raised_error_fits_column Sample.fromisoformat Sample.render
           w_down "http://node" None).
  - right. reflexivity.
  - reflexivity.
Defined.

(** X7: a body that is a JSON array makes the RPC probe report the attribute
    error. *)
Lemma non_object_body_witness :
  Checker.check_rpc_endpoint Sample.fromisoformat Sample.render
    (mk_world (fun _ => HttpResponse 200 (Return (PList []))) (fun _ => T0))
    "http://node" None
  = (false, None, None, PNone,
     Some "EXCEPTION: 'list' object has no attribute 'get'").
Proof.
  destruct (non_object_body Sample.fromisoformat Sample.render
              (mk_world (fun _ => HttpResponse 200 (Return (PList []))) (fun _ => T0))
              "http://node" None 200 (PList []) eq_refl eq_refl) as [H _].
  exact (H eq_refl).
Defined.

(** X8: a block time that is a number makes the RPC probe report the
    attribute error. *)
Lemma non_text_block_time_witness :
  Checker.check_rpc_endpoint Sample.fromisoformat Sample.render
    (mk_world
       (fun _ => HttpResponse 200
                   (Return (PDict [("result",
                                    PDict [("sync_info",
                                            PDict [("latest_block_time", PInt 17)])])])))
       (fun _ => T0))
    "http://node" None
  = (false, None, None, PNone,
     Some "EXCEPTION: 'int' object has no attribute 'endswith'").
Proof.
  destruct (non_text_block_time Sample.fromisoformat Sample.render
              (mk_world
                 (fun _ => HttpResponse 200
                             (Return (PDict [("result",
                                              PDict [("sync_info",
                                                      PDict [("latest_block_time",
                                                              PInt 17)])])])))
                 (fun _ => T0))
              "http://node" None 200
              (PDict [("result",
                       PDict [("sync_info", PDict [("latest_block_time", PInt 17)])])])
              PNone PNone (PInt 17) eq_refl eq_refl eq_refl) as [H _].
  exact (H eq_refl eq_refl).
Defined.

(** X9: nine and six digits of a fraction give the same delay. *)
Lemma sub_microsecond_digits_ignored_witness :
  Checker._calc_block_delay_ms Sample.fromisoformat (T0 + 5123456)
    (PStr "2024-01-02T03:04:05.123456789Z")
  = Checker._calc_block_delay_ms Sample.fromisoformat (T0 + 5123456)
      (PStr "2024-01-02T03:04:05.123456Z").
Proof.
  destruct (sub_microsecond_digits_ignored Sample.fromisoformat (T0 + 5123456)
              "2024-01-02T03:04:05" "123456789" "123456" "Z"
              eq_refl eq_refl eq_refl eq_refl eq_refl) as [_ H].
  exact H.
Defined.

(** X15: after a batch that commits and one that is rolled back, starting from
    empty tables, the status of endpoint 1 is that of its last check. *)
Lemma status_is_view_of_latest_check_witness :
  let store' := Runner.main_loop Sample.fromisoformat Sample.render
                  [env_ok; env_fault] 10
                  (Runner.mk_database [ep1; ep2; ep3] [net1] [] []) in
  rows_for 1 (Runner.statuses store')
  = match last_check 1 (Runner.checks store') with
    | Some c => [status_of_check c]
    | None => []
    end.
Proof.
  apply (status_is_view_of_latest_check Sample.fromisoformat Sample.render
           [env_ok; env_fault] 10 (Runner.mk_database [ep1; ep2; ep3] [net1] [] [])).
  intros id. reflexivity.
Defined.

(** X16: the mismatch recorded for endpoint 1 names the chain id of its network. *)
Lemma recorded_mismatch_names_network_witness :
  exists y, "CHAIN_ID_MISMATCH: expected=cosmoshub-4, got=osmosis-1"
            = "CHAIN_ID_MISMATCH: expected=" ++ Runner.net_chain_id net1 ++ ", got=" ++ y.
Proof.
  destruct (recorded_mismatch_names_network Sample.fromisoformat Sample.render
              env_ok ep1 net1
              "CHAIN_ID_MISMATCH: expected=cosmoshub-4, got=osmosis-1"
              eq_refl eq_refl) as (_ & _ & H).
  exact H.
Defined.

(** X17: 75 s read as ["1m 15s"]. *)
Lemma format_delay_units_witness : Api._format_delay (Some 75000) = "1m 15s".
Proof.
  destruct (format_delay_units 75000) as (_ & _ & _ & H & _).
  destruct H as (m & s & Hm & Hs & Hb & E); [lia|].
  assert (Em : m = 1) by lia. assert (Es : s = 15) by lia.
  rewrite Em, Es in E. exact E.
Defined.

(** X18: a project that does not exist, a type that no network of the project
    has, and a type that one has. *)
Lemma summary_not_found_conditions_witness :
  Api.network_summary ApiSample.isoformat ApiExamples.stored ApiExamples.stored
    ApiExamples.tables0 "osmosis" "mainnet" None
  = Api.HTTPException 404 "Project not found" /\
  Api.network_summary ApiSample.isoformat ApiExamples.stored ApiExamples.stored
    ApiExamples.tables0 "cosmos" "devnet" None
  = Api.HTTPException 404 "No networks with this type" /\
  exists s,
    Api.network_summary ApiSample.isoformat ApiExamples.stored ApiExamples.stored
      ApiExamples.tables0 "cosmos" "mainnet" None = Api.Ok s
    /\ Api.s_project s = "cosmos".
Proof.
  split; [|split].
  - destruct (summary_not_found_conditions ApiSample.isoformat
                ApiExamples.stored ApiExamples.stored
                (fun l => Permutation_refl l)
                ApiExamples.tables0 "osmosis" "mainnet" None) as (H & _).
    apply H. intros p [<-|[]]. discriminate.
  - destruct (summary_not_found_conditions ApiSample.isoformat
                ApiExamples.stored ApiExamples.stored
                (fun l => Permutation_refl l)
                ApiExamples.tables0 "cosmos" "devnet" None) as (_ & H & _).
    apply H. exists ApiExamples.cosmos. split; [reflexivity|].
    intros n (Hin & _ & Ht). destruct Hin as [<-|[<-|[]]]; discriminate.
  - destruct (summary_not_found_conditions ApiSample.isoformat
                ApiExamples.stored ApiExamples.stored
                (fun l => Permutation_refl l)
                ApiExamples.tables0 "cosmos" "mainnet" None) as (_ & _ & H).
    destruct (H ApiExamples.cosmos ApiExamples.mainnet eq_refl)
      as (s & Hs & Hp & _).
    + split; [now left | split; reflexivity].
    + exists s. split; assumption.
Defined.

(** X19: with [max_delay=60000] the endpoint that was never checked is listed. *)
Lemma max_delay_keeps_endpoints_without_delay_witness :
  exists s no,
    Api.network_summary ApiSample.isoformat ApiExamples.stored ApiExamples.stored
      ApiExamples.tables0 "cosmos" "mainnet" (Some 60000) = Api.Ok s
    /\ In no (Api.s_networks s)
    /\ In (Api.endpoint_entry ApiSample.isoformat ApiExamples.tables0 ep3)
          (Api.no_endpoints no).
Proof.
  eexists.
  destruct (max_delay_keeps_endpoints_without_delay ApiSample.isoformat
              ApiExamples.stored ApiExamples.stored
              (fun l => Permutation_refl l) (fun l => Permutation_refl l)
              ApiExamples.tables0 "cosmos" "mainnet" (Some 60000) _ eq_refl)
    as (_ & H & _).
  destruct (H ApiExamples.cosmos ApiExamples.mainnet ep3 eq_refl)
    as (no & Hno & _ & Hin).
  - split; [now left | split; reflexivity].
  - right. now left.
  - reflexivity.
  - right. left. reflexivity.
  - exists no. split; [reflexivity|]. split; assumption.
Defined.

(** X21: the testnet network, which has no endpoints, has its row. *)
Lemma html_index_shows_every_network_witness :
  In (Api.empty_row ApiExamples.cosmos ApiExamples.testnet)
     (Api.html_index_rows ApiSample.isoformat ApiExamples.stored ApiExamples.stored
        ApiExamples.stored ApiExamples.tables0).
Proof.
  destruct (html_index_shows_every_network ApiSample.isoformat
              ApiExamples.stored ApiExamples.stored ApiExamples.stored
              (fun l => Permutation_refl l) (fun l => Permutation_refl l)
              (fun l => Permutation_refl l)
              ApiExamples.tables0 ApiExamples.cosmos ApiExamples.testnet)
    as (_ & H & _).
  - now left.
  - right. now left.
  - reflexivity.
  - apply H. intros e [<-|[<-|[<-|[]]]]; discriminate.
Defined.

(** X20: with [only_enabled] the disabled endpoint is not listed, the enabled
    ones are. *)
Lemma list_endpoints_of_matching_networks_witness :
  exists items,
    Api.list_endpoints ApiExamples.stored ApiExamples.tables0 "cosmos" "mainnet" true
    = Api.Ok items
    /\ In (Api.endpoint_item_of "mainnet" ep1) items
    /\ forall it, In it items -> Api.i_enabled it = true.
Proof.
  eexists.
  destruct (list_endpoints_of_matching_networks ApiExamples.stored
              (fun l => Permutation_refl l)
              ApiExamples.tables0 "cosmos" "mainnet" true _ eq_refl)
    as (p & Hp & _ & Hall & Hin).
  injection Hp as <-.
  split; [reflexivity|]. split.
  - apply (Hin ep1 ApiExamples.mainnet).
    + right. right. now left.
    + split; [now left | split; reflexivity].
    + reflexivity.
    + reflexivity.
  - intros it Hit. destruct (Hall it Hit) as (_ & H & _). now apply H.
Defined.

(** X10: the delay of a block seen 5.123456 s after its time is defined. *)
Lemma delay_defined_for_parsed_time_witness :
  exists d,
    Checker._calc_block_delay_ms Sample.fromisoformat (T0 + 5123456)
      (PStr "2024-01-02T03:04:05Z") = Return (Some d)
    /\ 0 <= d.
Proof.
  destruct (delay_defined_for_parsed_time Sample.fromisoformat (T0 + 5123456)
              "2024-01-02T03:04:05Z" (mk_datetime T0 (Some 0)))
    as (d & E & Hd & _).
  - vm_compute. split; discriminate.
  - vm_compute. split; discriminate.
  - reflexivity.
  - exists d. split; assumption.
Defined.

(** X12: a node of the expected chain is available. *)
Lemma healthy_node_is_available_witness :
  exists d,
    Checker.check_rpc_endpoint Sample.fromisoformat Sample.render
      (w_rpc (PStr "cosmoshub-4")) "http://a/" (Some "cosmoshub-4")
    = (true, Some 200, Some d, PStr "100", None)
    /\ 0 <= d.
Proof.
  destruct (healthy_node_is_available Sample.fromisoformat Sample.render
              (w_rpc (PStr "cosmoshub-4")) "http://a/" (Some "cosmoshub-4") 200
              (status_body (PStr "cosmoshub-4")) (PStr "cosmoshub-4") (PStr "100")
              "2024-01-02T03:04:05.123456789Z" (mk_datetime (T0 + 123456) (Some 0)))
    as (H & _).
  - reflexivity.
  - reflexivity.
  - discriminate.
  - reflexivity.
  - vm_compute. split; discriminate.
  - intros url. vm_compute. split; discriminate.
  - exact (H eq_refl eq_refl).
Defined.

(** X11: a block seen 5.123456 s after its time has a delay of 5123 ms. *)
Lemma delay_within_one_millisecond_witness :
  Checker._calc_block_delay_ms Sample.fromisoformat (T0 + 5123456)
    (PStr "2024-01-02T03:04:05Z") = Return (Some 5123).
Proof.
  destruct (delay_within_one_millisecond Sample.fromisoformat (T0 + 5123456)
              "2024-01-02T03:04:05Z" (mk_datetime T0 (Some 0)))
    as (d & E & _ & _ & Hex).
  - reflexivity.
  - vm_compute. split; [discriminate | reflexivity].
  - rewrite E. rewrite Hex; [reflexivity|]. vm_compute. discriminate.
Defined.

(** X4: the node whose block requests are cut off is available by its base
    URL alone. *)
Lemma liveness_only_after_both_paths_raise_witness :
  exists e1 e2,
    Checker._check_rest_block_latest Sample.fromisoformat Sample.render
      w_alive "http://node" Checker.PATH_NEW None = Raise e1 /\
    Checker._check_rest_block_latest Sample.fromisoformat Sample.render
      w_alive "http://node" Checker.PATH_OLD None = Raise e2.
Proof.
  destruct (liveness_only_after_both_paths_raise Sample.fromisoformat Sample.render
              w_alive "http://node" None eq_refl eq_refl) as [H _].
  exact H.
Defined.
